(** * Tempo -> Toggl synchronisation: a shallow embedding and its properties

    The development follows the layout of the repository:

    - [lib/deduplication.ts]  timestamp normalisation and duplicate filtering;
    - [lib/transform.ts]      worklog -> time-entry payload (two revisions);
    - [api/tempo-client.ts]   issue enrichment;
    - [api/toggl-client.ts]   sequential creation of entries;
    - [services/sync-service.ts] the orchestrating [syncTimeEntries];
    - [lib/date-input.ts]     the prompts for dates and their validation;
    - [config.ts]             the environment variables;
    - [main.ts]               the entry point.

    JavaScript values are modelled as follows.  Strings are [string]s whose
    characters stand for code units below 256.  Numbers are integers, [NaN]
    or an infinity.
    A thrown value is either an [Error] object or some other value.  Code that
    can throw returns a [JsResult]; code that talks to the remote services
    threads a world state and a log of the requests it issued. *)

From Stdlib Require Import ZArith List String Ascii Bool Lia.
From stdpp Require Import base option list strings gmap.
Import ListNotations.

Local Open Scope Z_scope.

(* ===================================================================== *)
(** ** JavaScript values                                                  *)
(* ===================================================================== *)

(** A JS [number] restricted to the values the program meets: integers
    (identifiers, second counts), [NaN] (what [parseInt] gives on a
    non-numeric environment variable) and the two infinities (what it
    gives on a run of digits beyond the largest number).  The two zeros
    are one [Num 0]: nothing in the program tells them apart. *)
Inductive number : Type :=
| Num (z : Z)
| NaN
| Infinity (negative : bool).

(** [n > 0] on numbers: any comparison with [NaN] is false. *)
Definition number_gt0 (n : number) : bool :=
  match n with
  | Num z => 0 <? z
  | NaN => false
  | Infinity negative => negb negative
  end.

(** Truthiness of a number: [0] and [NaN] are falsy. *)
Definition number_truthy (n : number) : bool :=
  match n with
  | Num z => negb (z =? 0)
  | NaN => false
  | Infinity _ => true
  end.

(** Truthiness of a string: only the empty string is falsy. *)
Definition string_truthy (s : string) : bool :=
  match s with
  | EmptyString => false
  | String _ _ => true
  end.

(** [x || d] for a possibly undefined string [x]. *)
Definition string_or (x : option string) (d : string) : string :=
  match x with
  | Some s => if string_truthy s then s else d
  | None => d
  end.

(** A value caught by [catch]: an instance of [Error] (with its [name] and
    [message]), or anything else, of which only [String(value)] is kept. *)
Inductive Thrown : Type :=
| ErrorObj (name message : string)
| NonError (shown : string).

(** The outcome of evaluating an expression that may throw. *)
Inductive JsResult (A : Type) : Type :=
| Ok (a : A)
| Throw (e : Thrown).
Arguments Ok {A} a.
Arguments Throw {A} e.

#[global] Instance JsResult_ret : MRet JsResult := fun A a => Ok a.
#[global] Instance JsResult_bind : MBind JsResult := fun A B f r =>
  match r with
  | Ok a => f a
  | Throw e => Throw e
  end.

(** [xs.map(f)] when the callback may throw: elements are visited from the
    left and the first exception aborts the traversal. *)
Fixpoint mapR {A B : Type} (f : A -> JsResult B) (xs : list A)
  : JsResult (list B) :=
  match xs with
  | [] => Ok []
  | x :: xs' =>
      y ← f x;
      ys ← mapR f xs';
      Ok (y :: ys)
  end.

(* ===================================================================== *)
(** ** [String.prototype.trim]                                            *)
(* ===================================================================== *)

(** White space and line terminators among the code units below 256:
    TAB, LF, VT, FF, CR, SP and NBSP. *)
Definition isWhiteSpace (c : ascii) : bool :=
  let n := N_of_ascii c in
  ((9 <=? n) && (n <=? 13) || (n =? 32) || (n =? 160))%N.

Fixpoint trimStart (s : string) : string :=
  match s with
  | String c s' => if isWhiteSpace c then trimStart s' else s
  | EmptyString => EmptyString
  end.

Fixpoint trimEnd (s : string) : string :=
  match s with
  | String c s' =>
      match trimEnd s' with
      | EmptyString => if isWhiteSpace c then EmptyString else String c EmptyString
      | t => String c t
      end
  | EmptyString => EmptyString
  end.

Definition trim (s : string) : string := trimEnd (trimStart s).

(* ===================================================================== *)
(** ** The [Date] built-in                                                *)
(* ===================================================================== *)

Module JsDate.

(** *** Calendar arithmetic on the proleptic Gregorian calendar *)

Definition msPerDay : Z := 86400000.
Definition msPerHour : Z := 3600000.
Definition msPerMinute : Z := 60000.
Definition msPerSecond : Z := 1000.

(** Number of days from 1970-01-01 to the first of month [m] (1..12) of
    year [y], plus [d - 1]: the [MakeDay] of the language definition, on
    a year that starts in March so that the leap day comes last. *)
Definition MakeDay (y m d : Z) : Z :=
  let y' := if m <=? 2 then y - 1 else y in
  let era := y' / 400 in
  let yoe := y' - era * 400 in
  let mp := if m <=? 2 then m + 9 else m - 3 in
  let doy := (153 * mp + 2) / 5 + d - 1 in
  let doe := yoe * 365 + yoe / 4 - yoe / 100 + doy in
  era * 146097 + doe - 719468.

Definition MakeTime (h mi s ms : Z) : Z :=
  h * msPerHour + mi * msPerMinute + s * msPerSecond + ms.

Definition MakeDate (day time : Z) : Z := day * msPerDay + time.

(** The inverse direction: year, month and day of a day number. *)
Definition civil_of_day (day : Z) : Z * Z * Z :=
  let z := day + 719468 in
  let era := z / 146097 in
  let doe := z - era * 146097 in
  let yoe := (doe - doe / 1460 + doe / 36524 - doe / 146096) / 365 in
  let doy := doe - (365 * yoe + yoe / 4 - yoe / 100) in
  let mp := (5 * doy + 2) / 153 in
  let d := doy - (153 * mp + 2) / 5 + 1 in
  let m := if mp <? 10 then mp + 3 else mp - 9 in
  let y := yoe + era * 400 in
  ((if m <=? 2 then y + 1 else y), m, d).

(** A time value is kept only within 100,000,000 days of the epoch. *)
Definition TimeClip (t : Z) : option Z :=
  if Z.abs t <=? 8640000000000000 then Some t else None.

(** *** Decimal fields *)

Definition digit (c : ascii) : option Z :=
  let n := Z.of_N (N_of_ascii c) in
  if (48 <=? n) && (n <=? 57) then Some (n - 48) else None.

Definition digit_char (d : Z) : ascii := ascii_of_N (Z.to_N (d + 48)).

(** Reads exactly [k] decimal digits. *)
Fixpoint digits (k : nat) (acc : Z) (s : list ascii)
  : option (Z * list ascii) :=
  match k with
  | O => Some (acc, s)
  | S k' =>
      match s with
      | c :: s' => d ← digit c; digits k' (10 * acc + d) s'
      | [] => None
      end
  end.

(** Writes [n] on exactly [k] decimal digits (the low [k] ones). *)
Fixpoint pad (k : nat) (n : Z) : list ascii :=
  match k with
  | O => []
  | S k' => pad k' (n / 10) ++ [digit_char (n mod 10)]
  end.

Definition expect (c : ascii) (s : list ascii) : option (list ascii) :=
  match s with
  | c' :: s' => if Ascii.eqb c c' then Some s' else None
  | [] => None
  end.

Definition check (b : bool) : option unit := if b then Some tt else None.

(** *** The date-time string format

    [YYYY], [YYYY-MM] or [YYYY-MM-DD] (or a signed six-digit year), alone
    or followed by [T] and [HH:mm], [HH:mm:ss] or [HH:mm:ss.sss] and a
    time-zone designator [Z], [+HH:mm] or [-HH:mm]. *)

(** The designator, in milliseconds east of UTC. *)
Definition parse_offset (s : list ascii) : option Z :=
  match s with
  | ["Z"%char] => Some 0
  | sign :: r =>
      sg ← (if Ascii.eqb sign "+" then Some 1
            else if Ascii.eqb sign "-" then Some (-1) else None);
      '(hh, r1) ← digits 2 0 r;
      r2 ← expect ":" r1;
      '(mm, r3) ← digits 2 0 r2;
      _ ← check (match r3 with [] => true | _ => false end);
      _ ← check ((hh <=? 23) && (mm <=? 59));
      Some (sg * (hh * msPerHour + mm * msPerMinute))
  | [] => None
  end.

(** The time of day and the designator: the time within the day, in
    milliseconds, already brought back to UTC. *)
Definition parse_time (s : list ascii) : option Z :=
  '(hh, r1) ← digits 2 0 s;
  r2 ← expect ":" r1;
  '(mi, r3) ← digits 2 0 r2;
  '(ss, ms, r4) ←
    match r3 with
    | ":"%char :: r =>
        '(ss, r') ← digits 2 0 r;
        match r' with
        | "."%char :: r'' => '(ms, r''') ← digits 3 0 r''; Some (ss, ms, r''')
        | _ => Some (ss, 0, r')
        end
    | _ => Some (0, 0, r3)
    end;
  _ ← check ((hh <=? 23) && (mi <=? 59) && (ss <=? 59)
             || (hh =? 24) && (mi =? 0) && (ss =? 0) && (ms =? 0));
  off ← parse_offset r4;
  Some (MakeTime hh mi ss ms - off).

Definition parse_year (s : list ascii) : option (Z * list ascii) :=
  match s with
  | "+"%char :: r => digits 6 0 r
  | "-"%char :: r =>
      '(y, r') ← digits 6 0 r;
      _ ← check (negb (y =? 0));
      Some (- y, r')
  | _ => digits 4 0 s
  end.

Definition parse_date (s : list ascii) : option (Z * Z * Z * list ascii) :=
  '(y, r) ← parse_year s;
  match r with
  | "-"%char :: r1 =>
      '(m, r2) ← digits 2 0 r1;
      match r2 with
      | "-"%char :: r3 =>
          '(d, r4) ← digits 2 0 r3;
          Some (y, m, d, r4)
      | _ => Some (y, m, 1, r2)
      end
  | _ => Some (y, 1, 1, r)
  end.

(** The part of [Date.parse] the language fixes.  A day number beyond the
    length of the month runs into the next month, as the engine under
    Deno does.  A date-time without designator is local time and is not
    decided here. *)
Definition parseISO (s : list ascii) : option Z :=
  '(y, m, d, r) ← parse_date s;
  _ ← check ((1 <=? m) && (m <=? 12) && (1 <=? d) && (d <=? 31));
  match r with
  | [] => TimeClip (MakeDate (MakeDay y m d) 0)
  | "T"%char :: r' =>
      t ← parse_time r';
      TimeClip (MakeDate (MakeDay y m d) t)
  | _ => None
  end.

Section Host.

(** Whatever else the host makes of a string: local-time forms and the
    formats of its own.  [None] is [NaN]. *)
Variable host_parse : string -> option Z.

(** [Date.parse]: the fixed format first, the host's extensions after. *)
Definition parse (s : string) : option Z :=
  match parseISO (list_ascii_of_string s) with
  | Some t => Some t
  | None => host_parse s
  end.

End Host.

(** *** [Date.prototype.toISOString] *)

Definition format_year (y : Z) : list ascii :=
  if (0 <=? y) && (y <=? 9999) then pad 4 y
  else (if y <? 0 then "-"%char else "+"%char) :: pad 6 (Z.abs y).

Definition format_time_value (t : Z) : string :=
  let day := t / msPerDay in
  let tm := t mod msPerDay in
  let '(y, m, d) := civil_of_day day in
  string_of_list_ascii
    (format_year y ++ "-"%char :: pad 2 m ++ "-"%char :: pad 2 d
     ++ "T"%char :: pad 2 (tm / msPerHour)
     ++ ":"%char :: pad 2 (tm / msPerMinute mod 60)
     ++ ":"%char :: pad 2 (tm / msPerSecond mod 60)
     ++ "."%char :: pad 3 (tm mod 1000) ++ ["Z"%char]).

(** A [Date] object holds a time value or [NaN]; [toISOString] throws a
    [RangeError] on the latter. *)
Definition invalid_time : Thrown := ErrorObj "RangeError" "Invalid time value".

Definition toISOString (tv : option Z) : JsResult string :=
  match tv with
  | Some t => Ok (format_time_value t)
  | None => Throw invalid_time
  end.

End JsDate.

(** The host's share of date parsing.  Nothing is assumed of it: what is
    proved holds on every host. *)
Class Host := { host_parse : string -> option Z }.

(* ===================================================================== *)
(** ** [types.ts]                                                         *)
(* ===================================================================== *)

(** A JSON value, for the fields the program never looks into. *)
#[warnings="-register-all"]
Inductive Json : Type :=
| JNull
| JBool (b : bool)
| JNumber (n : number)
| JString (s : string)
| JArray (xs : list Json)
| JObject (fields : list (string * Json)).

Module Issue.
Record t : Type := mk {
  self : string;
  id : number;
  key : option string;      (* [key?: string] *)
  summary : option string;  (* [summary?: string] *)
}.
End Issue.

Module Author.
Record t : Type := mk { self : string; accountId : string }.
End Author.

Module Attributes.
Record t : Type := mk { self : string; values : list Json }.
End Attributes.

(** The interface declares [issue] and [description] as always present, but
    the code guards both ([worklog.issue?.self], [worklog.description || ""]):
    they are optional here. *)
Module TempoWorklog.
Record t : Type := mk {
  self : string;
  tempoWorklogId : number;
  issue : option Issue.t;
  timeSpentSeconds : number;
  billableSeconds : number;
  startDate : string;
  startTime : string;
  startDateTimeUtc : string;
  description : option string;
  createdAt : string;
  updatedAt : string;
  author : Author.t;
  attributes : Attributes.t;
}.
End TempoWorklog.

(** An optional property of an object: the object has no such property, or
    it has one, whose value may still be [undefined]. *)
Inductive property (A : Type) : Type :=
| Absent
| Own (v : option A).
Arguments Absent {A}.
Arguments Own {A} v.

(** What reading the property gives: [undefined] when there is no such
    property and when the property holds [undefined]. *)
Definition read {A : Type} (p : property A) : option A :=
  match p with
  | Absent => None
  | Own v => v
  end.

(** [task_id] is the property the later revision of the transformation
    writes; [types.ts] as kept here does not declare it yet. *)
Module TogglTimeEntryPayload.
Record t : Type := mk {
  workspace_id : number;
  project_id : property number;
  task_id : property number;
  billable : bool;
  start : string;
  stop : property string;
  duration : number;
  description : string;
  created_with : string;
  tags : property (list string);
}.

(** [payload.project_id = v] *)
Definition set_project_id (v : number) (p : t) : t :=
  mk (workspace_id p) (Own (Some v)) (task_id p) (billable p) (start p)
     (stop p) (duration p) (description p) (created_with p) (tags p).

(** A number as [JSON.stringify] writes it: [null] for [NaN] and the
    infinities. *)
Definition number_toJSON (n : number) : Json :=
  match n with
  | Num _ => JNumber n
  | NaN | Infinity _ => JNull
  end.

(** The members [JSON.stringify] writes for a payload made by the
    transformation, in the order in which the properties are created there
    ([stop] and [tags], which it never sets, are given a place): a property
    holding [undefined] is left out. *)
Definition member {A : Type} (name : string) (enc : A -> Json)
    (p : property A) : list (string * Json) :=
  match p with
  | Own (Some v) => [(name, enc v)]
  | _ => []
  end.

Definition toJSON (p : t) : list (string * Json) :=
  [("workspace_id", number_toJSON (workspace_id p))]
  ++ member "task_id" number_toJSON (task_id p)
  ++ [("billable", JBool (billable p));
      ("start", JString (start p))]
  ++ member "stop" JString (stop p)
  ++ [("duration", number_toJSON (duration p));
      ("description", JString (description p));
      ("created_with", JString (created_with p))]
  ++ member "tags" (fun ts => JArray (map JString ts)) (tags p)
  ++ member "project_id" number_toJSON (project_id p).
End TogglTimeEntryPayload.

(** [created_with] is declared as always present, but the code falls back
    on a default ([config.created_with || "..."]). *)
Module TempoToTogglConfig.
Record t : Type := mk {
  workspace_id : number;
  project_id : option number;   (* [project_id?: number] *)
  task_id : option number;      (* read as [config.task_id] *)
  created_with : option string;
}.
End TempoToTogglConfig.

(* ===================================================================== *)
(** ** [lib/deduplication.ts]                                             *)
(* ===================================================================== *)

Module ExistingEntry.
Record t : Type := mk { start : string }.
End ExistingEntry.

Module DeduplicationResult.
Record t : Type := mk {
  uniqueEntries : list TogglTimeEntryPayload.t;
  duplicates : list TogglTimeEntryPayload.t;
  skippedCount : Z;
}.
End DeduplicationResult.

Section Deduplication.
Context `{Host}.

(** [new Date(timestamp).toISOString()] *)
Definition normalizeTimestamp (timestamp : string) : JsResult string :=
  JsDate.toISOString (JsDate.parse host_parse timestamp).

(** The callback of [newEntries.filter], run over the array from the left
    with the [duplicates] array it pushes to.  Gives the entries kept and
    the final [duplicates]. *)
Fixpoint filter_newEntries (existingStartTimes : gset string)
    (newEntries duplicates : list TogglTimeEntryPayload.t)
  : JsResult (list TogglTimeEntryPayload.t * list TogglTimeEntryPayload.t) :=
  match newEntries with
  | [] => Ok ([], duplicates)
  | newEntry :: rest =>
      normalizedStart ← normalizeTimestamp (TogglTimeEntryPayload.start newEntry);
      let isDuplicate := bool_decide (normalizedStart ∈ existingStartTimes) in
      let duplicates :=
        if isDuplicate then duplicates ++ [newEntry] else duplicates in
      '(kept, duplicates) ← filter_newEntries existingStartTimes rest duplicates;
      Ok (if negb isDuplicate then newEntry :: kept else kept, duplicates)
  end.

Definition filterDuplicateEntries
    (newEntries : list TogglTimeEntryPayload.t)
    (existingEntries : list ExistingEntry.t)
  : JsResult DeduplicationResult.t :=
  let duplicates : list TogglTimeEntryPayload.t := [] in
  normalized ← mapR (fun entry => normalizeTimestamp (ExistingEntry.start entry))
                    existingEntries;
  let existingStartTimes : gset string := list_to_set normalized in
  '(uniqueEntries, duplicates) ←
    filter_newEntries existingStartTimes newEntries duplicates;
  Ok (DeduplicationResult.mk uniqueEntries duplicates
        (Z.of_nat (length duplicates))).

End Deduplication.

(* ===================================================================== *)
(** ** [lib/transform.ts]                                                 *)
(* ===================================================================== *)

(** [worklog.issue?.key] and [worklog.issue?.self], as far as their
    truthiness goes: [Some] of a non-empty string, or [None]. *)
Definition issue_key (worklog : TempoWorklog.t) : option string :=
  match TempoWorklog.issue worklog with
  | Some i =>
      match Issue.key i with
      | Some k => if string_truthy k then Some k else None
      | None => None
      end
  | None => None
  end.

Definition issue_self (worklog : TempoWorklog.t) : option string :=
  match TempoWorklog.issue worklog with
  | Some i => if string_truthy (Issue.self i) then Some (Issue.self i) else None
  | None => None
  end.

(** The revision that knows about issue keys and task identifiers. *)
Definition transformTempoWorklogToToggl
    (worklog : TempoWorklog.t) (config : TempoToTogglConfig.t)
  : TogglTimeEntryPayload.t :=
  let billable := number_gt0 (TempoWorklog.billableSeconds worklog) in
  let description :=
    match issue_key worklog with
    | Some key => key +:+ ": " +:+ string_or (TempoWorklog.description worklog) ""
    | None =>
        match issue_self worklog with
        | Some self => self +:+ " | " +:+ string_or (TempoWorklog.description worklog) ""
        | None => string_or (TempoWorklog.description worklog) ""
        end
    end in
  let payload :=
    {| TogglTimeEntryPayload.workspace_id := TempoToTogglConfig.workspace_id config;
       TogglTimeEntryPayload.task_id := Own (TempoToTogglConfig.task_id config);
       TogglTimeEntryPayload.billable := billable;
       TogglTimeEntryPayload.start := TempoWorklog.startDateTimeUtc worklog;
       TogglTimeEntryPayload.duration := TempoWorklog.timeSpentSeconds worklog;
       TogglTimeEntryPayload.description := trim description;
       TogglTimeEntryPayload.created_with :=
         string_or (TempoToTogglConfig.created_with config) "tempo-to-toggl-sync";
       TogglTimeEntryPayload.project_id := Absent;
       TogglTimeEntryPayload.stop := Absent;
       TogglTimeEntryPayload.tags := Absent |} in
  match TempoToTogglConfig.project_id config with
  | Some project_id =>
      if number_truthy project_id
      then TogglTimeEntryPayload.set_project_id project_id payload
      else payload
  | None => payload
  end.

Definition transformTempoWorklogsToToggl
    (worklogs : list TempoWorklog.t) (config : TempoToTogglConfig.t)
  : list TogglTimeEntryPayload.t :=
  map (fun worklog => transformTempoWorklogToToggl worklog config) worklogs.

(** The earlier revision kept under [src/lib/transform.ts]: no issue key, no
    task identifier. *)
Module Earlier.

Definition transformTempoWorklogToToggl
    (worklog : TempoWorklog.t) (config : TempoToTogglConfig.t)
  : TogglTimeEntryPayload.t :=
  let billable := number_gt0 (TempoWorklog.billableSeconds worklog) in
  let description :=
    match issue_self worklog with
    | Some self => self +:+ " | " +:+ string_or (TempoWorklog.description worklog) ""
    | None => string_or (TempoWorklog.description worklog) ""
    end in
  let payload :=
    {| TogglTimeEntryPayload.workspace_id := TempoToTogglConfig.workspace_id config;
       TogglTimeEntryPayload.task_id := Absent;
       TogglTimeEntryPayload.billable := billable;
       TogglTimeEntryPayload.start := TempoWorklog.startDateTimeUtc worklog;
       TogglTimeEntryPayload.duration := TempoWorklog.timeSpentSeconds worklog;
       TogglTimeEntryPayload.description := trim description;
       TogglTimeEntryPayload.created_with :=
         string_or (TempoToTogglConfig.created_with config) "tempo-to-toggl-sync";
       TogglTimeEntryPayload.project_id := Absent;
       TogglTimeEntryPayload.stop := Absent;
       TogglTimeEntryPayload.tags := Absent |} in
  match TempoToTogglConfig.project_id config with
  | Some project_id =>
      if number_truthy project_id
      then TogglTimeEntryPayload.set_project_id project_id payload
      else payload
  | None => payload
  end.

Definition transformTempoWorklogsToToggl
    (worklogs : list TempoWorklog.t) (config : TempoToTogglConfig.t)
  : list TogglTimeEntryPayload.t :=
  map (fun worklog => transformTempoWorklogToToggl worklog config) worklogs.

End Earlier.

(* ===================================================================== *)
(** ** Effects                                                            *)
(* ===================================================================== *)

(** An [async] function over a state [S] of everything outside the
    program: it ends with a value or a rejection, and leaves a new state.
    [await] is the bind. *)
Definition M (S A : Type) : Type := S -> JsResult A * S.

#[global] Instance M_ret {S} : MRet (M S) := fun A a s => (Ok a, s).
#[global] Instance M_bind {S} : MBind (M S) := fun A B f m s =>
  match m s with
  | (Ok a, s') => f a s'
  | (Throw e, s') => (Throw e, s')
  end.

(** A synchronous computation inside an [async] function. *)
Definition liftR {S A : Type} (r : JsResult A) : M S A := fun s => (r, s).

(** [try { body } catch (error) { handler }] *)
Definition try_catch {S A : Type} (body : M S A) (handler : Thrown -> M S A)
  : M S A := fun s =>
  match body s with
  | (Ok a, s') => (Ok a, s')
  | (Throw e, s') => handler e s'
  end.

(** [error instanceof Error ? error.message : other] *)
Definition message_or (other : Thrown -> string) (error : Thrown) : string :=
  match error with
  | ErrorObj _ message => message
  | NonError _ => other error
  end.

(** [String(error)] *)
Definition String_of (error : Thrown) : string :=
  match error with
  | ErrorObj name message =>
      if string_truthy message then name +:+ ": " +:+ message else name
  | NonError shown => shown
  end.

(* ===================================================================== *)
(** ** The remote services                                                *)
(* ===================================================================== *)

Module TogglTimeEntry.
Record t : Type := mk {
  id : number;
  workspace_id : number;
  project_id : option number;
  task_id : option number;
  billable : bool;
  start : string;
  stop : option string;
  duration : number;
  description : string;
  tags : list string;
  tag_ids : list number;
  duronly : bool;
  at_ : string;
  server_deleted_at : option string;
  user_id : number;
  uid : number;
  wid : number;
  pid : option number;
}.

(** A fetched entry where the deduplication expects [{ start }]. *)
Definition as_ExistingEntry (e : t) : ExistingEntry.t :=
  ExistingEntry.mk (start e).
End TogglTimeEntry.

Module IssueDetails.
Record t : Type := mk { key : string; summary : string }.
End IssueDetails.

(** The four requests the clients send.  What a request does on the wire is
    outside the program; each one is an operation of the remote side. *)
Inductive Call : Type :=
| FetchWorklogs (fromDate toDate : string)
| FetchJiraIssue (issueSelfUrl : string)
| FetchTimeEntries (startDate endDate : string)
| CreateTimeEntry (entry : TogglTimeEntryPayload.t).

Definition Response (c : Call) : Type :=
  match c with
  | FetchWorklogs _ _ => list TempoWorklog.t
  | FetchJiraIssue _ => IssueDetails.t
  | FetchTimeEntries _ _ => list TogglTimeEntry.t
  | CreateTimeEntry _ => TogglTimeEntry.t
  end.

(** The remote side: from its state [W], a request is answered or fails
    (a response that is not [ok], a network error), and the state moves. *)
Record Remote (W : Type) : Type := {
  respond : forall c : Call, W -> JsResult (Response c) * W;
}.
Arguments respond {W} _ c _.

(** What went wrong with a request, if anything. *)
Definition failure {A : Type} (r : JsResult A) : option Thrown :=
  match r with
  | Ok _ => None
  | Throw e => Some e
  end.

(** The world the clients act on: the remote state and the requests sent so
    far, oldest first, each with its failure. *)
Record World (W : Type) : Type := {
  remote_state : W;
  requests : list (Call * option Thrown);
}.
Arguments Build_World {W} _ _.
Arguments remote_state {W} _.
Arguments requests {W} _.

Definition perform {W : Type} (remote : Remote W) (c : Call)
  : M (World W) (Response c) := fun w =>
  let '(r, st) := respond remote c (remote_state w) in
  (r, Build_World st (requests w ++ [(c, failure r)])).

(* ===================================================================== *)
(** ** [api/tempo-client.ts]                                              *)
(* ===================================================================== *)

(** [uniqueIssueUrls.add(url)] on a set that remembers insertion order. *)
Definition Set_add (url : string) (urls : list string) : list string :=
  if bool_decide (url ∈ urls) then urls else urls ++ [url].

(** The [forEach] that collects the issue URLs of the worklogs. *)
Definition collect_issue_urls (worklogs : list TempoWorklog.t) : list string :=
  fold_left
    (fun uniqueIssueUrls worklog =>
       match issue_self worklog with
       | Some url => Set_add url uniqueIssueUrls
       | None => uniqueIssueUrls
       end)
    worklogs [].

(** [{ ...worklog, issue: { ...worklog.issue, key, summary } }] *)
Definition with_details (worklog : TempoWorklog.t) (issue : Issue.t)
    (details : IssueDetails.t) : TempoWorklog.t :=
  TempoWorklog.mk
    (TempoWorklog.self worklog) (TempoWorklog.tempoWorklogId worklog)
    (Some (Issue.mk (Issue.self issue) (Issue.id issue)
             (Some (IssueDetails.key details))
             (Some (IssueDetails.summary details))))
    (TempoWorklog.timeSpentSeconds worklog) (TempoWorklog.billableSeconds worklog)
    (TempoWorklog.startDate worklog) (TempoWorklog.startTime worklog)
    (TempoWorklog.startDateTimeUtc worklog) (TempoWorklog.description worklog)
    (TempoWorklog.createdAt worklog) (TempoWorklog.updatedAt worklog)
    (TempoWorklog.author worklog) (TempoWorklog.attributes worklog).

(** The callback of the final [worklogs.map]. *)
Definition enrich_worklog (issueDetailsMap : gmap string IssueDetails.t)
    (worklog : TempoWorklog.t) : TempoWorklog.t :=
  match TempoWorklog.issue worklog with
  | Some issue =>
      if string_truthy (Issue.self issue) then
        match issueDetailsMap !! Issue.self issue with
        | Some details => with_details worklog issue details
        | None => worklog
        end
      else worklog
  | None => worklog
  end.

Section TempoClient.
Context {W : Type} (remote : Remote W).

Definition fetchWorklogs (fromDate toDate : string)
  : M (World W) (list TempoWorklog.t) :=
  perform remote (FetchWorklogs fromDate toDate).

Definition fetchJiraIssue (issueSelfUrl : string)
  : M (World W) IssueDetails.t :=
  perform remote (FetchJiraIssue issueSelfUrl).

(** The lookups.  The program starts them all and awaits them together;
    each one writes under its own URL, so the map they leave does not
    depend on the order in which the answers arrive.  Here they run in the
    order in which they are started. *)
Fixpoint fetch_issue_details (urls : list string)
    (issueDetailsMap : gmap string IssueDetails.t)
  : M (World W) (gmap string IssueDetails.t) :=
  match urls with
  | [] => mret issueDetailsMap
  | url :: rest =>
      issueDetailsMap ←
        try_catch
          (details ← fetchJiraIssue url;
           mret (<[url := details]> issueDetailsMap))
          (fun _ => mret (<[url := IssueDetails.mk "" ""]> issueDetailsMap));
      fetch_issue_details rest issueDetailsMap
  end.

Definition enrichWorklogsWithIssueDetails (worklogs : list TempoWorklog.t)
  : M (World W) (list TempoWorklog.t) :=
  let uniqueIssueUrls := collect_issue_urls worklogs in
  issueDetailsMap ← fetch_issue_details uniqueIssueUrls ∅;
  mret (map (enrich_worklog issueDetailsMap) worklogs).

End TempoClient.

(* ===================================================================== *)
(** ** [api/toggl-client.ts]                                              *)
(* ===================================================================== *)

Module FailedEntry.
Record t : Type := mk { entry : TogglTimeEntryPayload.t; error : string }.
End FailedEntry.

Module CreateEntriesResult.
Record t : Type := mk {
  success : list TogglTimeEntry.t;
  failed : list FailedEntry.t;
  successCount : Z;
  failedCount : Z;
}.
End CreateEntriesResult.

Section TogglClient.
Context {W : Type} (remote : Remote W).

Definition fetchTimeEntries (startDate endDate : string)
  : M (World W) (list TogglTimeEntry.t) :=
  perform remote (FetchTimeEntries startDate endDate).

Definition createTimeEntry (entry : TogglTimeEntryPayload.t)
  : M (World W) TogglTimeEntry.t :=
  perform remote (CreateTimeEntry entry).

(** The [for ... of] loop, with the [result] object it updates. *)
Fixpoint createTimeEntries_from (entries : list TogglTimeEntryPayload.t)
    (result : CreateEntriesResult.t) : M (World W) CreateEntriesResult.t :=
  match entries with
  | [] => mret result
  | entry :: rest =>
      result ←
        try_catch
          (createdEntry ← createTimeEntry entry;
           mret (CreateEntriesResult.mk
                   (CreateEntriesResult.success result ++ [createdEntry])
                   (CreateEntriesResult.failed result)
                   (CreateEntriesResult.successCount result + 1)
                   (CreateEntriesResult.failedCount result)))
          (fun error =>
           mret (CreateEntriesResult.mk
                   (CreateEntriesResult.success result)
                   (CreateEntriesResult.failed result
                      ++ [FailedEntry.mk entry (message_or String_of error)])
                   (CreateEntriesResult.successCount result)
                   (CreateEntriesResult.failedCount result + 1)));
      createTimeEntries_from rest result
  end.

Definition createTimeEntries (entries : list TogglTimeEntryPayload.t)
  : M (World W) CreateEntriesResult.t :=
  createTimeEntries_from entries (CreateEntriesResult.mk [] [] 0 0).

End TogglClient.

(* ===================================================================== *)
(** ** [services/sync-service.ts]                                         *)
(* ===================================================================== *)

Module SyncResult.
Record t : Type := mk {
  tempoEntriesFetched : Z;
  togglEntriesFetched : Z;
  uniqueEntries : Z;
  duplicatesSkipped : Z;
  successfullyCreated : Z;
  failedToCreate : Z;
  errors : list string;
}.
End SyncResult.

(** The two clients as the service sees them: the methods it calls.  Any
    object with these methods can be handed to the service. *)
Module TempoClient.
Record t (S : Type) : Type := mk {
  fetchWorklogs : string -> string -> M S (list TempoWorklog.t);
  enrichWorklogsWithIssueDetails :
    list TempoWorklog.t -> M S (list TempoWorklog.t);
}.
Arguments mk {S} _ _.
Arguments fetchWorklogs {S} _ _ _.
Arguments enrichWorklogsWithIssueDetails {S} _ _.
End TempoClient.

Module TogglClient.
Record t (S : Type) : Type := mk {
  fetchTimeEntries : string -> string -> M S (list TogglTimeEntry.t);
  createTimeEntries :
    list TogglTimeEntryPayload.t -> M S CreateEntriesResult.t;
}.
Arguments mk {S} _ _.
Arguments fetchTimeEntries {S} _ _ _.
Arguments createTimeEntries {S} _ _.
End TogglClient.

(** [new TempoClient(...)] and [new TogglClient(...)] against a remote. *)
Definition new_TempoClient {W : Type} (remote : Remote W)
  : TempoClient.t (World W) :=
  TempoClient.mk (fetchWorklogs remote) (enrichWorklogsWithIssueDetails remote).

Definition new_TogglClient {W : Type} (remote : Remote W)
  : TogglClient.t (World W) :=
  TogglClient.mk (fetchTimeEntries remote) (createTimeEntries remote).

Module SyncServiceConfig.
Record t (S : Type) : Type := mk {
  tempoClient : TempoClient.t S;
  togglClient : TogglClient.t S;
  transformConfig : TempoToTogglConfig.t;
}.
Arguments mk {S} _ _ _.
Arguments tempoClient {S} _.
Arguments togglClient {S} _.
Arguments transformConfig {S} _.
End SyncServiceConfig.

Section SyncService.
Context `{Host} {S : Type} (config : SyncServiceConfig.t S).

(** The result of the [catch] branch. *)
Definition failed_result (errors : list string) : SyncResult.t :=
  SyncResult.mk 0 0 0 0 0 0 errors.

(** The [errors] array is only pushed to after the last step that can
    throw, so the [catch] branch always finds it as it was created. *)
Definition syncTimeEntries (fromDate toDate : string) : M S SyncResult.t :=
  let errors : list string := [] in
  try_catch
    (tempoWorklogs ←
       TempoClient.fetchWorklogs (SyncServiceConfig.tempoClient config)
         fromDate toDate;
     enrichedWorklogs ←
       TempoClient.enrichWorklogsWithIssueDetails
         (SyncServiceConfig.tempoClient config) tempoWorklogs;
     togglEntries ←
       TogglClient.fetchTimeEntries (SyncServiceConfig.togglClient config)
         fromDate toDate;
     let transformedEntries :=
       transformTempoWorklogsToToggl enrichedWorklogs
         (SyncServiceConfig.transformConfig config) in
     deduplicationResult ←
       liftR (filterDuplicateEntries transformedEntries
                (map TogglTimeEntry.as_ExistingEntry togglEntries));
     createResult ←
       TogglClient.createTimeEntries (SyncServiceConfig.togglClient config)
         (DeduplicationResult.uniqueEntries deduplicationResult);
     let errors :=
       if 0 <? Z.of_nat (length (CreateEntriesResult.failed createResult))
       then errors ++ map (fun f => "Failed to create entry: " +:+ FailedEntry.error f)
                          (CreateEntriesResult.failed createResult)
       else errors in
     mret (SyncResult.mk
             (Z.of_nat (length tempoWorklogs))
             (Z.of_nat (length togglEntries))
             (Z.of_nat (length (DeduplicationResult.uniqueEntries deduplicationResult)))
             (DeduplicationResult.skippedCount deduplicationResult)
             (CreateEntriesResult.successCount createResult)
             (CreateEntriesResult.failedCount createResult)
             errors))
    (fun error =>
       let errors :=
         errors ++ [message_or (fun _ => "Unknown error occurred") error] in
       mret (failed_result errors)).

End SyncService.

(* ===================================================================== *)
(** ** Timestamps with a time-zone designator                             *)
(* ===================================================================== *)

(** The timestamps the two services exchange: a calendar date, a time of
    day with or without milliseconds, and a designator.  [render] writes
    one down; [instant] is the moment it denotes, in milliseconds since
    1970-01-01T00:00:00Z. *)
Module IsoTimestamp.

Inductive designator : Type :=
| Zulu                    (* [Z] *)
| East (hh mm : Z)        (* [+hh:mm] *)
| West (hh mm : Z).       (* [-hh:mm] *)

Record t : Type := mk {
  year : Z;
  month : Z;
  day : Z;
  hour : Z;
  minute : Z;
  second : Z;
  millisecond : option Z;
  zone : designator;
}.

Definition leap (y : Z) : bool :=
  (y mod 4 =? 0) && negb (y mod 100 =? 0) || (y mod 400 =? 0).

Definition days_in_month (y m : Z) : Z :=
  if m =? 2 then (if leap y then 29 else 28)
  else if (m =? 4) || (m =? 6) || (m =? 9) || (m =? 11) then 30
  else 31.

Definition between (lo x hi : Z) : bool := (lo <=? x) && (x <=? hi).

Definition valid_zone (z : designator) : bool :=
  match z with
  | Zulu => true
  | East hh mm | West hh mm => between 0 hh 23 && between 0 mm 59
  end.

Definition valid (ts : t) : bool :=
  between 0 (year ts) 9999 && between 1 (month ts) 12
  && between 1 (day ts) (days_in_month (year ts) (month ts))
  && between 0 (hour ts) 23 && between 0 (minute ts) 59
  && between 0 (second ts) 59
  && match millisecond ts with Some ms => between 0 ms 999 | None => true end
  && valid_zone (zone ts).

(** Milliseconds east of UTC. *)
Definition zone_offset (z : designator) : Z :=
  match z with
  | Zulu => 0
  | East hh mm => hh * JsDate.msPerHour + mm * JsDate.msPerMinute
  | West hh mm => - (hh * JsDate.msPerHour + mm * JsDate.msPerMinute)
  end.

Definition instant (ts : t) : Z :=
  JsDate.MakeDate
    (JsDate.MakeDay (year ts) (month ts) (day ts))
    (JsDate.MakeTime (hour ts) (minute ts) (second ts)
       (default 0 (millisecond ts)))
  - zone_offset (zone ts).

Definition render_zone (z : designator) : list ascii :=
  match z with
  | Zulu => ["Z"%char]
  | East hh mm => "+"%char :: JsDate.pad 2 hh ++ ":"%char :: JsDate.pad 2 mm
  | West hh mm => "-"%char :: JsDate.pad 2 hh ++ ":"%char :: JsDate.pad 2 mm
  end.

Definition render_chars (ts : t) : list ascii :=
  JsDate.pad 4 (year ts) ++ "-"%char ::
  JsDate.pad 2 (month ts) ++ "-"%char ::
  JsDate.pad 2 (day ts) ++ "T"%char ::
  JsDate.pad 2 (hour ts) ++ ":"%char ::
  JsDate.pad 2 (minute ts) ++ ":"%char ::
  JsDate.pad 2 (second ts) ++
  match millisecond ts with
  | Some ms => "."%char :: JsDate.pad 3 ms ++ render_zone (zone ts)
  | None => render_zone (zone ts)
  end.

Definition render (ts : t) : string := string_of_list_ascii (render_chars ts).

End IsoTimestamp.

(* ===================================================================== *)
(** ** Local time                                                         *)
(* ===================================================================== *)

(** What [lib/date-input.ts] needs of [Date] besides parsing with a
    designator: date-times in local time and the local getters.  The time
    zone of the host is its local time zone adjustment, [LocalTZA t true]
    for a UTC time value [t] and [LocalTZA t false] for a local one. *)
Module JsLocal.
Import JsDate.

Class Zone := { LocalTZA : Z -> bool -> Z }.

Section Zoned.
Context `{Zone}.

Definition LocalTime (t : Z) : Z := t + LocalTZA t true.
Definition UTC (t : Z) : Z := t - LocalTZA t false.

(** [HH:mm], [HH:mm:ss] or [HH:mm:ss.sss] with nothing after it. *)
Definition parse_local_time (s : list ascii) : option Z :=
  '(hh, r1) ← digits 2 0 s;
  r2 ← expect ":" r1;
  '(mi, r3) ← digits 2 0 r2;
  '(ss, ms, r4) ←
    match r3 with
    | ":"%char :: r =>
        '(ss, r') ← digits 2 0 r;
        match r' with
        | "."%char :: r'' => '(ms, r''') ← digits 3 0 r''; Some (ss, ms, r''')
        | _ => Some (ss, 0, r')
        end
    | _ => Some (0, 0, r3)
    end;
  _ ← check ((hh <=? 23) && (mi <=? 59) && (ss <=? 59)
             || (hh =? 24) && (mi =? 0) && (ss =? 0) && (ms =? 0));
  _ ← check (match r4 with [] => true | _ => false end);
  Some (MakeTime hh mi ss ms).

(** A date-time without designator: the local time value it denotes. *)
Definition parseISO_local (s : list ascii) : option Z :=
  '(y, m, d, r) ← parse_date s;
  _ ← check ((1 <=? m) && (m <=? 12) && (1 <=? d) && (d <=? 31));
  match r with
  | "T"%char :: r' =>
      t ← parse_local_time r';
      Some (MakeDate (MakeDay y m d) t)
  | _ => None
  end.

(** A host in this zone: it reads the local date-times, and may read
    [other] formats. *)
Definition zoned (other : string -> option Z) : Host :=
  {| host_parse := fun s =>
       match parseISO_local (list_ascii_of_string s) with
       | Some t => TimeClip (UTC t)
       | None => other s
       end |}.

(** The calendar date of a time value, in local time. *)
Definition local_date (t : Z) : Z * Z * Z :=
  civil_of_day (LocalTime t / msPerDay).

(** [getFullYear()], [getMonth()] and [getDate()]; [None] is [NaN]. *)
Definition getFullYear (tv : option Z) : option Z :=
  t ← tv; let '(y, _, _) := local_date t in Some y.

Definition getMonth (tv : option Z) : option Z :=
  t ← tv; let '(_, m, _) := local_date t in Some (m - 1).

Definition getDate (tv : option Z) : option Z :=
  t ← tv; let '(_, _, d) := local_date t in Some d.

(** [setHours(0, 0, 0, 0)]: the new time value. *)
Definition setHours_midnight (tv : option Z) : option Z :=
  t ← tv; TimeClip (UTC (MakeDate (LocalTime t / msPerDay) (MakeTime 0 0 0 0))).

End Zoned.

(** [a === b] and [a < b] on numbers that may be [NaN]. *)
Definition strict_eq (a b : option Z) : bool :=
  match a, b with
  | Some x, Some y => x =? y
  | _, _ => false
  end.

Definition less_than (a b : option Z) : bool :=
  match a, b with
  | Some x, Some y => x <? y
  | _, _ => false
  end.

(** [s.split(sep)] for a separator of one character. *)
Fixpoint split (sep : ascii) (s : string) : list string :=
  match s with
  | EmptyString => [EmptyString]
  | String c s' =>
      if Ascii.eqb c sep then EmptyString :: split sep s'
      else match split sep s' with
           | piece :: pieces => String c piece :: pieces
           | [] => [String c EmptyString]
           end
  end.

(** [Number(s)] where [s] is a run of decimal digits, which is all that
    reaches it in this program; any other string is left as [NaN]. *)
Definition Number_of_digits (s : string) : option Z :=
  let cs := list_ascii_of_string s in
  '(n, _) ← digits (length cs) 0 cs; Some n.

End JsLocal.

(* ===================================================================== *)
(** ** [lib/date-input.ts]                                                *)
(* ===================================================================== *)

(** The terminal: the answers still to come on the standard input, one for
    each read, each with what the clock shows when the answer is checked,
    and the clock.  Nothing more to read is the end of the input.  What is
    written to the terminal is not kept. *)
Record Terminal : Type := {
  reads : list (Z * string);
  clock : Z;
}.

(** An [async] function that loops for as long as it is answered: [None]
    when the rounds allowed are used up. *)
Definition Looping (A : Type) : Type := option (JsResult A * Terminal).

Module DateRange.
Record t : Type := mk { startDate : string; endDate : string }.
End DateRange.

Section DateInput.
Context `{JsLocal.Zone} (other : string -> option Z).

(** [new Date(s)] on this host. *)
Definition new_Date (s : string) : option Z :=
  JsDate.parse (@host_parse (JsLocal.zoned other)) s.

Definition promptForDate (message : string) : M Terminal string := fun tm =>
  match reads tm with
  | [] => (Throw (ErrorObj "Error" "Failed to read input"), tm)
  | (t, answer) :: rest =>
      (Ok (trim answer), {| reads := rest; clock := t |})
  end.

Definition is_digit (c : ascii) : bool :=
  match JsDate.digit c with
  | Some _ => true
  | None => false
  end.

(** [/^\d{4}-\d{2}-\d{2}$/.test(date)] *)
Definition isValidDateFormat (date : string) : bool :=
  match list_ascii_of_string date with
  | [y1; y2; y3; y4; h1; m1; m2; h2; d1; d2] =>
      is_digit y1 && is_digit y2 && is_digit y3 && is_digit y4
      && Ascii.eqb h1 "-" && is_digit m1 && is_digit m2
      && Ascii.eqb h2 "-" && is_digit d1 && is_digit d2
  | _ => false
  end.

Definition isValidDate (date : string) : bool :=
  if negb (isValidDateFormat date) then false
  else
    let parsedDate := new_Date (date +:+ "T00:00:00") in
    match map JsLocal.Number_of_digits (JsLocal.split "-" date) with
    | year :: month :: day :: _ =>
        JsLocal.strict_eq (JsLocal.getFullYear parsedDate) year
        && JsLocal.strict_eq (JsLocal.getMonth parsedDate)
             (m ← month; Some (m - 1))
        && JsLocal.strict_eq (JsLocal.getDate parsedDate) day
    | _ => false
    end.

(** [now] is what [new Date()] reads on the clock. *)
Definition isDateInFuture (date : string) (now : Z) : bool :=
  let inputDate := new_Date (date +:+ "T00:00:00") in
  let today := JsLocal.setHours_midnight (Some now) in
  JsLocal.less_than today inputDate.

Definition isValidDateRange (startDate endDate : string) : bool :=
  let start := new_Date (startDate +:+ "T00:00:00") in
  let end_ := new_Date (endDate +:+ "T00:00:00") in
  JsLocal.less_than start end_.

(** The [while (true)] of [promptForValidDate], for at most [rounds]
    rounds. *)
Fixpoint promptForValidDate_loop (rounds : nat) (message : string)
    (allowFuture : bool) (tm : Terminal) : Looping string :=
  match rounds with
  | O => None
  | S rounds' =>
      match promptForDate message tm with
      | (Throw e, tm') => Some (Throw e, tm')
      | (Ok date, tm') =>
          if negb (isValidDateFormat date)
          then promptForValidDate_loop rounds' message allowFuture tm'
          else if negb (isValidDate date)
          then promptForValidDate_loop rounds' message allowFuture tm'
          else if negb allowFuture && isDateInFuture date (clock tm')
          then promptForValidDate_loop rounds' message allowFuture tm'
          else Some (Ok date, tm')
      end
  end.

(** Every round takes an answer, so one round more than there are answers
    is as good as any number of rounds. *)
Definition promptForValidDate (message : string) (allowFuture : bool)
    (tm : Terminal) : Looping string :=
  promptForValidDate_loop (S (length (reads tm))) message allowFuture tm.

(** The [while (true)] of [promptForDateRange]. *)
Fixpoint promptForDateRange_loop (rounds : nat) (startDate : string)
    (tm : Terminal) : Looping DateRange.t :=
  match rounds with
  | O => None
  | S rounds' =>
      match promptForValidDate "📅 Enter end date (YYYY-MM-DD): " false tm with
      | None => None
      | Some (Throw e, tm') => Some (Throw e, tm')
      | Some (Ok endDate, tm') =>
          if String.eqb startDate endDate
          then promptForDateRange_loop rounds' startDate tm'
          else if negb (isValidDateRange startDate endDate)
          then promptForDateRange_loop rounds' startDate tm'
          else Some (Ok (DateRange.mk startDate endDate), tm')
      end
  end.

Definition promptForDateRange (tm : Terminal) : Looping DateRange.t :=
  match promptForValidDate "📅 Enter start date (YYYY-MM-DD): " false tm with
  | None => None
  | Some (Throw e, tm') => Some (Throw e, tm')
  | Some (Ok startDate, tm') =>
      promptForDateRange_loop (S (length (reads tm'))) startDate tm'
  end.

End DateInput.

(* ===================================================================== *)
(** ** [config.ts]                                                        *)
(* ===================================================================== *)

(** The decimal digits a list of characters starts with. *)
Fixpoint leading_digits (cs : list ascii) : list ascii :=
  match cs with
  | c :: cs' => if is_digit c then c :: leading_digits cs' else []
  | [] => []
  end.

Definition decimal_value (cs : list ascii) : Z :=
  fold_left (fun acc c => 10 * acc + default 0 (JsDate.digit c)) cs 0.

(** The Number nearest to a non-negative integer, as the language rounds:
    the integer itself below two to the fifty-third; above, the integer
    rounded to fifty-three significant bits, a tie going to the even one;
    [None], which is infinite, when that reaches two to the 1024th. *)
Definition nearest_double (n : Z) : option Z :=
  if n <? 2 ^ 53 then Some n
  else
    let shift := Z.log2 n - 52 in
    let significand := Z.shiftr n shift in
    let rest := Z.land n (Z.ones shift) in
    let half := Z.shiftl 1 (shift - 1) in
    let significand :=
      if (half <? rest) || ((rest =? half) && Z.odd significand)
      then significand + 1 else significand in
    let rounded := Z.shiftl significand shift in
    if rounded <? 2 ^ 1024 then Some rounded else None.

(** The Number for [sign] times a non-negative integer. *)
Definition Number_of_integer (sign : Z) (n : Z) : number :=
  match nearest_double n with
  | Some v => Num (sign * v)
  | None => Infinity (sign <? 0)
  end.

(** [parseInt(s, 10)]: white space, a sign, then the longest run of
    decimal digits; [NaN] when there is none, and otherwise the Number
    nearest to the integer written. *)
Definition parseInt10 (s : string) : number :=
  let cs := list_ascii_of_string (trimStart s) in
  let '(sign, cs) :=
    match cs with
    | "-"%char :: r => (-1, r)
    | "+"%char :: r => (1, r)
    | _ => (1, cs)
    end in
  match leading_digits cs with
  | [] => NaN
  | ds => Number_of_integer sign (decimal_value ds)
  end.

Module AppConfig.
Record t : Type := mk {
  togglToken : string;
  tempoToken : string;
  togglWorkspaceId : number;
  togglProjectId : option number;
  togglTaskId : number;
  jiraEmail : string;
  jiraApiToken : string;
}.
End AppConfig.

Definition missing_variable (name : string) : Thrown :=
  ErrorObj "Error" ("Missing required environment variable: " +:+ name).

(** [if (!value) throw new Error(...)] for a variable just read. *)
Definition required (value : option string) (name : string)
  : JsResult string :=
  match value with
  | Some v => if string_truthy v then Ok v else Throw (missing_variable name)
  | None => Throw (missing_variable name)
  end.

(** The environment is what [Deno.env.get] reads. *)
Definition loadConfig (env : gmap string string) : JsResult AppConfig.t :=
  let togglToken := env !! "TOGGL_TOKEN" in
  let tempoToken := env !! "TEMPO_TOKEN" in
  let workspaceId := env !! "TOGGL_WORKSPACE_ID" in
  let projectId := env !! "TOGGL_PROJECT_ID" in
  let taskId := env !! "TOGGL_TASK_ID" in
  let jiraEmail := env !! "JIRA_EMAIL" in
  let jiraApiToken := env !! "JIRA_API_TOKEN" in
  togglToken ← required togglToken "TOGGL_TOKEN";
  tempoToken ← required tempoToken "TEMPO_TOKEN";
  workspaceId ← required workspaceId "TOGGL_WORKSPACE_ID";
  jiraEmail ← required jiraEmail "JIRA_EMAIL";
  jiraApiToken ← required jiraApiToken "JIRA_API_TOKEN";
  taskId ← required taskId "TOGGL_TASK_ID";
  Ok {| AppConfig.togglToken := togglToken;
        AppConfig.tempoToken := tempoToken;
        AppConfig.jiraEmail := jiraEmail;
        AppConfig.jiraApiToken := jiraApiToken;
        AppConfig.togglWorkspaceId := parseInt10 workspaceId;
        AppConfig.togglProjectId :=
          match projectId with
          | Some v => if string_truthy v then Some (parseInt10 v) else None
          | None => None
          end;
        AppConfig.togglTaskId := parseInt10 taskId |}.

(* ===================================================================== *)
(** ** [main.ts]                                                          *)
(* ===================================================================== *)

(** The [transformConfig] handed to the service. *)
Definition transformConfig_of (config : AppConfig.t) : TempoToTogglConfig.t :=
  {| TempoToTogglConfig.workspace_id := AppConfig.togglWorkspaceId config;
     TempoToTogglConfig.project_id := AppConfig.togglProjectId config;
     TempoToTogglConfig.task_id := None;
     TempoToTogglConfig.created_with := Some "tempo-to-toggl-sync" |}.

(** How [main] ends: it runs to its end with the result of the service, or
    it catches an error and calls [Deno.exit(1)]. *)
Inductive Ending : Type :=
| Completed (result : SyncResult.t)
| Exit1 (error : Thrown).

Section Main.
Context `{JsLocal.Zone} (other : string -> option Z).
Context {W : Type} (remote : Remote W).

(** The program, on what it finds: the terminal, the environment and the
    remote services.  The date of the timestamps is read by the same
    host. *)
Definition main (env : gmap string string) (tm : Terminal) (w : World W)
  : option (Ending * Terminal * World W) :=
  match promptForDateRange other tm with
  | None => None
  | Some (Throw e, tm') => Some (Exit1 e, tm', w)
  | Some (Ok range, tm') =>
      match loadConfig env with
      | Throw e => Some (Exit1 e, tm', w)
      | Ok config =>
          let tempoClient := new_TempoClient remote in
          let togglClient := new_TogglClient remote in
          let syncService :=
            SyncServiceConfig.mk tempoClient togglClient
              (transformConfig_of config) in
          match @syncTimeEntries (JsLocal.zoned other) _ syncService
                  (DateRange.startDate range) (DateRange.endDate range) w with
          | (Ok result, w') => Some (Completed result, tm', w')
          | (Throw e, w') => Some (Exit1 e, tm', w')
          end
      end
  end.

End Main.

(* ===================================================================== *)
(** ** Scenarios                                                          *)
(* ===================================================================== *)

(** Concrete remotes and records on which the program can be run. *)
Module Scenario.

(** A host whose [Date] reads the date-time string format and nothing
    else. *)
Definition strict_host : Host := {| host_parse := fun _ => None |}.

(** A host that also reads the format of [toUTCString], for one date. *)
Definition lenient_host : Host :=
  {| host_parse := fun s =>
       if String.eqb s "Wed, 01 Oct 2025 09:00:00 GMT"
       then Some 1759309200000 else None |}.

Definition author : Author.t :=
  Author.mk "https://jira.example.com/user/123" "abc123".

Definition attributes : Attributes.t :=
  Attributes.mk "https://api.tempo.io/4/worklogs/123/attributes" [].

Definition worklog (id : Z) (issue : option Issue.t) (startTime : string)
    (description : option string) (billableSeconds : Z) : TempoWorklog.t :=
  TempoWorklog.mk "https://api.tempo.io/4/worklogs/123" (Num id) issue
    (Num 3600) (Num billableSeconds) "2025-10-01" startTime
    ("2025-10-01T" +:+ startTime +:+ "Z") description
    "2025-10-01T10:00:00Z" "2025-10-01T10:00:00Z" author attributes.

Definition issue_url : string := "https://jira.example.com/issue/456".
Definition lost_issue_url : string := "https://x/issue/9".

Definition wl1 : TempoWorklog.t :=
  worklog 1 (Some (Issue.mk issue_url (Num 456) None None))
    "09:00:00" (Some "fix bug") 3600.
Definition wl2 : TempoWorklog.t :=
  worklog 2 (Some (Issue.mk issue_url (Num 456) None None))
    "10:00:00" (Some "  review ") 0.
Definition wl3 : TempoWorklog.t :=
  worklog 3 (Some (Issue.mk lost_issue_url (Num 9) None None))
    "11:00:00" (Some "call") 3600.
Definition wl4 : TempoWorklog.t :=
  worklog 4 None "12:00:00" None 3600.

(** A worklog after a successful lookup, and one after a failed lookup. *)
Definition resolved : TempoWorklog.t :=
  worklog 1 (Some (Issue.mk issue_url (Num 456) (Some "WEB-1") (Some "Fix")))
    "09:00:00" (Some "fix bug") 3600.
Definition unresolved : TempoWorklog.t :=
  worklog 3 (Some (Issue.mk lost_issue_url (Num 9) (Some "") (Some "")))
    "11:00:00" (Some "call") 3600.

Definition config : TempoToTogglConfig.t :=
  TempoToTogglConfig.mk (Num 12345) (Some (Num 67890)) (Some (Num 7))
    (Some "test-suite").

(** The configuration [main.ts] builds: no task identifier. *)
Definition config_without_task : TempoToTogglConfig.t :=
  TempoToTogglConfig.mk (Num 12345) None None (Some "tempo-to-toggl-sync").

Definition payload (start : string) (description : string)
  : TogglTimeEntryPayload.t :=
  TogglTimeEntryPayload.mk (Num 123) Absent Absent true start Absent
    (Num 3600) description "test" Absent.

Definition entry1 := payload "2025-10-01T09:00:00Z" "Entry 1".
Definition entry2 := payload "2025-10-01T10:00:00Z" "Entry 2".
Definition entry3 := payload "2025-10-01T11:00:00Z" "Entry 3".
(** The instant of [entry1], written from another time zone. *)
Definition entry1_again := payload "2025-10-01T11:00:00+02:00" "Entry 1 again".

Definition nine_utc : IsoTimestamp.t :=
  IsoTimestamp.mk 2025 10 1 9 0 0 None IsoTimestamp.Zulu.
Definition nine_utc_from_west : IsoTimestamp.t :=
  IsoTimestamp.mk 2025 10 1 3 30 0 (Some 0) (IsoTimestamp.West 5 30).

Definition existing (id : Z) (start : string) : TogglTimeEntry.t :=
  TogglTimeEntry.mk (Num id) (Num 12345) None None true start None
    (Num 3600) "" [] [] false "2025-10-01T10:00:00Z" None (Num 1) (Num 1)
    (Num 12345) None.

(** The entry the sink answers a creation with. *)
Definition created (id : Z) (entry : TogglTimeEntryPayload.t)
  : TogglTimeEntry.t :=
  TogglTimeEntry.mk (Num id)
    (TogglTimeEntryPayload.workspace_id entry)
    (read (TogglTimeEntryPayload.project_id entry))
    (read (TogglTimeEntryPayload.task_id entry))
    (TogglTimeEntryPayload.billable entry)
    (TogglTimeEntryPayload.start entry) None
    (TogglTimeEntryPayload.duration entry)
    (TogglTimeEntryPayload.description entry)
    [] [] false "2025-10-02T08:00:00Z" None (Num 1) (Num 1)
    (TogglTimeEntryPayload.workspace_id entry) None.

(** A scripted remote.  Its state counts the requests it has answered. *)
Record script : Type := {
  source : JsResult (list TempoWorklog.t);
  lookup : string -> JsResult IssueDetails.t;
  sink : JsResult (list TogglTimeEntry.t);
  refuses : TogglTimeEntryPayload.t -> bool;
}.

Definition http_error (what : string) : Thrown :=
  ErrorObj "Error" (what +:+ ": 500 Internal Server Error - ").

Definition scripted (sc : script) : Remote Z :=
  {| respond := fun c =>
       match c as c' return Z -> JsResult (Response c') * Z with
       | FetchWorklogs _ _ => fun n => (source sc, n + 1)
       | FetchJiraIssue url => fun n => (lookup sc url, n + 1)
       | FetchTimeEntries _ _ => fun n => (sink sc, n + 1)
       | CreateTimeEntry entry => fun n =>
           (if refuses sc entry
            then Throw (http_error "Failed to create time entry")
            else Ok (created n entry), n + 1)
       end |}.

Definition lookup_known (url : string) : JsResult IssueDetails.t :=
  if String.eqb url issue_url
  then Ok (IssueDetails.mk "WEB-1" "Fix the bug")
  else Throw (http_error "Failed to fetch Jira issue").

(** Four worklogs, the first already in the sink; the creation of the
    third is refused. *)
Definition busy_day : script :=
  {| source := Ok [wl1; wl2; wl3; wl4];
     lookup := lookup_known;
     sink := Ok [existing 900 "2025-10-01T09:00:00+00:00"];
     refuses := fun entry =>
       String.eqb (TogglTimeEntryPayload.start entry) "2025-10-01T11:00:00Z" |}.

(** Nothing in the source, two entries in the sink. *)
Definition quiet_day : script :=
  {| source := Ok [];
     lookup := lookup_known;
     sink := Ok [existing 900 "2025-10-01T09:00:00+00:00";
                 existing 901 "2025-10-01T10:00:00Z"];
     refuses := fun _ => false |}.

(** The source is down. *)
Definition source_down : script :=
  {| source := Throw (http_error "Failed to fetch Tempo worklogs");
     lookup := lookup_known;
     sink := Ok [];
     refuses := fun _ => false |}.

Definition start_world : World Z := Build_World 0 [].

Definition service (sc : script) : SyncServiceConfig.t (World Z) :=
  SyncServiceConfig.mk (new_TempoClient (scripted sc))
    (new_TogglClient (scripted sc)) config.

End Scenario.

(* ===================================================================== *)
(** ** Notions used in the statements                                     *)
(* ===================================================================== *)

Section TimestampNotions.
Context `{Host}.

(** A timestamp [Date] can read. *)
Definition parsable (timestamp : string) : Prop :=
  is_Some (JsDate.parse host_parse timestamp).

(** Whether the callback of the filter finds the entry among the
    existing start times. *)
Definition found_in (existingStartTimes : gset string)
    (entry : TogglTimeEntryPayload.t) : bool :=
  match normalizeTimestamp (TogglTimeEntryPayload.start entry) with
  | Ok n => bool_decide (n ∈ existingStartTimes)
  | Throw _ => false
  end.

(** A candidate whose normal form is that of an existing entry. *)
Definition duplicate_of (existingEntries : list ExistingEntry.t)
    (entry : TogglTimeEntryPayload.t) : Prop :=
  exists e, e ∈ existingEntries
    /\ normalizeTimestamp (TogglTimeEntryPayload.start entry)
       = normalizeTimestamp (ExistingEntry.start e).

End TimestampNotions.

Fixpoint all_whitespace (s : string) : bool :=
  match s with
  | String c s' => isWhiteSpace c && all_whitespace s'
  | EmptyString => true
  end.

Definition starts_with_whitespace (s : string) : bool :=
  match s with
  | String c _ => isWhiteSpace c
  | EmptyString => false
  end.

Fixpoint ends_with_whitespace (s : string) : bool :=
  match s with
  | String c EmptyString => isWhiteSpace c
  | String _ s' => ends_with_whitespace s'
  | EmptyString => false
  end.

(** The description of the worklog, a missing one read as empty. *)
Definition original_description (worklog : TempoWorklog.t) : string :=
  match TempoWorklog.description worklog with
  | Some d => d
  | None => ""
  end.

(** The names of the members that are written on the wire. *)
Definition wire_names (payload : TogglTimeEntryPayload.t) : list string :=
  map fst (TogglTimeEntryPayload.toJSON payload).

Section StageFailure.
Context `{Host} {S : Type} (config : SyncServiceConfig.t S).
Variables fromDate toDate : string.

#[local] Abbreviation tempo := (SyncServiceConfig.tempoClient config).
#[local] Abbreviation toggl := (SyncServiceConfig.togglClient config).

(** A run from state [s] in which a step throws [e] and leaves the state
    [s']: the steps before it have succeeded, the steps after it are not
    part of the run. *)
Inductive stage_failure (s : S) : Thrown -> S -> Prop :=
| source_fetch_fails e s1 :
    TempoClient.fetchWorklogs tempo fromDate toDate s = (Throw e, s1) ->
    stage_failure s e s1
| enrichment_fails tempoWorklogs s1 e s2 :
    TempoClient.fetchWorklogs tempo fromDate toDate s = (Ok tempoWorklogs, s1) ->
    TempoClient.enrichWorklogsWithIssueDetails tempo tempoWorklogs s1
    = (Throw e, s2) ->
    stage_failure s e s2
| sink_fetch_fails tempoWorklogs s1 enrichedWorklogs s2 e s3 :
    TempoClient.fetchWorklogs tempo fromDate toDate s = (Ok tempoWorklogs, s1) ->
    TempoClient.enrichWorklogsWithIssueDetails tempo tempoWorklogs s1
    = (Ok enrichedWorklogs, s2) ->
    TogglClient.fetchTimeEntries toggl fromDate toDate s2 = (Throw e, s3) ->
    stage_failure s e s3
| deduplication_fails tempoWorklogs s1 enrichedWorklogs s2 togglEntries s3 e :
    TempoClient.fetchWorklogs tempo fromDate toDate s = (Ok tempoWorklogs, s1) ->
    TempoClient.enrichWorklogsWithIssueDetails tempo tempoWorklogs s1
    = (Ok enrichedWorklogs, s2) ->
    TogglClient.fetchTimeEntries toggl fromDate toDate s2 = (Ok togglEntries, s3) ->
    filterDuplicateEntries
      (transformTempoWorklogsToToggl enrichedWorklogs
         (SyncServiceConfig.transformConfig config))
      (map TogglTimeEntry.as_ExistingEntry togglEntries) = Throw e ->
    stage_failure s e s3
| creation_call_fails tempoWorklogs s1 enrichedWorklogs s2 togglEntries s3
    deduplicationResult e s4 :
    TempoClient.fetchWorklogs tempo fromDate toDate s = (Ok tempoWorklogs, s1) ->
    TempoClient.enrichWorklogsWithIssueDetails tempo tempoWorklogs s1
    = (Ok enrichedWorklogs, s2) ->
    TogglClient.fetchTimeEntries toggl fromDate toDate s2 = (Ok togglEntries, s3) ->
    filterDuplicateEntries
      (transformTempoWorklogsToToggl enrichedWorklogs
         (SyncServiceConfig.transformConfig config))
      (map TogglTimeEntry.as_ExistingEntry togglEntries)
    = Ok deduplicationResult ->
    TogglClient.createTimeEntries toggl
      (DeduplicationResult.uniqueEntries deduplicationResult) s3
    = (Throw e, s4) ->
    stage_failure s e s4.

(** What the [catch] branch reports for a thrown value. *)
Definition reported (e : Thrown) : string :=
  message_or (fun _ => "Unknown error occurred") e.

End StageFailure.

(** The message kept for a failed creation. *)
Definition creation_message (e : Thrown) : string := message_or String_of e.

(** The entries of [failed], from the entries submitted and the failure
    of each request. *)
Fixpoint failed_entries (entries : list TogglTimeEntryPayload.t)
    (outcomes : list (option Thrown)) : list FailedEntry.t :=
  match entries, outcomes with
  | entry :: entries', Some e :: outcomes' =>
      FailedEntry.mk entry (creation_message e) :: failed_entries entries' outcomes'
  | _ :: entries', None :: outcomes' => failed_entries entries' outcomes'
  | _, _ => []
  end.

(** The failures among the outcomes. *)
Definition failures (outcomes : list (option Thrown)) : list Thrown :=
  omap id outcomes.

(** ** Notions of the further properties *)

(** A host that gives only time values a [Date] can hold. *)
Definition host_in_range (H : Host) : Prop :=
  forall s t, host_parse s = Some t -> Z.abs t <= 8640000000000000.

(** A start time that is the writing of a well-formed timestamp. *)
Definition written (start : string) (ts : IsoTimestamp.t) : Prop :=
  IsoTimestamp.valid ts = true /\ start = IsoTimestamp.render ts.

(** [YYYY-MM-DD] as it is written. *)
Definition date_chars (y m d : Z) : list ascii :=
  JsDate.pad 4 y ++ "-"%char :: JsDate.pad 2 m ++ "-"%char :: JsDate.pad 2 d.

Definition date_string (y m d : Z) : string :=
  string_of_list_ascii (date_chars y m d).

(** A day of the calendar, in the years that are written on four digits. *)
Definition calendar_date (y m d : Z) : Prop :=
  0 <= y <= 9999 /\ 1 <= m <= 12 /\ 1 <= d <= IsoTimestamp.days_in_month y m.

(** Earlier in the calendar: the order of year, month and day. *)
Definition earlier (y1 m1 d1 y2 m2 d2 : Z) : Prop :=
  y1 < y2 \/ y1 = y2 /\ (m1 < m2 \/ m1 = m2 /\ d1 < d2).

(** A time zone in which the offset from UTC stays within a day, moves by
    less than a day, and in which the local midnight of a day falls on
    that day. *)
Definition steady (zone : JsLocal.Zone) : Prop :=
  (forall t b, Z.abs (JsLocal.LocalTZA t b) <= JsDate.msPerDay)
  /\ (forall t b t' b',
        JsLocal.LocalTZA t b - JsLocal.LocalTZA t' b' < JsDate.msPerDay)
  /\ (forall day,
        JsLocal.LocalTime (JsLocal.UTC (day * JsDate.msPerDay))
        / JsDate.msPerDay = day).

(** A zone at a fixed offset from UTC, in milliseconds. *)
Definition fixed_zone (offset : Z) : JsLocal.Zone :=
  {| JsLocal.LocalTZA := fun _ _ => offset |}.

(** An answer the prompt takes: a valid date once trimmed and, unless
    future dates are allowed, not after the day the clock shows. *)
Definition acceptable `{JsLocal.Zone} (other : string -> option Z)
    (allowFuture : bool) (answer : Z * string) : bool :=
  isValidDate other (trim answer.2)
  && (allowFuture || negb (isDateInFuture other (trim answer.2) answer.1)).

Definition end_of_input : Thrown := ErrorObj "Error" "Failed to read input".

(** The variables [loadConfig] requires, in the order in which it checks
    them. *)
Definition required_variables : list string :=
  ["TOGGL_TOKEN"; "TEMPO_TOKEN"; "TOGGL_WORKSPACE_ID"; "JIRA_EMAIL";
   "JIRA_API_TOKEN"; "TOGGL_TASK_ID"].

(** A variable that is set to something other than the empty string. *)
Definition is_set (env : gmap string string) (name : string) : bool :=
  match env !! name with
  | Some v => string_truthy v
  | None => false
  end.

(** The requests of the enrichment and the requests that create. *)
Definition is_lookup (c : Call) : bool :=
  match c with
  | FetchJiraIssue _ => true
  | _ => false
  end.

Definition is_creation (c : Call) : bool :=
  match c with
  | CreateTimeEntry _ => true
  | _ => false
  end.

(** ** A session at the terminal *)

Module Session.

(** Two hours east of UTC. *)
Definition zone : JsLocal.Zone := fixed_zone 7200000.

(** A host that reads nothing beyond the date-time formats. *)
Definition other (s : string) : option Z := None.

(** 2025-10-05T10:00:00Z on the clock. *)
Definition now : Z := 1759658400000.

(** What is typed: a date that does not exist, a start date, the same
    date again, and an end date. *)
Definition terminal : Terminal :=
  {| reads := [(now, "2025-02-30"); (now, " 2025-10-01 ");
               (now, "2025-10-01"); (now, "2025-10-03")];
     clock := now |}.

Definition env : gmap string string :=
  list_to_map
    [("TOGGL_TOKEN", "toggl-token"); ("TEMPO_TOKEN", "tempo-token");
     ("TOGGL_WORKSPACE_ID", "12345"); ("TOGGL_PROJECT_ID", "67890");
     ("TOGGL_TASK_ID", "7"); ("JIRA_EMAIL", "someone@example.com");
     ("JIRA_API_TOKEN", "jira-token")].


End Session.

(* ===================================================================== *)
(** * Properties                                                          *)
(* ===================================================================== *)

(** ** Reading back what [pad] wrote *)

Section DateLemmas.
Import JsDate.

Lemma digit_digit_char (d : Z) :
  0 <= d <= 9 -> digit (digit_char d) = Some d.
Proof.
  intros Hd. unfold digit, digit_char.
  rewrite N_ascii_embedding by lia.
  rewrite Z2N.id by lia.
  replace ((48 <=? d + 48) && (d + 48 <=? 57)) with true
    by (symmetry; apply andb_true_iff; split; apply Z.leb_le; lia).
  f_equal. lia.
Qed.

Lemma digits_pad_app (k j : nat) (n acc : Z) (s : list ascii) :
  0 <= n < 10 ^ Z.of_nat k ->
  digits (k + j) acc (pad k n ++ s) = digits j (acc * 10 ^ Z.of_nat k + n) s.
Proof.
  revert j n acc s. induction k as [|k IH]; intros j n acc s Hn.
  - simpl in *. f_equal. lia.
  - rewrite Nat2Z.inj_succ, Z.pow_succ_r in Hn by lia.
    cbn [pad]. rewrite <- app_assoc. cbn [app].
    replace (S k + j)%nat with (k + S j)%nat by lia.
    rewrite IH by (split; [apply Z.div_pos; lia | apply Z.div_lt_upper_bound; lia]).
    cbn [digits].
    rewrite digit_digit_char by (pose proof (Z.mod_pos_bound n 10); lia).
    cbn. f_equal.
    rewrite Nat2Z.inj_succ, Z.pow_succ_r by lia.
    pose proof (Z.div_mod n 10). lia.
Qed.

Lemma digits_pad (k : nat) (n : Z) (s : list ascii) :
  0 <= n < 10 ^ Z.of_nat k ->
  digits k 0 (pad k n ++ s) = Some (n, s).
Proof.
  intros Hn. pose proof (digits_pad_app k 0 n 0 s Hn) as E.
  rewrite Nat.add_0_r in E. rewrite E. simpl. f_equal.
Qed.

End DateLemmas.

Section RenderParse.
Import JsDate IsoTimestamp.

Lemma parse_year_digit (d : Z) (s : list ascii) :
  0 <= d <= 9 ->
  parse_year (digit_char d :: s) = digits 4 0 (digit_char d :: s).
Proof.
  intros Hd.
  assert (d = 0 \/ d = 1 \/ d = 2 \/ d = 3 \/ d = 4 \/ d = 5 \/ d = 6
          \/ d = 7 \/ d = 8 \/ d = 9) as Hc by lia.
  repeat (destruct Hc as [-> | Hc]; [reflexivity|]). subst d. reflexivity.
Qed.

Lemma parse_year_pad (y : Z) (s : list ascii) :
  0 <= y <= 9999 -> parse_year (pad 4 y ++ s) = Some (y, s).
Proof.
  intros Hy.
  assert (exists tl, pad 4 y ++ s = digit_char (y / 10 / 10 / 10 mod 10) :: tl)
    as [tl E] by (eexists; cbn; reflexivity).
  rewrite E, parse_year_digit by (pose proof (Z.mod_pos_bound (y / 10 / 10 / 10) 10); lia).
  rewrite <- E. apply digits_pad. simpl. lia.
Qed.

Lemma between_spec (lo x hi : Z) :
  between lo x hi = true <-> lo <= x <= hi.
Proof. unfold between. rewrite andb_true_iff, !Z.leb_le. tauto. Qed.

Lemma days_in_month_le (y m : Z) : days_in_month y m <= 31.
Proof.
  unfold days_in_month.
  repeat match goal with |- context [if ?b then _ else _] => destruct b end; lia.
Qed.

Lemma expect_head (c : ascii) (s : list ascii) : expect c (c :: s) = Some s.
Proof. unfold expect. now rewrite Ascii.eqb_refl. Qed.

Lemma check_true (b : bool) : b = true -> check b = Some tt.
Proof. now intros ->. Qed.

Lemma parse_offset_signed (sign : ascii) (sg hh mm : Z) :
  (sign = "+"%char /\ sg = 1) \/ (sign = "-"%char /\ sg = -1) ->
  0 <= hh <= 23 -> 0 <= mm <= 59 ->
  parse_offset (sign :: pad 2 hh ++ ":"%char :: pad 2 mm)
  = Some (sg * (hh * msPerHour + mm * msPerMinute)).
Proof.
  intros Hs Hh Hm.
  assert (parse_offset (sign :: pad 2 hh ++ ":"%char :: pad 2 mm)
          = ('(hh', r1) ← digits 2 0 (pad 2 hh ++ ":"%char :: pad 2 mm);
             r2 ← expect ":" r1;
             '(mm', r3) ← digits 2 0 r2;
             _ ← check (match r3 with [] => true | _ => false end);
             _ ← check ((hh' <=? 23) && (mm' <=? 59));
             Some (sg * (hh' * msPerHour + mm' * msPerMinute)))) as ->.
  { destruct Hs as [[-> ->] | [-> ->]]; reflexivity. }
  rewrite digits_pad by (simpl; lia). cbn [mbind option_bind].
  rewrite expect_head. cbn [mbind option_bind].
  rewrite <- (app_nil_r (pad 2 mm)), digits_pad by (simpl; lia).
  cbn [mbind option_bind check].
  rewrite check_true
    by (apply andb_true_iff; split; apply Z.leb_le; lia).
  reflexivity.
Qed.

Lemma parse_offset_render (z : designator) :
  valid_zone z = true -> parse_offset (render_zone z) = Some (zone_offset z).
Proof.
  destruct z as [|hh mm|hh mm]; cbn [valid_zone render_zone zone_offset]; intros Hv;
    [reflexivity| |];
    apply andb_true_iff in Hv as [Hh%between_spec Hm%between_spec].
  - rewrite (parse_offset_signed _ 1) by (auto; lia). f_equal; lia.
  - rewrite (parse_offset_signed _ (-1)) by (auto; lia). f_equal; lia.
Qed.

(** A day number in the four-digit years keeps the time value in range. *)
Lemma MakeDay_bound (y m d : Z) :
  0 <= y <= 9999 -> 1 <= m <= 12 -> 1 <= d <= 31 ->
  -720000 <= MakeDay y m d <= 2940000.
Proof.
  intros Hy Hm Hd. unfold MakeDay.
  destruct (m <=? 2) eqn:E; [apply Z.leb_le in E | apply Z.leb_gt in E];
    Z.div_mod_to_equations; lia.
Qed.

Theorem parseISO_render (ts : IsoTimestamp.t) :
  valid ts = true -> parseISO (render_chars ts) = Some (instant ts).
Proof.
  destruct ts as [y m d h mi s ms z]. unfold valid, render_chars, instant.
  cbn [year month day hour minute second millisecond zone].
  rewrite !andb_true_iff, !between_spec.
  intros [[[[[[[Hy Hm] Hd] Hh] Hmi] Hs] Hms] Hz].
  pose proof (days_in_month_le y m) as Hdm.
  unfold parseISO, parse_date.
  rewrite parse_year_pad by lia. cbn [mbind option_bind].
  rewrite digits_pad by (simpl; lia). cbn [mbind option_bind].
  rewrite digits_pad by (simpl; lia). cbn [mbind option_bind].
  rewrite check_true
    by (rewrite !andb_true_iff, !Z.leb_le; lia).
  cbn [mbind option_bind]. unfold parse_time.
  rewrite digits_pad by (simpl; lia). cbn [mbind option_bind].
  rewrite expect_head. cbn [mbind option_bind].
  rewrite digits_pad by (simpl; lia). cbn [mbind option_bind].
  rewrite digits_pad by (simpl; lia). cbn [mbind option_bind].
  assert (TimeClip (MakeDate (MakeDay y m d)
                      (MakeTime h mi s (default 0 ms) - zone_offset z))
          = Some (MakeDate (MakeDay y m d) (MakeTime h mi s (default 0 ms))
                  - zone_offset z)) as Hclip.
  { pose proof (MakeDay_bound y m d) as Hb.
    assert (0 <= default 0 ms <= 999) as Hms'
      by (destruct ms; cbn; [apply between_spec in Hms|]; lia).
    assert (Z.abs (zone_offset z) <= 24 * msPerHour) as Hoff.
    { destruct z as [|hh mm|hh mm]; cbn [valid_zone zone_offset] in *;
        [unfold msPerHour; lia| |];
        apply andb_true_iff in Hz as [Hzh%between_spec Hzm%between_spec];
        unfold msPerHour, msPerMinute; lia. }
    unfold TimeClip, MakeDate, MakeTime, msPerDay, msPerHour, msPerMinute,
      msPerSecond in *.
    replace (Z.abs _ <=? _) with true by (symmetry; apply Z.leb_le; lia).
    f_equal. lia. }
  assert (check ((h <=? 23) && (mi <=? 59) && (s <=? 59)
                 || (h =? 24) && (mi =? 0) && (s =? 0) && (default 0 ms =? 0))
          = Some tt) as Hcheck.
  { apply check_true, orb_true_iff. left.
    rewrite !andb_true_iff, !Z.leb_le. lia. }
  destruct ms as [ms|];
    [change (default 0 (Some ms)) with ms in *
    |change (default 0 (@None Z)) with 0 in *].
  - apply between_spec in Hms.
    cbn [mbind option_bind].
    rewrite digits_pad by (simpl; lia). cbn [mbind option_bind].
    rewrite Hcheck. cbn [mbind option_bind].
    rewrite parse_offset_render by assumption. cbn [mbind option_bind].
    exact Hclip.
  - assert (forall (A : Type) (k1 : list ascii -> A) (k2 : A),
               match render_zone z with
               | "."%char :: r => k1 r
               | _ => k2
               end = k2) as Hnodot
      by (intros; destruct z; reflexivity).
    rewrite Hnodot. cbn [mbind option_bind].
    rewrite Hcheck. cbn [mbind option_bind].
    rewrite parse_offset_render by assumption. cbn [mbind option_bind].
    exact Hclip.
Qed.

End RenderParse.

(* ===================================================================== *)
(** ** Normalisation                                                      *)
(* ===================================================================== *)

Section Normalisation.
Context `{Host}.

Lemma normalizeTimestamp_parsable (timestamp : string) :
  parsable timestamp <-> exists n, normalizeTimestamp timestamp = Ok n.
Proof.
  unfold parsable, normalizeTimestamp.
  destruct (JsDate.parse host_parse timestamp) as [t|]; cbn; split.
  - eauto.
  - eauto.
  - intros [? [=]].
  - intros [? [=]].
Qed.

Lemma normalizeTimestamp_render (ts : IsoTimestamp.t) :
  IsoTimestamp.valid ts = true ->
  normalizeTimestamp (IsoTimestamp.render ts)
  = Ok (JsDate.format_time_value (IsoTimestamp.instant ts)).
Proof.
  intros Hv. unfold normalizeTimestamp, JsDate.parse, IsoTimestamp.render.
  rewrite list_ascii_of_string_of_list_ascii.
  now rewrite (parseISO_render ts Hv).
Qed.

(** C2.  Two well-formed timestamps that carry a time-zone designator
    ([Z], [+hh:mm] or [-hh:mm]) and denote the same instant have the same
    normal form, and normalising them does not throw. *)
Theorem normalizeTimestamp_same_instant (t1 t2 : IsoTimestamp.t) :
  IsoTimestamp.valid t1 = true ->
  IsoTimestamp.valid t2 = true ->
  IsoTimestamp.instant t1 = IsoTimestamp.instant t2 ->
  normalizeTimestamp (IsoTimestamp.render t1)
  = normalizeTimestamp (IsoTimestamp.render t2)
  /\ exists n, normalizeTimestamp (IsoTimestamp.render t1) = Ok n.
Proof.
  intros H1 H2 E.
  rewrite (normalizeTimestamp_render t1 H1), (normalizeTimestamp_render t2 H2), E.
  eauto.
Qed.

(** ** Duplicate filtering *)

Lemma mapR_Ok {A B : Type} (f : A -> JsResult B) (xs : list A) :
  Forall (fun x => exists y, f x = Ok y) xs ->
  exists ys, mapR f xs = Ok ys /\ Forall2 (fun x y => f x = Ok y) xs ys.
Proof.
  induction 1 as [|x xs [y Hy] _ (ys & E & F)]; cbn.
  - eauto.
  - rewrite Hy. cbn. rewrite E. cbn. eauto.
Qed.

Lemma mapR_Throw {A B : Type} (f : A -> JsResult B) (xs : list A) (e : Thrown) :
  Forall (fun x => (exists y, f x = Ok y) \/ f x = Throw e) xs ->
  Exists (fun x => f x = Throw e) xs ->
  mapR f xs = Throw e.
Proof.
  intros Hall Hex. induction Hall as [|x xs Hx _ IH]; [inversion Hex|].
  cbn. destruct Hx as [[y Hy] | Hx].
  - rewrite Hy. cbn. inversion Hex as [? ? Hx|? ? Hxs]; subst; [congruence|].
    now rewrite (IH Hxs).
  - now rewrite Hx.
Qed.

Lemma filter_newEntries_Ok (existingStartTimes : gset string)
    (newEntries duplicates : list TogglTimeEntryPayload.t) :
  Forall (fun c => parsable (TogglTimeEntryPayload.start c)) newEntries ->
  filter_newEntries existingStartTimes newEntries duplicates
  = Ok (List.filter (fun c => negb (found_in existingStartTimes c)) newEntries,
        duplicates ++ List.filter (found_in existingStartTimes) newEntries).
Proof.
  intros Hall. revert duplicates.
  induction Hall as [|c cs Hc _ IH]; intros duplicates;
    cbn [filter_newEntries List.filter].
  - now rewrite app_nil_r.
  - apply normalizeTimestamp_parsable in Hc as [n Hn].
    assert (found_in existingStartTimes c
            = bool_decide (n ∈ existingStartTimes)) as ->
      by (unfold found_in; now rewrite Hn).
    rewrite Hn. cbn. rewrite IH. cbn.
    destruct (bool_decide (n ∈ existingStartTimes)); cbn.
    + now rewrite <- app_assoc.
    + reflexivity.
Qed.

Lemma filterDuplicateEntries_Ok
    (newEntries : list TogglTimeEntryPayload.t)
    (existingEntries : list ExistingEntry.t) :
  Forall (fun c => parsable (TogglTimeEntryPayload.start c)) newEntries ->
  Forall (fun e => parsable (ExistingEntry.start e)) existingEntries ->
  exists existingStartTimes : gset string,
    (forall n, n ∈ existingStartTimes <->
       exists e, e ∈ existingEntries
                 /\ normalizeTimestamp (ExistingEntry.start e) = Ok n)
    /\ filterDuplicateEntries newEntries existingEntries
       = Ok (DeduplicationResult.mk
               (List.filter (fun c => negb (found_in existingStartTimes c)) newEntries)
               (List.filter (found_in existingStartTimes) newEntries)
               (Z.of_nat (length (List.filter (found_in existingStartTimes) newEntries)))).
Proof.
  intros Hnew Hex.
  destruct (mapR_Ok (fun entry => normalizeTimestamp (ExistingEntry.start entry))
              existingEntries) as (ns & E & F).
  { eapply Forall_impl; [exact Hex|]. intros e He.
    now apply normalizeTimestamp_parsable. }
  exists (list_to_set ns). split.
  - intros n. rewrite elem_of_list_to_set. split.
    + intros Hn. clear E. induction F as [|e n' es ns' Hen _ IH].
      * inversion Hn.
      * apply elem_of_cons in Hn as [-> | Hn].
        -- exists e. split; [left|exact Hen].
        -- destruct (IH (Forall_inv_tail Hex) Hn) as (e' & He' & Hn').
           exists e'. split; [now right|exact Hn'].
    + intros (e & He & Hn). clear E. induction F as [|e' n' es ns' Hen _ IH].
      * inversion He.
      * apply elem_of_cons in He as [-> | He].
        -- rewrite Hn in Hen. injection Hen as ->. left.
        -- right. apply IH; [exact (Forall_inv_tail Hex)|exact He].
  - unfold filterDuplicateEntries. rewrite E. cbn.
    rewrite (filter_newEntries_Ok _ _ _ Hnew). reflexivity.
Qed.

Lemma found_in_duplicate_of (existingStartTimes : gset string)
    (existingEntries : list ExistingEntry.t) (c : TogglTimeEntryPayload.t) :
  (forall n, n ∈ existingStartTimes <->
     exists e, e ∈ existingEntries
               /\ normalizeTimestamp (ExistingEntry.start e) = Ok n) ->
  parsable (TogglTimeEntryPayload.start c) ->
  found_in existingStartTimes c = true <-> duplicate_of existingEntries c.
Proof.
  intros HS [n Hn]%normalizeTimestamp_parsable.
  unfold found_in, duplicate_of. rewrite Hn, bool_decide_eq_true, HS.
  split; intros (e & He & E); exists e; split; auto; congruence.
Qed.

Lemma filter_sublist_of {A : Type} (f : A -> bool) (l : list A) :
  List.filter f l `sublist_of` l.
Proof.
  induction l as [|x l IH]; cbn.
  - constructor.
  - destruct (f x); now constructor.
Qed.

Lemma filter_split_perm {A : Type} (f : A -> bool) (l : list A) :
  List.filter (fun x => negb (f x)) l ++ List.filter f l ≡ₚ l.
Proof.
  induction l as [|x l IH]; cbn; [reflexivity|].
  destruct (f x); cbn.
  - rewrite <- Permutation_middle. now constructor.
  - now constructor.
Qed.

Lemma elem_of_filter_bool {A : Type} (f : A -> bool) (l : list A) (x : A) :
  x ∈ List.filter f l <-> x ∈ l /\ f x = true.
Proof. rewrite !list_elem_of_In. apply filter_In. Qed.

(** C1.  When every start time involved can be read, the filter returns,
    and what it returns splits the candidates: a candidate is among the
    duplicates exactly when its normal form is that of an existing entry
    and among the unique entries exactly when it is not; both lists keep
    the order of the candidates and together they are the candidates;
    [skippedCount] is the number of duplicates.  With no candidate both
    lists are empty; with no existing entry every candidate is unique. *)
Theorem filterDuplicateEntries_partition
    (newEntries : list TogglTimeEntryPayload.t)
    (existingEntries : list ExistingEntry.t) :
  Forall (fun c => parsable (TogglTimeEntryPayload.start c)) newEntries ->
  Forall (fun e => parsable (ExistingEntry.start e)) existingEntries ->
  exists r,
    filterDuplicateEntries newEntries existingEntries = Ok r
    /\ (forall c, c ∈ DeduplicationResult.duplicates r <->
                  c ∈ newEntries /\ duplicate_of existingEntries c)
    /\ (forall c, c ∈ DeduplicationResult.uniqueEntries r <->
                  c ∈ newEntries /\ ~ duplicate_of existingEntries c)
    /\ DeduplicationResult.uniqueEntries r ++ DeduplicationResult.duplicates r
       ≡ₚ newEntries
    /\ DeduplicationResult.uniqueEntries r `sublist_of` newEntries
    /\ DeduplicationResult.duplicates r `sublist_of` newEntries
    /\ DeduplicationResult.skippedCount r
       = Z.of_nat (length (DeduplicationResult.duplicates r))
    /\ (newEntries = [] ->
        DeduplicationResult.uniqueEntries r = []
        /\ DeduplicationResult.duplicates r = []
        /\ DeduplicationResult.skippedCount r = 0)
    /\ (existingEntries = [] ->
        DeduplicationResult.uniqueEntries r = newEntries
        /\ DeduplicationResult.duplicates r = []).
Proof.
  intros Hnew Hex.
  destruct (filterDuplicateEntries_Ok _ _ Hnew Hex) as (S & HS & E).
  eexists. split; [exact E|]. cbn.
  assert (forall c, c ∈ newEntries ->
            (found_in S c = true <-> duplicate_of existingEntries c)) as Hdup.
  { intros c Hc. apply found_in_duplicate_of; [exact HS|].
    rewrite Forall_forall in Hnew. now apply Hnew. }
  repeat apply conj.
  - intros c. rewrite elem_of_filter_bool. split.
    + intros [Hc Hf]. split; [exact Hc|now apply Hdup].
    + intros [Hc Hd]. split; [exact Hc|now apply Hdup].
  - intros c. rewrite elem_of_filter_bool, negb_true_iff. split.
    + intros [Hc Hf]. split; [exact Hc|]. intros Hd.
      apply Hdup in Hd; [congruence|exact Hc].
    + intros [Hc Hd]. split; [exact Hc|].
      destruct (found_in S c) eqn:Ef; [|reflexivity].
      exfalso. now apply Hd, Hdup.
  - apply filter_split_perm.
  - apply filter_sublist_of.
  - apply filter_sublist_of.
  - reflexivity.
  - now intros ->.
  - intros ->.
    assert (forall c, found_in S c = false) as Hnone.
    { intros c. unfold found_in.
      destruct (normalizeTimestamp _) as [n|]; [|reflexivity].
      apply bool_decide_eq_false. rewrite HS. intros (e & He & _).
      inversion He. }
    clear -Hnone. induction newEntries as [|c cs [IHu IHd]]; cbn; [easy|].
    rewrite Hnone. cbn. now rewrite IHu, IHd.
Qed.

End Normalisation.

Section Unparsable.
Context `{Host}.

Lemma normalizeTimestamp_cases (timestamp : string) :
  (exists n, normalizeTimestamp timestamp = Ok n)
  \/ normalizeTimestamp timestamp = Throw JsDate.invalid_time.
Proof.
  unfold normalizeTimestamp.
  destruct (JsDate.parse host_parse timestamp); cbn; eauto.
Qed.

Lemma normalizeTimestamp_None (timestamp : string) :
  JsDate.parse host_parse timestamp = None ->
  normalizeTimestamp timestamp = Throw JsDate.invalid_time.
Proof. unfold normalizeTimestamp. now intros ->. Qed.

Lemma filter_newEntries_Throw (existingStartTimes : gset string)
    (newEntries duplicates : list TogglTimeEntryPayload.t) :
  Exists (fun c => JsDate.parse host_parse (TogglTimeEntryPayload.start c) = None)
    newEntries ->
  filter_newEntries existingStartTimes newEntries duplicates
  = Throw JsDate.invalid_time.
Proof.
  intros Hex. revert duplicates.
  induction Hex as [c cs Hc | c cs _ IH]; intros duplicates; cbn.
  - now rewrite (normalizeTimestamp_None _ Hc).
  - destruct (normalizeTimestamp_cases (TogglTimeEntryPayload.start c))
      as [[n ->] | ->]; cbn; [|reflexivity].
    now rewrite IH.
Qed.

Lemma mapR_normalize_Throw (existingEntries : list ExistingEntry.t) :
  Exists (fun e => JsDate.parse host_parse (ExistingEntry.start e) = None)
    existingEntries ->
  mapR (fun entry => normalizeTimestamp (ExistingEntry.start entry))
    existingEntries
  = Throw JsDate.invalid_time.
Proof.
  intros Hex. apply mapR_Throw.
  - apply Forall_forall. intros e _.
    apply (normalizeTimestamp_cases (ExistingEntry.start e)).
  - eapply Exists_impl; [exact Hex|].
    intros e. apply normalizeTimestamp_None.
Qed.

Lemma mapR_normalize_cases (existingEntries : list ExistingEntry.t) :
  (exists ns, mapR (fun entry => normalizeTimestamp (ExistingEntry.start entry))
                existingEntries = Ok ns)
  \/ mapR (fun entry => normalizeTimestamp (ExistingEntry.start entry))
       existingEntries = Throw JsDate.invalid_time.
Proof.
  induction existingEntries as [|e es IH]; cbn; [eauto|].
  destruct (normalizeTimestamp_cases (ExistingEntry.start e)) as [[n ->] | ->];
    cbn; [|now right].
  destruct IH as [[ns ->] | ->]; cbn; eauto.
Qed.

(** C8, as the code has it.  A string [Date] cannot read makes the
    normalisation throw, and the error is the [RangeError] of
    [toISOString]; so does the duplicate filter when such a string is the
    start time of an existing entry or of a candidate: no result is
    produced from it.  What [Date] can read is more than ISO-8601. *)
Theorem normalizeTimestamp_unparsable (timestamp : string) :
  JsDate.parse host_parse timestamp = None ->
  normalizeTimestamp timestamp
  = Throw (ErrorObj "RangeError" "Invalid time value")
  /\ forall newEntries existingEntries,
       (exists e, e ∈ existingEntries /\ ExistingEntry.start e = timestamp)
       \/ (exists c, c ∈ newEntries /\ TogglTimeEntryPayload.start c = timestamp) ->
       filterDuplicateEntries newEntries existingEntries
       = Throw (ErrorObj "RangeError" "Invalid time value").
Proof.
  intros Hnone. split; [exact (normalizeTimestamp_None _ Hnone)|].
  intros newEntries existingEntries Hin. unfold filterDuplicateEntries.
  destruct Hin as [(e & He & <-) | (c & Hc & <-)].
  - rewrite mapR_normalize_Throw; [reflexivity|].
    apply Exists_exists. exists e. split; [exact He|exact Hnone].
  - destruct (mapR_normalize_cases existingEntries) as [[ns ->] | ->];
      cbn; [|reflexivity].
    rewrite filter_newEntries_Throw; [reflexivity|].
    apply Exists_exists. exists c. split; [exact Hc|exact Hnone].
Qed.

(** C10.  Candidates are looked up among the existing entries only.  Two
    candidates of one batch with the same normal form, which no existing
    entry has, both come out as unique, in their positions. *)
Theorem filterDuplicateEntries_within_batch
    (before between after : list TogglTimeEntryPayload.t)
    (c1 c2 : TogglTimeEntryPayload.t)
    (existingEntries : list ExistingEntry.t) (n : string) :
  Forall (fun c => parsable (TogglTimeEntryPayload.start c))
    (before ++ c1 :: between ++ c2 :: after) ->
  Forall (fun e => parsable (ExistingEntry.start e)) existingEntries ->
  normalizeTimestamp (TogglTimeEntryPayload.start c1) = Ok n ->
  normalizeTimestamp (TogglTimeEntryPayload.start c2) = Ok n ->
  (forall e, e ∈ existingEntries ->
             normalizeTimestamp (ExistingEntry.start e) <> Ok n) ->
  exists r u1 u2 u3,
    filterDuplicateEntries (before ++ c1 :: between ++ c2 :: after)
      existingEntries = Ok r
    /\ DeduplicationResult.uniqueEntries r = u1 ++ c1 :: u2 ++ c2 :: u3
    /\ (c1 ∉ DeduplicationResult.duplicates r)
    /\ (c2 ∉ DeduplicationResult.duplicates r).
Proof.
  intros Hnew Hex H1 H2 Hfresh.
  destruct (filterDuplicateEntries_Ok _ _ Hnew Hex) as (S & HS & E).
  assert (forall c, normalizeTimestamp (TogglTimeEntryPayload.start c) = Ok n ->
                    found_in S c = false) as Hnot.
  { intros c Hc. unfold found_in. rewrite Hc.
    apply bool_decide_eq_false. rewrite HS.
    intros (e & He & Hn). exact (Hfresh e He Hn). }
  eexists. exists (List.filter (fun c => negb (found_in S c)) before),
    (List.filter (fun c => negb (found_in S c)) between),
    (List.filter (fun c => negb (found_in S c)) after).
  split; [exact E|]. cbn. repeat apply conj.
  - rewrite List.filter_app. cbn. rewrite (Hnot c1 H1). cbn.
    rewrite List.filter_app. cbn. now rewrite (Hnot c2 H2).
  - rewrite elem_of_filter_bool, (Hnot c1 H1). now intros [_ ?].
  - rewrite elem_of_filter_bool, (Hnot c2 H2). now intros [_ ?].
Qed.

End Unparsable.

(* ===================================================================== *)
(** ** Trimming                                                           *)
(* ===================================================================== *)

Lemma append_String (c : ascii) (a b : string) :
  String c a +:+ b = String c (a +:+ b).
Proof. reflexivity. Qed.

Lemma append_Empty (b : string) : EmptyString +:+ b = b.
Proof. reflexivity. Qed.

Lemma trimStart_spec (s : string) :
  exists pre, s = pre +:+ trimStart s
    /\ all_whitespace pre = true
    /\ starts_with_whitespace (trimStart s) = false.
Proof.
  induction s as [|c s (pre & E & Hpre & Hs)]; cbn.
  - exists EmptyString. auto.
  - destruct (isWhiteSpace c) eqn:Ec.
    + exists (String c pre). cbn. rewrite Ec, Hpre, append_String, <- E. auto.
    + exists EmptyString. cbn. auto.
Qed.

Lemma trimEnd_Empty (s : string) :
  trimEnd s = EmptyString -> all_whitespace s = true.
Proof.
  induction s as [|c s IH]; cbn; [reflexivity|].
  destruct (trimEnd s); [|discriminate].
  destruct (isWhiteSpace c); [|discriminate].
  intros _. now rewrite IH.
Qed.

Lemma trimEnd_all_whitespace (s : string) :
  all_whitespace s = true -> trimEnd s = EmptyString.
Proof.
  induction s as [|c s IH]; cbn; [reflexivity|].
  intros [Hc Hs]%andb_true_iff. now rewrite (IH Hs), Hc.
Qed.

Lemma trimEnd_spec (s : string) :
  exists post, s = trimEnd s +:+ post
    /\ all_whitespace post = true
    /\ ends_with_whitespace (trimEnd s) = false
    /\ starts_with_whitespace (trimEnd s)
       = starts_with_whitespace s && negb (all_whitespace s).
Proof.
  induction s as [|c s (post & E & Hpost & He & Hs)]; cbn.
  - exists EmptyString. auto.
  - destruct (trimEnd s) as [|c' t] eqn:Et.
    + rewrite (trimEnd_Empty s Et), andb_true_r.
      destruct (isWhiteSpace c) eqn:Ec; cbn.
      * exists (String c s). cbn. rewrite Ec, (trimEnd_Empty s Et). auto.
      * exists s. rewrite Ec, append_String, append_Empty, (trimEnd_Empty s Et). auto.
    + exists post. rewrite append_String, <- E. repeat split; auto.
      cbn. destruct (all_whitespace s) eqn:Ea.
      * rewrite (trimEnd_all_whitespace s Ea) in Et. discriminate.
      * now rewrite andb_false_r, andb_true_r.
Qed.

(** What [trim] gives sits inside its argument between two runs of white
    space, and neither starts nor ends with white space. *)
Lemma trim_spec (s : string) :
  exists pre post,
    s = pre +:+ trim s +:+ post
    /\ all_whitespace pre = true /\ all_whitespace post = true
    /\ starts_with_whitespace (trim s) = false
    /\ ends_with_whitespace (trim s) = false.
Proof.
  unfold trim.
  destruct (trimStart_spec s) as (pre & E1 & Hpre & Hs).
  destruct (trimEnd_spec (trimStart s)) as (post & E2 & Hpost & He & Hs').
  exists pre, post. repeat split; auto.
  - now rewrite <- E2.
  - rewrite Hs', Hs. reflexivity.
Qed.

(* ===================================================================== *)
(** ** Transformation                                                     *)
(* ===================================================================== *)

Lemma string_or_empty (x : option string) :
  string_or x "" = match x with Some d => d | None => "" end.
Proof. destruct x as [[|c d]|]; reflexivity. Qed.

(** C3.  The description of the payload is, trimmed: the issue key, a
    colon and the original description when the issue has a (non-empty)
    key; otherwise the issue URI, a bar and the original description when
    the issue has a (non-empty) URI; otherwise the original description.
    A missing description counts as the empty string.  Trimmed means that
    the composed text is kept: it is the description between two runs of
    white space, and the description has no white space at either
    end. *)
Theorem transform_description
    (worklog : TempoWorklog.t) (config : TempoToTogglConfig.t) :
  (forall issue code,
      TempoWorklog.issue worklog = Some issue ->
      Issue.key issue = Some code -> code <> "" ->
      TogglTimeEntryPayload.description
        (transformTempoWorklogToToggl worklog config)
      = trim (code +:+ ": " +:+ original_description worklog)
      /\ exists pre post,
           code +:+ ": " +:+ original_description worklog
           = pre +:+ TogglTimeEntryPayload.description
                       (transformTempoWorklogToToggl worklog config) +:+ post
           /\ all_whitespace pre = true /\ all_whitespace post = true)
  /\ (forall issue,
      TempoWorklog.issue worklog = Some issue ->
      Issue.key issue = None \/ Issue.key issue = Some "" ->
      Issue.self issue <> "" ->
      TogglTimeEntryPayload.description
        (transformTempoWorklogToToggl worklog config)
      = trim (Issue.self issue +:+ " | " +:+ original_description worklog)
      /\ exists pre post,
           Issue.self issue +:+ " | " +:+ original_description worklog
           = pre +:+ TogglTimeEntryPayload.description
                       (transformTempoWorklogToToggl worklog config) +:+ post
           /\ all_whitespace pre = true /\ all_whitespace post = true)
  /\ (TempoWorklog.issue worklog = None
      \/ (exists issue, TempoWorklog.issue worklog = Some issue
            /\ (Issue.key issue = None \/ Issue.key issue = Some "")
            /\ Issue.self issue = "") ->
      TogglTimeEntryPayload.description
        (transformTempoWorklogToToggl worklog config)
      = trim (original_description worklog)
      /\ exists pre post,
           original_description worklog
           = pre +:+ TogglTimeEntryPayload.description
                       (transformTempoWorklogToToggl worklog config) +:+ post
           /\ all_whitespace pre = true /\ all_whitespace post = true)
  /\ (TempoWorklog.description worklog = None ->
      original_description worklog = "")
  /\ starts_with_whitespace
       (TogglTimeEntryPayload.description
          (transformTempoWorklogToToggl worklog config)) = false
  /\ ends_with_whitespace
       (TogglTimeEntryPayload.description
          (transformTempoWorklogToToggl worklog config)) = false.
Proof.
  set (payload := transformTempoWorklogToToggl worklog config).
  set (original := original_description worklog).
  assert (forall d, TogglTimeEntryPayload.description payload = trim d ->
                    starts_with_whitespace (TogglTimeEntryPayload.description payload) = false
                    /\ ends_with_whitespace (TogglTimeEntryPayload.description payload) = false)
    as Htrim.
  { intros d ->. destruct (trim_spec d) as (? & ? & _ & _ & _ & ? & ?). auto. }
  assert (forall d, TogglTimeEntryPayload.description payload = trim d ->
                    TogglTimeEntryPayload.description payload = trim d
                    /\ exists pre post,
                         d = pre +:+ TogglTimeEntryPayload.description payload +:+ post
                         /\ all_whitespace pre = true
                         /\ all_whitespace post = true)
    as Hkept.
  { intros d E. split; [exact E|]. rewrite E.
    destruct (trim_spec d) as (pre & post & Ed & Hpre & Hpost & _ & _).
    exists pre, post. auto. }
  assert (TogglTimeEntryPayload.description payload
          = trim match issue_key worklog with
                 | Some key => key +:+ ": " +:+ original
                 | None =>
                     match issue_self worklog with
                     | Some self => self +:+ " | " +:+ original
                     | None => original
                     end
                 end) as Hdesc.
  { subst payload original. unfold transformTempoWorklogToToggl, original_description.
    rewrite string_or_empty.
    destruct (TempoToTogglConfig.project_id config) as [pid|];
      [destruct (number_truthy pid)|]; reflexivity. }
  repeat apply conj.
  - intros issue code Hi Hk Hne. apply Hkept. rewrite Hdesc. unfold issue_key.
    rewrite Hi, Hk. destruct code; [contradiction|reflexivity].
  - intros issue Hi Hk Hne. apply Hkept. rewrite Hdesc.
    unfold issue_key, issue_self.
    rewrite Hi. destruct Hk as [-> | ->]; cbn;
      (destruct (Issue.self issue); [contradiction|reflexivity]).
  - intros Hno. apply Hkept. rewrite Hdesc. unfold issue_key, issue_self.
    destruct Hno as [-> | (issue & -> & Hk & Hs)]; [reflexivity|].
    rewrite Hs. destruct Hk as [-> | ->]; reflexivity.
  - unfold original, original_description. now intros ->.
  - eapply Htrim, Hdesc.
  - eapply Htrim, Hdesc.
Qed.

(** The earlier revision composes the same description whenever the issue
    carries no key. *)
Lemma Earlier_description_without_key
    (worklog : TempoWorklog.t) (config : TempoToTogglConfig.t) :
  issue_key worklog = None ->
  TogglTimeEntryPayload.description
    (Earlier.transformTempoWorklogToToggl worklog config)
  = TogglTimeEntryPayload.description
      (transformTempoWorklogToToggl worklog config).
Proof.
  intros Hk. unfold Earlier.transformTempoWorklogToToggl,
    transformTempoWorklogToToggl. rewrite Hk.
  destruct (TempoToTogglConfig.project_id config) as [pid|];
    [destruct (number_truthy pid)|]; reflexivity.
Qed.

(** The earlier revision never writes [task_id] and treats [project_id]
    in the same way. *)
Lemma Earlier_optional_fields
    (worklog : TempoWorklog.t) (config : TempoToTogglConfig.t) :
  TogglTimeEntryPayload.task_id
    (Earlier.transformTempoWorklogToToggl worklog config) = Absent
  /\ TogglTimeEntryPayload.project_id
       (Earlier.transformTempoWorklogToToggl worklog config)
     = TogglTimeEntryPayload.project_id
         (transformTempoWorklogToToggl worklog config).
Proof.
  unfold Earlier.transformTempoWorklogToToggl, transformTempoWorklogToToggl.
  destruct (TempoToTogglConfig.project_id config) as [pid|];
    [destruct (number_truthy pid)|]; split; reflexivity.
Qed.

Ltac not_member :=
  let H := fresh in
  intros H;
  repeat (apply elem_of_cons in H as [H | H]; [discriminate H|]);
  inversion H.

(** The two properties in the later revision.  [project_id] is set only
    from a truthy configured value (defined, neither [0] nor [NaN]) and is
    otherwise no property of the payload.  [task_id] holds whatever the
    configuration has. *)
Lemma transform_optional_properties
    (worklog : TempoWorklog.t) (config : TempoToTogglConfig.t) :
  (forall v,
     TogglTimeEntryPayload.project_id
       (transformTempoWorklogToToggl worklog config) = Own v ->
     exists n, v = Some n
               /\ TempoToTogglConfig.project_id config = Some n
               /\ number_truthy n = true)
  /\ (forall n, TempoToTogglConfig.project_id config = Some n ->
                number_truthy n = true ->
                TogglTimeEntryPayload.project_id
                  (transformTempoWorklogToToggl worklog config)
                = Own (Some n))
  /\ (TempoToTogglConfig.project_id config = None ->
      TogglTimeEntryPayload.project_id
        (transformTempoWorklogToToggl worklog config) = Absent
      /\ "project_id" ∉ wire_names (transformTempoWorklogToToggl worklog config))
  /\ TogglTimeEntryPayload.task_id (transformTempoWorklogToToggl worklog config)
     = Own (TempoToTogglConfig.task_id config)
  /\ (TempoToTogglConfig.task_id config = None ->
      read (TogglTimeEntryPayload.task_id
              (transformTempoWorklogToToggl worklog config)) = None
      /\ "task_id" ∉ wire_names (transformTempoWorklogToToggl worklog config)).
Proof.
  set (payload := transformTempoWorklogToToggl worklog config).
  assert (TogglTimeEntryPayload.project_id payload
          = match TempoToTogglConfig.project_id config with
            | Some n => if number_truthy n then Own (Some n) else Absent
            | None => Absent
            end) as Hpid.
  { subst payload. unfold transformTempoWorklogToToggl.
    destruct (TempoToTogglConfig.project_id config) as [pid|];
      [destruct (number_truthy pid)|]; reflexivity. }
  assert (TogglTimeEntryPayload.task_id payload
          = Own (TempoToTogglConfig.task_id config)) as Htid.
  { subst payload. unfold transformTempoWorklogToToggl.
    destruct (TempoToTogglConfig.project_id config) as [pid|];
      [destruct (number_truthy pid)|]; reflexivity. }
  assert (wire_names payload
          = "workspace_id"
              :: match TempoToTogglConfig.task_id config with
                 | Some _ => ["task_id"]
                 | None => []
                 end
              ++ ["billable"; "start"; "duration"; "description"; "created_with"]
              ++ match TogglTimeEntryPayload.project_id payload with
                 | Own (Some _) => ["project_id"]
                 | _ => []
                 end) as Hwire.
  { subst payload. unfold transformTempoWorklogToToggl, wire_names.
    destruct (TempoToTogglConfig.project_id config) as [pid|];
      [destruct (number_truthy pid)|];
      cbn; destruct (TempoToTogglConfig.task_id config); reflexivity. }
  repeat apply conj.
  - intros v Hv. rewrite Hpid in Hv.
    destruct (TempoToTogglConfig.project_id config) as [n|]; [|discriminate].
    destruct (number_truthy n) eqn:Et; [|discriminate].
    injection Hv as <-. eauto.
  - intros n Hn Ht. now rewrite Hpid, Hn, Ht.
  - intros Hn. rewrite Hwire, Hpid, Hn. split; [reflexivity|].
    destruct (TempoToTogglConfig.task_id config); cbn; not_member.
  - exact Htid.
  - intros Hn. rewrite Hwire, Htid, Hn. split; [reflexivity|].
    destruct (TogglTimeEntryPayload.project_id payload) as [|[?|]]; cbn; not_member.
Qed.

Lemma Earlier_wire_names_task_id
    (worklog : TempoWorklog.t) (config : TempoToTogglConfig.t) :
  "task_id" ∉ wire_names (Earlier.transformTempoWorklogToToggl worklog config).
Proof.
  unfold Earlier.transformTempoWorklogToToggl, wire_names.
  destruct (TempoToTogglConfig.project_id config) as [pid|];
    [destruct (number_truthy pid)|]; cbn; not_member.
Qed.

Lemma Earlier_wire_names_project_id
    (worklog : TempoWorklog.t) (config : TempoToTogglConfig.t) :
  "project_id" ∈ wire_names (Earlier.transformTempoWorklogToToggl worklog config)
  <-> exists n, TempoToTogglConfig.project_id config = Some n
                /\ number_truthy n = true.
Proof.
  unfold Earlier.transformTempoWorklogToToggl, wire_names.
  destruct (TempoToTogglConfig.project_id config) as [n|];
    [destruct (number_truthy n) eqn:Et|]; cbn.
  - split; [eauto|]. intros _. repeat first [now left | right].
  - split; [not_member|intros (n' & [= <-] & Ht); congruence].
  - split; [not_member|intros (n' & [=] & _)].
Qed.

Lemma wire_names_task_id
    (worklog : TempoWorklog.t) (config : TempoToTogglConfig.t) :
  "task_id" ∈ wire_names (transformTempoWorklogToToggl worklog config)
  <-> is_Some (TempoToTogglConfig.task_id config).
Proof.
  assert (wire_names (transformTempoWorklogToToggl worklog config)
          = "workspace_id"
              :: match TempoToTogglConfig.task_id config with
                 | Some _ => ["task_id"]
                 | None => []
                 end
              ++ ["billable"; "start"; "duration"; "description"; "created_with"]
              ++ match TempoToTogglConfig.project_id config with
                 | Some n => if number_truthy n then ["project_id"] else []
                 | None => []
                 end) as ->.
  { unfold transformTempoWorklogToToggl, wire_names.
    destruct (TempoToTogglConfig.project_id config) as [pid|];
      [destruct (number_truthy pid)|];
      cbn; destruct (TempoToTogglConfig.task_id config); reflexivity. }
  destruct (TempoToTogglConfig.task_id config) as [t|].
  - split; [eauto|]. intros _. right. left.
  - split; [|intros [? [=]]].
    destruct (TempoToTogglConfig.project_id config) as [n|];
      [destruct (number_truthy n)|]; cbn; not_member.
Qed.

Lemma wire_names_project_id
    (worklog : TempoWorklog.t) (config : TempoToTogglConfig.t) :
  "project_id" ∈ wire_names (transformTempoWorklogToToggl worklog config)
  <-> exists n, TempoToTogglConfig.project_id config = Some n
                /\ number_truthy n = true.
Proof.
  assert (wire_names (transformTempoWorklogToToggl worklog config)
          = "workspace_id"
              :: match TempoToTogglConfig.task_id config with
                 | Some _ => ["task_id"]
                 | None => []
                 end
              ++ ["billable"; "start"; "duration"; "description"; "created_with"]
              ++ match TempoToTogglConfig.project_id config with
                 | Some n => if number_truthy n then ["project_id"] else []
                 | None => []
                 end) as ->.
  { unfold transformTempoWorklogToToggl, wire_names.
    destruct (TempoToTogglConfig.project_id config) as [pid|];
      [destruct (number_truthy pid)|];
      cbn; destruct (TempoToTogglConfig.task_id config); reflexivity. }
  destruct (TempoToTogglConfig.project_id config) as [n|];
    [destruct (number_truthy n) eqn:Et|].
  - split; [eauto|]. intros _.
    destruct (TempoToTogglConfig.task_id config); cbn;
      repeat first [now left | right].
  - split; [|intros (n' & [= <-] & Ht); congruence].
    destruct (TempoToTogglConfig.task_id config); cbn; not_member.
  - split; [|intros (n' & [=] & _)].
    destruct (TempoToTogglConfig.task_id config); cbn; not_member.
Qed.

(** C6.  In both revisions of the transformation, [project_id] and
    [task_id] are in the payload, as it is read and as it is sent, only
    with a value the configuration defines.  When the configuration has
    none, reading the field of the payload gives [undefined], neither
    [null] nor zero, and nothing is sent under its name.  In the later
    revision a configured [task_id] is always included, and a configured
    [project_id] is included when it is truthy. *)
Theorem transform_optional_fields
    (worklog : TempoWorklog.t) (config : TempoToTogglConfig.t) :
  (forall payload,
     payload = transformTempoWorklogToToggl worklog config
     \/ payload = Earlier.transformTempoWorklogToToggl worklog config ->
     (forall n, read (TogglTimeEntryPayload.project_id payload) = Some n ->
                TempoToTogglConfig.project_id config = Some n)
     /\ (forall n, read (TogglTimeEntryPayload.task_id payload) = Some n ->
                   TempoToTogglConfig.task_id config = Some n)
     /\ ("project_id" ∈ wire_names payload ->
         exists n, TempoToTogglConfig.project_id config = Some n
                   /\ read (TogglTimeEntryPayload.project_id payload) = Some n)
     /\ ("task_id" ∈ wire_names payload ->
         exists n, TempoToTogglConfig.task_id config = Some n
                   /\ read (TogglTimeEntryPayload.task_id payload) = Some n)
     /\ (TempoToTogglConfig.project_id config = None ->
         read (TogglTimeEntryPayload.project_id payload) = None
         /\ ("project_id" ∉ wire_names payload))
     /\ (TempoToTogglConfig.task_id config = None ->
         read (TogglTimeEntryPayload.task_id payload) = None
         /\ ("task_id" ∉ wire_names payload)))
  /\ (forall n, TempoToTogglConfig.task_id config = Some n ->
         read (TogglTimeEntryPayload.task_id
                 (transformTempoWorklogToToggl worklog config)) = Some n
         /\ "task_id" ∈ wire_names (transformTempoWorklogToToggl worklog config))
  /\ (forall n, TempoToTogglConfig.project_id config = Some n ->
         number_truthy n = true ->
         read (TogglTimeEntryPayload.project_id
                 (transformTempoWorklogToToggl worklog config)) = Some n
         /\ "project_id" ∈ wire_names (transformTempoWorklogToToggl worklog config)).
Proof.
  destruct (transform_optional_properties worklog config)
    as (Hown & Hsome & _ & Htid & _).
  destruct (Earlier_optional_fields worklog config) as [Etid Epid].
  pose proof (wire_names_task_id worklog config) as Wtid.
  pose proof (wire_names_project_id worklog config) as Wpid.
  pose proof (Earlier_wire_names_task_id worklog config) as Wtid'.
  pose proof (Earlier_wire_names_project_id worklog config) as Wpid'.
  assert (forall n,
            read (TogglTimeEntryPayload.project_id
                    (transformTempoWorklogToToggl worklog config)) = Some n ->
            TempoToTogglConfig.project_id config = Some n
            /\ number_truthy n = true) as Hread.
  { intros n Hn.
    destruct (TogglTimeEntryPayload.project_id
                (transformTempoWorklogToToggl worklog config)) as [|v] eqn:E;
      [discriminate|].
    cbn in Hn. subst v.
    destruct (Hown _ eq_refl) as (n' & [= <-] & Hc & Ht). auto. }
  repeat apply conj.
  - intros payload [-> | ->].
    + repeat apply conj.
      * intros n Hn. exact (proj1 (Hread n Hn)).
      * intros n Hn. rewrite Htid in Hn. exact Hn.
      * intros (n & Hn & Ht)%Wpid. exists n. split; [exact Hn|].
        now rewrite (Hsome n Hn Ht).
      * intros [n Hn]%Wtid. exists n. split; [exact Hn|].
        now rewrite Htid.
      * intros Hnone. split.
        -- destruct (read (TogglTimeEntryPayload.project_id
                             (transformTempoWorklogToToggl worklog config)))
             as [n|] eqn:E; [|reflexivity].
           destruct (Hread n eq_refl) as [Hc _]. congruence.
        -- intros (n & Hn & _)%Wpid. congruence.
      * intros Hnone. split.
        -- now rewrite Htid.
        -- intros [n Hn]%Wtid. congruence.
    + repeat apply conj.
      * intros n Hn. rewrite Epid in Hn. exact (proj1 (Hread n Hn)).
      * intros n Hn. rewrite Etid in Hn. discriminate.
      * intros (n & Hn & Ht)%Wpid'. exists n. split; [exact Hn|].
        now rewrite Epid, (Hsome n Hn Ht).
      * intros Hin. contradiction.
      * intros Hnone. split.
        -- rewrite Epid.
           destruct (read (TogglTimeEntryPayload.project_id
                             (transformTempoWorklogToToggl worklog config)))
             as [n|] eqn:E; [|reflexivity].
           destruct (Hread n eq_refl) as [Hc _]. congruence.
        -- intros (n & Hn & _)%Wpid'. congruence.
      * intros _. split; [now rewrite Etid|exact Wtid'].
  - intros n Hn. split; [now rewrite Htid, Hn|]. apply Wtid. eauto.
  - intros n Hn Ht. split; [now rewrite (Hsome n Hn Ht)|]. apply Wpid. eauto.
Qed.

(* ===================================================================== *)
(** ** The service: failures                                              *)
(* ===================================================================== *)

Section SyncFailure.
Context `{Host} {S : Type} (config : SyncServiceConfig.t S).
Variables fromDate toDate : string.

#[local] Abbreviation tempo := (SyncServiceConfig.tempoClient config).
#[local] Abbreviation toggl := (SyncServiceConfig.togglClient config).

Lemma syncTimeEntries_stage_failure (s : S) (e : Thrown) (s' : S) :
  stage_failure config fromDate toDate s e s' ->
  syncTimeEntries config fromDate toDate s
  = (Ok (failed_result [reported e]), s').
Proof.
  unfold syncTimeEntries, try_catch, mbind, M_bind, liftR.
  destruct 1 as [e s1 E1
                |wl s1 e s2 E1 E2
                |wl s1 ewl s2 e s3 E1 E2 E3
                |wl s1 ewl s2 te s3 e E1 E2 E3 E4
                |wl s1 ewl s2 te s3 dd e s4 E1 E2 E3 E4 E5].
  - rewrite E1. reflexivity.
  - rewrite E1, E2. reflexivity.
  - rewrite E1, E2, E3. reflexivity.
  - rewrite E1, E2, E3, E4. reflexivity.
  - rewrite E1, E2, E3, E4, E5. reflexivity.
Qed.

(** C4.  The service always returns a result and never throws.  When a
    step fails (fetching from the source, the enrichment, fetching from
    the sink; also the duplicate filter or the creation call as a whole),
    the result has six zero counters and one error string, the message
    of the error thrown (a fixed text for a thrown value that is not an
    [Error]), and the state is the one the failing step left: no later
    step has run. *)
Theorem syncTimeEntries_never_raises (s : S) :
  (exists r s', syncTimeEntries config fromDate toDate s = (Ok r, s'))
  /\ (forall e s', stage_failure config fromDate toDate s e s' ->
        syncTimeEntries config fromDate toDate s
        = (Ok (SyncResult.mk 0 0 0 0 0 0 [reported e]), s'))
  /\ (forall name message s', stage_failure config fromDate toDate s (ErrorObj name message) s' ->
        syncTimeEntries config fromDate toDate s
        = (Ok (SyncResult.mk 0 0 0 0 0 0 [message]), s')).
Proof.
  repeat apply conj.
  - unfold syncTimeEntries, try_catch, mbind, M_bind, liftR.
    destruct (TempoClient.fetchWorklogs tempo fromDate toDate s)
      as [[wl|e] s1]; [|eauto].
    destruct (TempoClient.enrichWorklogsWithIssueDetails tempo wl s1)
      as [[ewl|e] s2]; [|eauto].
    destruct (TogglClient.fetchTimeEntries toggl fromDate toDate s2)
      as [[te|e] s3]; [|eauto].
    destruct (filterDuplicateEntries _ _) as [dd|e]; [|eauto].
    destruct (TogglClient.createTimeEntries toggl _ s3)
      as [[cr|e] s4]; eauto.
  - intros e s'. apply syncTimeEntries_stage_failure.
  - intros name message s' Hf.
    apply (syncTimeEntries_stage_failure _ _ _ Hf).
Qed.

End SyncFailure.

(* ===================================================================== *)
(** ** Creation                                                           *)
(* ===================================================================== *)

Lemma failures_length (outcomes : list (option Thrown)) :
  (length (failures outcomes) <= length outcomes)%nat.
Proof.
  unfold failures. induction outcomes as [|[e|] outcomes IH]; cbn in *; lia.
Qed.

Lemma failed_entries_errors (entries : list TogglTimeEntryPayload.t)
    (outcomes : list (option Thrown)) :
  length outcomes = length entries ->
  map FailedEntry.error (failed_entries entries outcomes)
  = map creation_message (failures outcomes).
Proof.
  revert outcomes. induction entries as [|entry entries IH];
    intros [|[e|] outcomes]; cbn; try discriminate; intros Hlen.
  - reflexivity.
  - f_equal. apply IH. lia.
  - apply IH. lia.
Qed.

Section Creation.
Context {W : Type} (remote : Remote W).

Lemma createTimeEntries_from_spec (entries : list TogglTimeEntryPayload.t)
    (result : CreateEntriesResult.t) (w : World W) :
  exists result' w' outcomes,
    createTimeEntries_from remote entries result w = (Ok result', w')
    /\ length outcomes = length entries
    /\ requests w'
       = requests w
         ++ zip_with (fun entry o => (CreateTimeEntry entry, o)) entries outcomes
    /\ CreateEntriesResult.failed result'
       = CreateEntriesResult.failed result ++ failed_entries entries outcomes
    /\ CreateEntriesResult.failedCount result'
       = CreateEntriesResult.failedCount result
         + Z.of_nat (length (failures outcomes))
    /\ CreateEntriesResult.successCount result'
       = CreateEntriesResult.successCount result
         + (Z.of_nat (length outcomes) - Z.of_nat (length (failures outcomes)))
    /\ length (CreateEntriesResult.success result')
       = (length (CreateEntriesResult.success result)
          + (length outcomes - length (failures outcomes)))%nat.
Proof.
  revert result w. induction entries as [|entry entries IH]; intros result w.
  - exists result, w, []. cbn. rewrite !app_nil_r.
    repeat split; lia.
  - cbn [createTimeEntries_from].
    unfold mbind, M_bind, try_catch, createTimeEntry, perform.
    destruct (respond remote (CreateTimeEntry entry) (remote_state w))
      as [[created|e] st] eqn:E; cbn [failure mret M_ret].
    + match goal with
      | |- context [createTimeEntries_from remote entries ?r ?w1] =>
          destruct (IH r w1)
            as (result' & w' & outcomes & E' & Hlen & Hreq & Hf & Hfc & Hsc & Hs)
      end.
      exists result', w', (None :: outcomes).
      change (failures (None :: outcomes)) with (failures outcomes).
      cbn in *.
      rewrite E', Hreq, Hf, Hfc, Hsc, Hs, <- app_assoc, length_app. cbn.
      assert (length (failures outcomes) <= length outcomes)%nat
        by apply failures_length.
      repeat split; lia.
    + match goal with
      | |- context [createTimeEntries_from remote entries ?r ?w1] =>
          destruct (IH r w1)
            as (result' & w' & outcomes & E' & Hlen & Hreq & Hf & Hfc & Hsc & Hs)
      end.
      exists result', w', (Some e :: outcomes).
      change (failures (Some e :: outcomes)) with (e :: failures outcomes).
      cbn in *.
      rewrite E', Hreq, Hf, Hfc, Hsc, Hs, <- !app_assoc. cbn.
      repeat split; lia.
Qed.

End Creation.

Section SyncCreation.
Context `{Host} {W : Type} (remote : Remote W).
Context (tempo : TempoClient.t (World W)).
Context (transformConfig : TempoToTogglConfig.t).
Variables fromDate toDate : string.


End SyncCreation.

(* ===================================================================== *)
(** ** Enrichment                                                         *)
(* ===================================================================== *)

Lemma Set_add_NoDup (url : string) (urls : list string) :
  NoDup urls -> NoDup (Set_add url urls).
Proof.
  intros Hnd. unfold Set_add. case_bool_decide as Hin; [exact Hnd|].
  apply NoDup_app. split; [exact Hnd|split; [|apply NoDup_singleton]].
  intros x Hx Hx'. apply list_elem_of_singleton in Hx'. subst x. contradiction.
Qed.

Lemma elem_of_Set_add (x url : string) (urls : list string) :
  x ∈ Set_add url urls <-> x ∈ urls \/ x = url.
Proof.
  unfold Set_add. case_bool_decide as Hin.
  - split; [auto|]. intros [?| ->]; auto.
  - rewrite elem_of_app, list_elem_of_singleton. tauto.
Qed.

Lemma collect_issue_urls_acc (worklogs : list TempoWorklog.t) (acc : list string) :
  NoDup acc ->
  let urls :=
    fold_left
      (fun uniqueIssueUrls worklog =>
         match issue_self worklog with
         | Some url => Set_add url uniqueIssueUrls
         | None => uniqueIssueUrls
         end) worklogs acc in
  NoDup urls
  /\ forall url, url ∈ urls <->
       url ∈ acc \/ exists worklog, worklog ∈ worklogs /\ issue_self worklog = Some url.
Proof.
  revert acc. induction worklogs as [|wl wls IH]; intros acc Hnd; cbn.
  - split; [exact Hnd|]. intros url. split; [auto|].
    intros [?|(? & Hin & _)]; [assumption|inversion Hin].
  - destruct (issue_self wl) as [u|] eqn:Eu.
    + destruct (IH (Set_add u acc) (Set_add_NoDup u acc Hnd)) as [Hnd' Hin].
      split; [exact Hnd'|]. intros url. rewrite Hin, elem_of_Set_add.
      split.
      * intros [[?| ->]|(wl' & Hwl' & Hs)]; eauto.
        -- right. exists wl. split; [left|exact Eu].
        -- right. exists wl'. split; [now right|exact Hs].
      * intros [?|(wl' & Hwl' & Hs)]; [auto|].
        apply elem_of_cons in Hwl' as [-> | Hwl'].
        -- left. right. congruence.
        -- right. eauto.
    + destruct (IH acc Hnd) as [Hnd' Hin].
      split; [exact Hnd'|]. intros url. rewrite Hin. split.
      * intros [?|(wl' & Hwl' & Hs)]; [auto|].
        right. exists wl'. split; [now right|exact Hs].
      * intros [?|(wl' & Hwl' & Hs)]; [auto|].
        apply elem_of_cons in Hwl' as [-> | Hwl']; [congruence|].
        right. eauto.
Qed.

Lemma collect_issue_urls_spec (worklogs : list TempoWorklog.t) :
  NoDup (collect_issue_urls worklogs)
  /\ forall url, url ∈ collect_issue_urls worklogs <->
       exists worklog, worklog ∈ worklogs /\ issue_self worklog = Some url.
Proof.
  destruct (collect_issue_urls_acc worklogs [] (NoDup_nil_2)) as [Hnd Hin].
  split; [exact Hnd|]. intros url. unfold collect_issue_urls. rewrite Hin.
  split; [|auto]. intros [Hnil|?]; [inversion Hnil|assumption].
Qed.


Section Enrichment.
Context {W : Type} (remote : Remote W).

Lemma fetch_issue_details_spec (urls : list string)
    (issueDetailsMap : gmap string IssueDetails.t) (w : World W) :
  NoDup urls ->
  exists issueDetailsMap' w' outcomes,
    fetch_issue_details remote urls issueDetailsMap w = (Ok issueDetailsMap', w')
    /\ length outcomes = length urls
    /\ requests w'
       = requests w ++ zip_with (fun url o => (FetchJiraIssue url, o)) urls outcomes
    /\ (forall url, url ∉ urls ->
          issueDetailsMap' !! url = issueDetailsMap !! url)
    /\ (forall url, url ∈ urls -> is_Some (issueDetailsMap' !! url))
    /\ (forall url e, (url, Some e) ∈ zip urls outcomes ->
          issueDetailsMap' !! url = Some (IssueDetails.mk "" "")).
Proof.
  intros Hnd. revert issueDetailsMap w.
  induction Hnd as [|url urls Hnotin Hnd IH]; intros m w.
  - exists m, w, []. cbn. rewrite app_nil_r. repeat apply conj; auto.
    + intros url Hin. inversion Hin.
    + intros url e Hin. inversion Hin.
  - cbn [fetch_issue_details].
    unfold mbind, M_bind, try_catch, fetchJiraIssue, perform.
    destruct (respond remote (FetchJiraIssue url) (remote_state w))
      as [[details|e] st] eqn:E; cbn [failure mret M_ret].
    + match goal with
      | |- context [fetch_issue_details remote urls ?m1 ?w1] =>
          destruct (IH m1 w1) as (m' & w' & outcomes & E' & Hlen & Hreq & Hout & Hin & Hfail)
      end.
      exists m', w', (None :: outcomes). rewrite E'. cbn in *.
      rewrite Hreq, <- app_assoc. cbn. repeat apply conj; auto.
      * intros u [Hne Hu]%not_elem_of_cons.
        now rewrite (Hout u Hu), lookup_insert_ne.
      * intros u [-> | Hu]%elem_of_cons; [|auto].
        rewrite (Hout url Hnotin), lookup_insert_eq. eauto.
      * intros u e [[=] | Hu]%elem_of_cons. eauto.
    + match goal with
      | |- context [fetch_issue_details remote urls ?m1 ?w1] =>
          destruct (IH m1 w1) as (m' & w' & outcomes & E' & Hlen & Hreq & Hout & Hin & Hfail)
      end.
      exists m', w', (Some e :: outcomes). rewrite E'. cbn in *.
      rewrite Hreq, <- app_assoc. cbn. repeat apply conj; auto.
      * intros u [Hne Hu]%not_elem_of_cons.
        now rewrite (Hout u Hu), lookup_insert_ne.
      * intros u [-> | Hu]%elem_of_cons; [|auto].
        rewrite (Hout url Hnotin), lookup_insert_eq. eauto.
      * intros u e' [[= -> ->] | Hu]%elem_of_cons; [|eauto].
        now rewrite (Hout _ Hnotin), lookup_insert_eq.
Qed.


End Enrichment.

(* ===================================================================== *)
(** ** The service: an empty source                                       *)
(* ===================================================================== *)

Section SyncEmptySource.
Context `{Host} {W : Type} (remote : Remote W).
Context (transformConfig : TempoToTogglConfig.t).
Variables fromDate toDate : string.

(** C7, as the code has it.  When the source has no worklog and the sink
    answers with entries whose start times can be read, the service sends
    the two fetches and nothing else, and returns no error, the number of
    sink entries as [togglEntriesFetched] and zero for the five other
    counters. *)
Theorem syncTimeEntries_empty_source
    (w : World W) (st1 st2 : W) (togglEntries : list TogglTimeEntry.t) :
  respond remote (FetchWorklogs fromDate toDate) (remote_state w)
  = (Ok ([] : list TempoWorklog.t), st1) ->
  respond remote (FetchTimeEntries fromDate toDate) st1
  = (Ok togglEntries, st2) ->
  Forall (fun e => parsable (TogglTimeEntry.start e)) togglEntries ->
  syncTimeEntries
    (SyncServiceConfig.mk (new_TempoClient remote) (new_TogglClient remote)
       transformConfig)
    fromDate toDate w
  = (Ok (SyncResult.mk 0 (Z.of_nat (length togglEntries)) 0 0 0 0 []),
     Build_World st2
       (requests w ++ [(FetchWorklogs fromDate toDate, None);
                       (FetchTimeEntries fromDate toDate, None)])).
Proof.
  intros E1 E2 Hp.
  destruct (filterDuplicateEntries_Ok []
              (map TogglTimeEntry.as_ExistingEntry togglEntries))
    as (S & _ & E3).
  { constructor. }
  { apply Forall_map. exact Hp. }
  unfold syncTimeEntries, try_catch, mbind, M_bind, liftR.
  cbn [SyncServiceConfig.tempoClient SyncServiceConfig.togglClient
       SyncServiceConfig.transformConfig new_TogglClient new_TempoClient
       TogglClient.fetchTimeEntries TogglClient.createTimeEntries
       TempoClient.fetchWorklogs TempoClient.enrichWorklogsWithIssueDetails].
  unfold fetchWorklogs, fetchTimeEntries, perform. rewrite E1.
  cbn [enrichWorklogsWithIssueDetails collect_issue_urls fold_left
       fetch_issue_details mbind M_bind mret M_ret map remote_state requests].
  unfold mbind, M_bind, mret, M_ret. cbn [remote_state requests].
  rewrite E2. cbn [transformTempoWorklogsToToggl map].
  rewrite E3. cbn. rewrite <- app_assoc. reflexivity.
Qed.

End SyncEmptySource.

(* ===================================================================== *)
(** * Further properties                                                  *)
(* ===================================================================== *)

(* ===================================================================== *)
(** ** The calendar                                                       *)
(* ===================================================================== *)

Section Calendar.
Import JsDate IsoTimestamp.

Lemma era_split (z : Z) :
  0 <= z - z / 146097 * 146097 < 146097.
Proof. Z.div_mod_to_equations; lia. Qed.

Lemma year_of_era_bounds (doe : Z) :
  0 <= doe < 146097 ->
  let yoe := (doe - doe / 1460 + doe / 36524 - doe / 146096) / 365 in
  let doy := doe - (365 * yoe + yoe / 4 - yoe / 100) in
  0 <= yoe <= 399 /\ 0 <= doy <= 365
  /\ (doy = 365 ->
      (yoe + 1) mod 4 = 0
      /\ ((yoe + 1) mod 100 <> 0 \/ (yoe + 1) mod 400 = 0)).
Proof.
  intros H yoe doy. subst doy yoe.
  repeat apply conj; Z.div_mod_to_equations; lia.
Qed.

Lemma month_of_year_bounds (doy : Z) :
  0 <= doy <= 365 ->
  let mp := (5 * doy + 2) / 153 in
  let d := doy - (153 * mp + 2) / 5 + 1 in
  0 <= mp <= 11 /\ 1 <= d <= 31 /\ (153 * mp + 2) / 5 + d - 1 = doy.
Proof.
  intros H mp d. subst d mp. Z.div_mod_to_equations; lia.
Qed.

(** Leap years, in arithmetic. *)
Lemma leap_spec (y : Z) :
  leap y = true <-> y mod 4 = 0 /\ (y mod 100 <> 0 \/ y mod 400 = 0).
Proof.
  unfold leap.
  destruct (Z.eqb_spec (y mod 4) 0), (Z.eqb_spec (y mod 100) 0),
    (Z.eqb_spec (y mod 400) 0); cbn; split; try tauto; try discriminate.
  all: intros _; exfalso; Z.div_mod_to_equations; lia.
Qed.

Ltac bool_cases :=
  repeat match goal with
    | |- context [Z.ltb ?a ?b] => destruct (Z.ltb_spec a b)
    | |- context [Z.leb ?a ?b] => destruct (Z.leb_spec a b)
    | |- context [Z.eqb ?a ?b] => destruct (Z.eqb_spec a b)
    end;
  cbn [orb andb negb].

(** The length of the months in a year that starts in March. *)
Lemma day_of_month_bound (yoe doy : Z) (y : Z) :
  0 <= doy <= 365 ->
  (doy = 365 ->
   (yoe + 1) mod 4 = 0 /\ ((yoe + 1) mod 100 <> 0 \/ (yoe + 1) mod 400 = 0)) ->
  let mp := (5 * doy + 2) / 153 in
  let d := doy - (153 * mp + 2) / 5 + 1 in
  let m := if mp <? 10 then mp + 3 else mp - 9 in
  (m <= 2 -> y mod 400 = (yoe + 1) mod 400) ->
  d <= days_in_month y m.
Proof.
  intros Hdoy Hleap mp d m Hy.
  assert (mp = (5 * doy + 2) / 153) as Emp by reflexivity.
  assert (d = doy - (153 * mp + 2) / 5 + 1) as Ed by reflexivity.
  clearbody d mp. subst m. unfold days_in_month.
  destruct (Z.eq_dec mp 11) as [-> | Hne].
  - replace (11 <? 10) with false in * by reflexivity.
    replace (11 - 9 =? 2) with true by reflexivity.
    replace ((153 * 11 + 2) / 5) with 337 in Ed by reflexivity.
    destruct (leap y) eqn:El.
    + Z.div_mod_to_equations; lia.
    + assert (doy <= 364 \/ doy = 365) as [Hn | Hl] by lia;
        [Z.div_mod_to_equations; lia|].
      exfalso. destruct (Hleap Hl) as [H4 H100].
      assert (leap y = true) as Et; [|congruence].
      apply leap_spec. specialize (Hy ltac:(lia)).
      clear -H4 H100 Hy. Z.div_mod_to_equations; lia.
  - clear Hy Hleap. bool_cases; Z.div_mod_to_equations; lia.
Qed.

Theorem civil_of_day_spec (day : Z) :
  exists y m d,
    civil_of_day day = (y, m, d)
    /\ MakeDay y m d = day
    /\ 1 <= m <= 12 /\ 1 <= d <= days_in_month y m.
Proof.
  unfold civil_of_day. cbv zeta.
  set (z := day + 719468).
  set (era := z / 146097).
  set (doe := z - era * 146097).
  assert (0 <= doe < 146097) as Hdoe by apply era_split.
  destruct (year_of_era_bounds doe Hdoe) as (Hyoe & Hdoy & Hleap). cbv zeta in *.
  set (yoe := (doe - doe / 1460 + doe / 36524 - doe / 146096) / 365) in *.
  set (doy := doe - (365 * yoe + yoe / 4 - yoe / 100)) in *.
  destruct (month_of_year_bounds doy Hdoy) as (Hmp & Hd & Edoy). cbv zeta in *.
  pose proof (day_of_month_bound yoe doy) as Hdim. cbv zeta in Hdim.
  set (mp := (5 * doy + 2) / 153) in *.
  set (dd := doy - (153 * mp + 2) / 5 + 1) in *.
  set (m := if mp <? 10 then mp + 3 else mp - 9) in *.
  set (y := if m <=? 2 then yoe + era * 400 + 1 else yoe + era * 400).
  exists y, m, dd. split; [reflexivity|].
  assert (z = era * 146097 + doe) as Ez by (subst doe; lia).
  assert (doe = yoe * 365 + yoe / 4 - yoe / 100 + doy) as Edoe by (subst doy; lia).
  assert (1 <= m <= 12) as Hm
    by (subst m; destruct (Z.ltb_spec mp 10); lia).
  repeat apply conj; try lia.
  - clearbody dd doy yoe doe era. unfold MakeDay. subst y m.
    destruct (Z.ltb_spec mp 10).
    + replace (mp + 3 <=? 2) with false by (symmetry; apply Z.leb_gt; lia).
      replace (mp + 3 - 3) with mp by lia.
      replace ((yoe + era * 400) / 400) with era by (Z.div_mod_to_equations; lia).
      replace (yoe + era * 400 - era * 400) with yoe by lia.
      subst z. lia.
    + replace (mp - 9 <=? 2) with true by (symmetry; apply Z.leb_le; lia).
      replace (mp - 9 + 9) with mp by lia.
      replace (yoe + era * 400 + 1 - 1) with (yoe + era * 400) by lia.
      replace ((yoe + era * 400) / 400) with era by (Z.div_mod_to_equations; lia).
      replace (yoe + era * 400 - era * 400) with yoe by lia.
      subst z. lia.
  - apply (Hdim y Hdoy Hleap). intros Hm2. subst y.
    replace (m <=? 2) with true by (symmetry; apply Z.leb_le; lia).
    clear. Z.div_mod_to_equations; lia.
Qed.

Lemma year_of_era_recover (yoe doy : Z) :
  0 <= yoe <= 399 -> 0 <= doy <= 365 ->
  (doy = 365 ->
   (yoe + 1) mod 4 = 0 /\ ((yoe + 1) mod 100 <> 0 \/ (yoe + 1) mod 400 = 0)) ->
  let doe := yoe * 365 + yoe / 4 - yoe / 100 + doy in
  0 <= doe < 146097
  /\ (doe - doe / 1460 + doe / 36524 - doe / 146096) / 365 = yoe.
Proof.
  intros Hy Hd Hl doe. subst doe.
  assert (doy <= 364 \/ doy = 365) as [H|H] by lia.
  - clear Hl. Z.div_mod_to_equations; lia.
  - specialize (Hl H). Z.div_mod_to_equations; lia.
Qed.

(** The day of the year of a date of the calendar, in a year that starts
    in March. *)
Lemma day_of_year_bounds (y m d : Z) :
  1 <= m <= 12 -> 1 <= d <= days_in_month y m ->
  let mp := if m <=? 2 then m + 9 else m - 3 in
  let doy := (153 * mp + 2) / 5 + d - 1 in
  0 <= mp <= 11 /\ 0 <= doy <= 365
  /\ (doy = 365 -> m = 2 /\ leap y = true)
  /\ (5 * doy + 2) / 153 = mp.
Proof.
  intros Hm Hd mp doy.
  assert (mp = if m <=? 2 then m + 9 else m - 3) as Emp by reflexivity.
  assert (doy = (153 * mp + 2) / 5 + d - 1) as Edoy by reflexivity.
  clearbody doy mp. unfold days_in_month in Hd.
  destruct (Z.eq_dec m 2) as [-> | Hne].
  - replace (2 <=? 2) with true in Emp by reflexivity.
    replace (2 =? 2) with true in Hd by reflexivity.
    subst mp. replace ((153 * (2 + 9) + 2) / 5) with 337 in Edoy by reflexivity.
    destruct (leap y); repeat apply conj; try lia;
      Z.div_mod_to_equations; lia.
  - revert Hd Emp. bool_cases; intros Hd Emp;
      repeat apply conj; try lia; Z.div_mod_to_equations; lia.
Qed.

Theorem civil_of_MakeDay (y m d : Z) :
  1 <= m <= 12 -> 1 <= d <= days_in_month y m ->
  civil_of_day (MakeDay y m d) = (y, m, d).
Proof.
  intros Hm Hd.
  destruct (day_of_year_bounds y m d Hm Hd) as (Hmp & Hdoy & Hleap & Emp).
  cbv zeta in *. unfold MakeDay. cbv zeta.
  set (y' := if m <=? 2 then y - 1 else y) in *.
  set (era := y' / 400).
  set (yoe := y' - era * 400).
  set (mp := if m <=? 2 then m + 9 else m - 3) in *.
  set (doy := (153 * mp + 2) / 5 + d - 1) in *.
  assert (0 <= yoe <= 399) as Hyoe
    by (subst yoe era; Z.div_mod_to_equations; lia).
  assert (doy = 365 ->
          (yoe + 1) mod 4 = 0
          /\ ((yoe + 1) mod 100 <> 0 \/ (yoe + 1) mod 400 = 0)) as Hl.
  { intros E. destruct (Hleap E) as [-> Hly]. apply leap_spec in Hly.
    subst yoe era y'. replace (2 <=? 2) with true by reflexivity.
    clear -Hly. Z.div_mod_to_equations; lia. }
  destruct (year_of_era_recover yoe doy Hyoe Hdoy Hl) as (Hdoe & Eyoe).
  cbv zeta in *.
  set (doe := yoe * 365 + yoe / 4 - yoe / 100 + doy) in *.
  unfold civil_of_day. cbv zeta.
  replace (era * 146097 + doe - 719468 + 719468) with (era * 146097 + doe) by lia.
  replace ((era * 146097 + doe) / 146097) with era
    by (Z.div_mod_to_equations; lia).
  replace (era * 146097 + doe - era * 146097) with doe by lia.
  rewrite Eyoe.
  replace (doe - (365 * yoe + yoe / 4 - yoe / 100)) with doy by (subst doe; lia).
  rewrite Emp.
  replace (doy - (153 * mp + 2) / 5 + 1) with d by (subst doy; lia).
  assert ((if mp <? 10 then mp + 3 else mp - 9) = m) as ->
    by (subst mp; bool_cases; lia).
  do 2 f_equal. subst yoe y'. bool_cases; lia.
Qed.

(** The years of the time values [Date] keeps have at most six digits. *)
Lemma MakeDay_year_bound (y m d : Z) :
  1 <= m <= 12 -> 1 <= d <= 31 ->
  -100000000 <= MakeDay y m d <= 100000000 ->
  -280000 <= y <= 280000.
Proof.
  intros Hm Hd. unfold MakeDay. bool_cases; Z.div_mod_to_equations; lia.
Qed.

(** The day number follows the order of the calendar. *)
Lemma MakeDay_day (y m d d' : Z) : MakeDay y m d' = MakeDay y m d + (d' - d).
Proof. unfold MakeDay. lia. Qed.

Lemma MakeDay_next_year (y : Z) : MakeDay (y + 1) 1 1 = MakeDay y 12 31 + 1.
Proof.
  unfold MakeDay.
  replace (1 <=? 2) with true by reflexivity.
  replace (12 <=? 2) with false by reflexivity.
  replace (y + 1 - 1) with y by lia. Z.div_mod_to_equations. lia.
Qed.

Lemma MakeDay_next_month (y m : Z) :
  1 <= m <= 11 -> MakeDay y (m + 1) 1 = MakeDay y m (days_in_month y m) + 1.
Proof.
  intros Hm.
  assert (m = 1 \/ m = 2 \/ m = 3 \/ m = 4 \/ m = 5 \/ m = 6
          \/ m = 7 \/ m = 8 \/ m = 9 \/ m = 10 \/ m = 11) as Hc by lia.
  unfold days_in_month.
  destruct Hc as [-> | [-> | Hc]].
  - unfold MakeDay; bool_cases; try lia; Z.div_mod_to_equations; lia.
  - change (2 =? 2) with true. cbv iota.
    unfold MakeDay.
    replace (2 + 1 <=? 2) with false by reflexivity.
    replace (2 <=? 2) with true by reflexivity.
    destruct (leap y) eqn:El.
    + apply leap_spec in El. Z.div_mod_to_equations. lia.
    + assert (~ (y mod 4 = 0 /\ (y mod 100 <> 0 \/ y mod 400 = 0))) as Hn
        by (rewrite <- leap_spec; congruence).
      Z.div_mod_to_equations. lia.
  - repeat (destruct Hc as [-> | Hc]; [unfold MakeDay; bool_cases; try lia; Z.div_mod_to_equations; lia|]).
    subst m. unfold MakeDay; bool_cases; try lia; Z.div_mod_to_equations; lia.
Qed.

Lemma days_in_month_pos (y m : Z) : 28 <= days_in_month y m <= 31.
Proof.
  unfold days_in_month.
  repeat match goal with |- context [if ?b then _ else _] => destruct b end; lia.
Qed.

Lemma first_of_next_month (y m : Z) :
  1 <= m <= 11 -> MakeDay y (m + 1) 1 = MakeDay y m 1 + days_in_month y m.
Proof.
  intros Hm. rewrite (MakeDay_next_month y m Hm).
  rewrite (MakeDay_day y m 1 (days_in_month y m)). lia.
Qed.

Lemma first_of_later_month (y m : Z) (k : nat) :
  1 <= m -> m + Z.of_nat k <= 11 ->
  MakeDay y m 1 + days_in_month y m <= MakeDay y (m + 1 + Z.of_nat k) 1.
Proof.
  revert m. induction k as [|k IH]; intros m Hlo Hhi.
  - replace (m + 1 + Z.of_nat 0) with (m + 1) by lia.
    rewrite first_of_next_month by lia. lia.
  - replace (m + 1 + Z.of_nat (S k)) with (m + 1 + 1 + Z.of_nat k) by lia.
    pose proof (IH (m + 1) ltac:(lia) ltac:(lia)) as Hk.
    rewrite first_of_next_month in Hk by lia.
    pose proof (days_in_month_pos y (m + 1)). lia.
Qed.

Lemma first_of_month_le (y m1 m2 : Z) :
  1 <= m1 -> m1 < m2 -> m2 <= 12 ->
  MakeDay y m1 1 + days_in_month y m1 <= MakeDay y m2 1.
Proof.
  intros H1 Hlt H2.
  pose proof (first_of_later_month y m1 (Z.to_nat (m2 - m1 - 1))
                ltac:(lia) ltac:(lia)) as Hk.
  replace (m1 + 1 + Z.of_nat (Z.to_nat (m2 - m1 - 1))) with m2 in Hk by lia.
  exact Hk.
Qed.

Lemma end_of_year (y m : Z) :
  1 <= m <= 12 ->
  MakeDay y m 1 + days_in_month y m <= MakeDay (y + 1) 1 1.
Proof.
  intros Hm. rewrite MakeDay_next_year, (MakeDay_day y 12 1 31).
  destruct (Z.eq_dec m 12) as [-> | Hne].
  - replace (days_in_month y 12) with 31 by reflexivity. lia.
  - pose proof (first_of_month_le y m 12 ltac:(lia) ltac:(lia) ltac:(lia)). lia.
Qed.

Lemma start_of_year (y m : Z) :
  1 <= m <= 12 -> MakeDay y 1 1 <= MakeDay y m 1.
Proof.
  intros Hm. destruct (Z.eq_dec m 1) as [-> | Hne]; [lia|].
  pose proof (first_of_month_le y 1 m ltac:(lia) ltac:(lia) ltac:(lia)).
  pose proof (days_in_month_pos y 1). lia.
Qed.

Lemma start_of_later_year (y : Z) (k : nat) :
  MakeDay (y + 1) 1 1 <= MakeDay (y + 1 + Z.of_nat k) 1 1.
Proof.
  induction k as [|k IH].
  - replace (y + 1 + Z.of_nat 0) with (y + 1) by lia. lia.
  - replace (y + 1 + Z.of_nat (S k)) with (y + 1 + Z.of_nat k + 1) by lia.
    pose proof (end_of_year (y + 1 + Z.of_nat k) 1 ltac:(lia)).
    pose proof (days_in_month_pos (y + 1 + Z.of_nat k) 1). lia.
Qed.

Lemma MakeDay_earlier (y1 m1 d1 y2 m2 d2 : Z) :
  1 <= m1 <= 12 -> 1 <= d1 <= days_in_month y1 m1 ->
  1 <= m2 <= 12 -> 1 <= d2 <= days_in_month y2 m2 ->
  earlier y1 m1 d1 y2 m2 d2 -> MakeDay y1 m1 d1 < MakeDay y2 m2 d2.
Proof.
  intros Hm1 Hd1 Hm2 Hd2 He.
  rewrite (MakeDay_day y1 m1 1 d1), (MakeDay_day y2 m2 1 d2).
  destruct He as [Hy | [<- [Hm | [<- Hd]]]].
  - pose proof (end_of_year y1 m1 Hm1) as H1.
    pose proof (start_of_later_year y1 (Z.to_nat (y2 - y1 - 1))) as H2.
    replace (y1 + 1 + Z.of_nat (Z.to_nat (y2 - y1 - 1))) with y2 in H2 by lia.
    pose proof (start_of_year y2 m2 Hm2) as H3. lia.
  - pose proof (first_of_month_le y1 m1 m2 ltac:(lia) Hm ltac:(lia)). lia.
  - lia.
Qed.

Lemma MakeDay_lt_earlier (y1 m1 d1 y2 m2 d2 : Z) :
  1 <= m1 <= 12 -> 1 <= d1 <= days_in_month y1 m1 ->
  1 <= m2 <= 12 -> 1 <= d2 <= days_in_month y2 m2 ->
  MakeDay y1 m1 d1 < MakeDay y2 m2 d2 <-> earlier y1 m1 d1 y2 m2 d2.
Proof.
  intros Hm1 Hd1 Hm2 Hd2. split; [|now apply MakeDay_earlier].
  intros Hlt.
  assert (earlier y1 m1 d1 y2 m2 d2 \/ (y1 = y2 /\ m1 = m2 /\ d1 = d2)
          \/ earlier y2 m2 d2 y1 m1 d1) as [He | [(-> & -> & ->) | He]]
    by (unfold earlier; lia).
  - exact He.
  - lia.
  - pose proof (MakeDay_earlier _ _ _ _ _ _ Hm2 Hd2 Hm1 Hd1 He). lia.
Qed.

End Calendar.

(* ===================================================================== *)
(** ** Reading back what [toISOString] wrote                              *)
(* ===================================================================== *)

Section FormatParse.
Import JsDate IsoTimestamp.

Lemma TimeClip_Some (x t : Z) :
  TimeClip x = Some t <-> t = x /\ Z.abs x <= 8640000000000000.
Proof.
  unfold TimeClip. destruct (Z.leb_spec (Z.abs x) 8640000000000000); split.
  - intros [= <-]. auto.
  - intros [-> _]. reflexivity.
  - discriminate.
  - intros [_ ?]. lia.
Qed.

Lemma parseISO_range (cs : list ascii) (t : Z) :
  parseISO cs = Some t -> Z.abs t <= 8640000000000000.
Proof.
  unfold parseISO.
  destruct (parse_date cs) as [[[[y m] d] r]|];
    cbn [mbind option_bind]; [|discriminate].
  destruct (check _); cbn [mbind option_bind]; [|discriminate].
  destruct r as [|c r].
  - intros [-> ?]%TimeClip_Some. assumption.
  - destruct c as [[] [] [] [] [] [] [] []]; cbv beta iota; try discriminate.
    destruct (parse_time r); cbn [mbind option_bind]; [|discriminate].
    intros [-> ?]%TimeClip_Some. assumption.
Qed.

Lemma parse_year_expanded (sign : ascii) (y : Z) (rest : list ascii) :
  0 <= y < 1000000 ->
  (sign = "+"%char \/ (sign = "-"%char /\ y <> 0)) ->
  parse_year (sign :: pad 6 y ++ rest)
  = Some ((if Ascii.eqb sign "-" then - y else y), rest).
Proof.
  intros Hy [-> | [-> Hne]]; cbn [parse_year Ascii.eqb Bool.eqb].
  - rewrite digits_pad by (simpl; lia). reflexivity.
  - rewrite digits_pad by (simpl; lia). cbn [mbind option_bind].
    rewrite check_true by (apply negb_true_iff, Z.eqb_neq; exact Hne).
    reflexivity.
Qed.

Lemma parse_year_format (y : Z) (rest : list ascii) :
  -1000000 < y < 1000000 ->
  parse_year (format_year y ++ rest) = Some (y, rest).
Proof.
  intros Hy. unfold format_year.
  destruct (Z.leb_spec 0 y), (Z.leb_spec y 9999); cbn [andb].
  - apply parse_year_pad. lia.
  - replace (y <? 0) with false by (symmetry; apply Z.ltb_ge; lia).
    cbn [app]. rewrite parse_year_expanded by (first [lia | now left]).
    cbn. f_equal. f_equal. lia.
  - replace (y <? 0) with true by (symmetry; apply Z.ltb_lt; lia).
    cbn [app].
    rewrite parse_year_expanded
      by (first [lia | right; split; [reflexivity | lia]]).
    cbn. f_equal. f_equal. lia.
  - lia.
Qed.

Lemma parseISO_written (yc : list ascii) (y m d h mi s ms : Z) :
  (forall rest, parse_year (yc ++ rest) = Some (y, rest)) ->
  1 <= m <= 12 -> 1 <= d <= 31 ->
  0 <= h <= 23 -> 0 <= mi <= 59 -> 0 <= s <= 59 -> 0 <= ms <= 999 ->
  parseISO (yc ++ "-"%char :: pad 2 m ++ "-"%char :: pad 2 d
            ++ "T"%char :: pad 2 h ++ ":"%char :: pad 2 mi
            ++ ":"%char :: pad 2 s ++ "."%char :: pad 3 ms ++ ["Z"%char])
  = TimeClip (MakeDate (MakeDay y m d) (MakeTime h mi s ms)).
Proof.
  intros Hyc Hm Hd Hh Hmi Hs Hms.
  unfold parseISO, parse_date. rewrite Hyc. cbn [mbind option_bind].
  rewrite digits_pad by (simpl; lia). cbn [mbind option_bind].
  rewrite digits_pad by (simpl; lia). cbn [mbind option_bind].
  rewrite check_true by (rewrite !andb_true_iff, !Z.leb_le; lia).
  cbn [mbind option_bind]. unfold parse_time.
  rewrite digits_pad by (simpl; lia). cbn [mbind option_bind].
  rewrite expect_head. cbn [mbind option_bind].
  rewrite digits_pad by (simpl; lia). cbn [mbind option_bind].
  rewrite digits_pad by (simpl; lia). cbn [mbind option_bind].
  rewrite digits_pad by (simpl; lia). cbn [mbind option_bind].
  rewrite check_true
    by (apply orb_true_iff; left; rewrite !andb_true_iff, !Z.leb_le; lia).
  cbn [mbind option_bind parse_offset]. do 2 f_equal. lia.
Qed.

(** [toISOString] writes a string [Date.parse] reads back as the same time
    value. *)
Theorem parseISO_format_time_value (t : Z) :
  Z.abs t <= 8640000000000000 ->
  parseISO (list_ascii_of_string (format_time_value t)) = Some t.
Proof.
  intros Ht. unfold format_time_value.
  destruct (civil_of_day_spec (t / msPerDay)) as (y & m & d & E & Eday & Hm & Hd).
  rewrite E. rewrite list_ascii_of_string_of_list_ascii.
  pose proof (days_in_month_le y m) as Hdim.
  assert (-100000000 <= t / msPerDay <= 100000000) as Hday
    by (unfold msPerDay; Z.div_mod_to_equations; lia).
  assert (-280000 <= y <= 280000) as Hy
    by (apply (MakeDay_year_bound y m d); lia).
  set (tm := t mod msPerDay).
  assert (0 <= tm < 86400000) as Htm
    by (subst tm; unfold msPerDay; Z.div_mod_to_equations; lia).
  rewrite (parseISO_written (format_year y) y m d).
  - assert (MakeDate (MakeDay y m d)
              (MakeTime (tm / msPerHour) (tm / msPerMinute mod 60)
                 (tm / msPerSecond mod 60) (tm mod 1000)) = t) as ->.
    { rewrite Eday. unfold MakeDate, MakeTime, msPerHour, msPerMinute,
        msPerSecond, msPerDay in *. subst tm.
      Z.div_mod_to_equations; lia. }
    apply TimeClip_Some. split; [reflexivity|exact Ht].
  - intros rest. apply parse_year_format. lia.
  - lia.
  - lia.
  - unfold msPerHour. Z.div_mod_to_equations; lia.
  - unfold msPerMinute. Z.div_mod_to_equations; lia.
  - unfold msPerSecond. Z.div_mod_to_equations; lia.
  - Z.div_mod_to_equations; lia.
Qed.

End FormatParse.

(* ===================================================================== *)
(** ** Normal forms and instants                                          *)
(* ===================================================================== *)

Section NormalForms.
Context `{Host}.

Lemma parse_range (s : string) (t : Z) :
  host_in_range _ ->
  JsDate.parse host_parse s = Some t -> Z.abs t <= 8640000000000000.
Proof.
  intros Hh. unfold JsDate.parse.
  destruct (JsDate.parseISO (list_ascii_of_string s)) as [t'|] eqn:E.
  - intros [= <-]. exact (parseISO_range _ _ E).
  - apply Hh.
Qed.

Lemma normalizeTimestamp_format (t : Z) :
  Z.abs t <= 8640000000000000 ->
  normalizeTimestamp (JsDate.format_time_value t)
  = Ok (JsDate.format_time_value t).
Proof.
  intros Ht. unfold normalizeTimestamp, JsDate.parse.
  now rewrite (parseISO_format_time_value t Ht).
Qed.

(** X1.  A normal form is its own normal form: normalising twice is
    normalising once. *)
Theorem normalizeTimestamp_idempotent (timestamp n : string) :
  host_in_range _ ->
  normalizeTimestamp timestamp = Ok n ->
  normalizeTimestamp n = Ok n.
Proof.
  intros Hh. unfold normalizeTimestamp at 1.
  destruct (JsDate.parse host_parse timestamp) as [t|] eqn:E; cbn; [|discriminate].
  intros [= <-]. apply normalizeTimestamp_format.
  exact (parse_range _ _ Hh E).
Qed.

Lemma format_time_value_inj (t1 t2 : Z) :
  Z.abs t1 <= 8640000000000000 -> Z.abs t2 <= 8640000000000000 ->
  JsDate.format_time_value t1 = JsDate.format_time_value t2 -> t1 = t2.
Proof.
  intros H1 H2 E.
  pose proof (parseISO_format_time_value t1 H1) as P1.
  rewrite E, (parseISO_format_time_value t2 H2) in P1. congruence.
Qed.

Lemma instant_range (ts : IsoTimestamp.t) :
  IsoTimestamp.valid ts = true ->
  Z.abs (IsoTimestamp.instant ts) <= 8640000000000000.
Proof.
  intros Hv. exact (parseISO_range _ _ (parseISO_render ts Hv)).
Qed.

(** X2.  Two well-formed timestamps with the same normal form denote the
    same instant: the normal form tells instants apart. *)
Theorem normalizeTimestamp_tells_instants_apart (t1 t2 : IsoTimestamp.t) :
  IsoTimestamp.valid t1 = true ->
  IsoTimestamp.valid t2 = true ->
  normalizeTimestamp (IsoTimestamp.render t1)
  = normalizeTimestamp (IsoTimestamp.render t2) ->
  IsoTimestamp.instant t1 = IsoTimestamp.instant t2.
Proof.
  intros H1 H2.
  rewrite (normalizeTimestamp_render t1 H1), (normalizeTimestamp_render t2 H2).
  intros [= E].
  exact (format_time_value_inj _ _ (instant_range t1 H1) (instant_range t2 H2) E).
Qed.

Lemma written_parsable (start : string) (ts : IsoTimestamp.t) :
  written start ts -> parsable start.
Proof.
  intros [Hv ->]. apply normalizeTimestamp_parsable.
  rewrite (normalizeTimestamp_render ts Hv). eauto.
Qed.

(** X3.  On well-formed start times, the duplicates are exactly the
    candidates that start at the instant of an existing entry, whatever
    the time zones the two are written in. *)
Theorem filterDuplicateEntries_same_instant
    (newEntries : list TogglTimeEntryPayload.t)
    (existingEntries : list ExistingEntry.t) :
  Forall (fun c => exists ts, written (TogglTimeEntryPayload.start c) ts)
    newEntries ->
  Forall (fun e => exists ts, written (ExistingEntry.start e) ts)
    existingEntries ->
  exists r,
    filterDuplicateEntries newEntries existingEntries = Ok r
    /\ forall c ts,
         c ∈ newEntries -> written (TogglTimeEntryPayload.start c) ts ->
         (c ∈ DeduplicationResult.duplicates r <->
          exists e ts', e ∈ existingEntries
                        /\ written (ExistingEntry.start e) ts'
                        /\ IsoTimestamp.instant ts = IsoTimestamp.instant ts')
         /\ (c ∈ DeduplicationResult.uniqueEntries r <->
             forall e ts', e ∈ existingEntries ->
                           written (ExistingEntry.start e) ts' ->
                           IsoTimestamp.instant ts <> IsoTimestamp.instant ts').
Proof.
  intros Hnew Hex.
  assert (Forall (fun c => parsable (TogglTimeEntryPayload.start c)) newEntries)
    as Pnew.
  { eapply Forall_impl; [exact Hnew|]. intros c [ts Hw].
    exact (written_parsable _ _ Hw). }
  assert (Forall (fun e => parsable (ExistingEntry.start e)) existingEntries)
    as Pex.
  { eapply Forall_impl; [exact Hex|]. intros e [ts Hw].
    exact (written_parsable _ _ Hw). }
  destruct (filterDuplicateEntries_Ok _ _ Pnew Pex) as (S & HS & E).
  eexists. split; [exact E|]. cbn.
  intros c ts Hc [Hv Hs].
  assert (found_in S c = true <->
          exists e ts', e ∈ existingEntries
                        /\ written (ExistingEntry.start e) ts'
                        /\ IsoTimestamp.instant ts = IsoTimestamp.instant ts')
    as Hfound.
  { unfold found_in. rewrite Hs, (normalizeTimestamp_render ts Hv).
    rewrite bool_decide_eq_true, HS. split.
    - intros (e & He & Hn).
      rewrite Forall_forall in Hex. destruct (Hex e He) as [ts' [Hv' Hs']].
      exists e, ts'. repeat split; auto.
      rewrite Hs', (normalizeTimestamp_render ts' Hv') in Hn.
      injection Hn as Hn. symmetry.
      exact (format_time_value_inj _ _ (instant_range ts' Hv')
               (instant_range ts Hv) Hn).
    - intros (e & ts' & He & [Hv' Hs'] & Ei).
      exists e. split; [exact He|].
      now rewrite Hs', (normalizeTimestamp_render ts' Hv'), Ei. }
  split.
  - rewrite elem_of_filter_bool. rewrite Hfound. tauto.
  - rewrite elem_of_filter_bool, negb_true_iff. split.
    + intros [_ Hf] e ts' He Hw Ei.
      assert (found_in S c = true) as Ht
        by (apply Hfound; exists e, ts'; auto).
      congruence.
    + intros Hall. split; [exact Hc|].
      destruct (found_in S c) eqn:Ef; [|reflexivity].
      exfalso. destruct Hfound as [Hf _].
      destruct (Hf eq_refl) as (e & ts' & He & Hw & Ei).
      exact (Hall e ts' He Hw Ei).
Qed.

End NormalForms.

(* ===================================================================== *)
(** ** The filter, read backwards from its result                         *)
(* ===================================================================== *)

Section FilterInversion.
Context `{Host}.

Lemma mapR_inv {A B : Type} (f : A -> JsResult B) (xs : list A) (ys : list B) :
  mapR f xs = Ok ys -> Forall2 (fun x y => f x = Ok y) xs ys.
Proof.
  revert ys. induction xs as [|x xs IH]; intros ys; cbn.
  - intros [= <-]. constructor.
  - destruct (f x) as [y|e] eqn:E; cbn; [|discriminate].
    destruct (mapR f xs) as [ys'|e] eqn:E'; cbn; [|discriminate].
    intros [= <-]. constructor; auto.
Qed.

Lemma filter_newEntries_inv (existingStartTimes : gset string)
    (newEntries duplicates kept duplicates' : list TogglTimeEntryPayload.t) :
  filter_newEntries existingStartTimes newEntries duplicates
  = Ok (kept, duplicates') ->
  Forall (fun c => parsable (TogglTimeEntryPayload.start c)) newEntries.
Proof.
  revert duplicates kept duplicates'.
  induction newEntries as [|c cs IH]; intros duplicates kept duplicates';
    cbn [filter_newEntries]; [constructor|].
  destruct (normalizeTimestamp (TogglTimeEntryPayload.start c)) as [n|e] eqn:E;
    cbn; [|discriminate].
  destruct (filter_newEntries existingStartTimes cs _) as [[k d]|e] eqn:E';
    cbn; [|discriminate].
  intros _. constructor.
  - apply normalizeTimestamp_parsable. eauto.
  - exact (IH _ _ _ E').
Qed.

Lemma filterDuplicateEntries_inv
    (newEntries : list TogglTimeEntryPayload.t)
    (existingEntries : list ExistingEntry.t) (r : DeduplicationResult.t) :
  filterDuplicateEntries newEntries existingEntries = Ok r ->
  Forall (fun c => parsable (TogglTimeEntryPayload.start c)) newEntries
  /\ Forall (fun e => parsable (ExistingEntry.start e)) existingEntries.
Proof.
  unfold filterDuplicateEntries.
  destruct (mapR _ existingEntries) as [ns|e] eqn:E; cbn; [|discriminate].
  destruct (filter_newEntries _ newEntries []) as [[k d]|e] eqn:E';
    cbn; [|discriminate].
  intros _. split.
  - exact (filter_newEntries_inv _ _ _ _ _ E').
  - apply mapR_inv in E. clear E'.
    induction E as [|e n es ns' Hen _ IH]; constructor; auto.
    apply normalizeTimestamp_parsable. eauto.
Qed.

Lemma filterDuplicateEntries_shape
    (newEntries : list TogglTimeEntryPayload.t)
    (existingEntries : list ExistingEntry.t) (r : DeduplicationResult.t) :
  filterDuplicateEntries newEntries existingEntries = Ok r ->
  exists existingStartTimes : gset string,
    (forall n, n ∈ existingStartTimes <->
       exists e, e ∈ existingEntries
                 /\ normalizeTimestamp (ExistingEntry.start e) = Ok n)
    /\ r = DeduplicationResult.mk
             (List.filter (fun c => negb (found_in existingStartTimes c)) newEntries)
             (List.filter (found_in existingStartTimes) newEntries)
             (Z.of_nat (length (List.filter (found_in existingStartTimes) newEntries))).
Proof.
  intros E. destruct (filterDuplicateEntries_inv _ _ _ E) as [Pn Pe].
  destruct (filterDuplicateEntries_Ok _ _ Pn Pe) as (S & HS & E').
  exists S. split; [exact HS|]. congruence.
Qed.

Lemma filter_filter_same {A : Type} (f : A -> bool) (l : list A) :
  List.filter f (List.filter f l) = List.filter f l.
Proof.
  induction l as [|x l IH]; cbn; [reflexivity|].
  destruct (f x) eqn:E; cbn; [rewrite E|]; congruence.
Qed.

Lemma filter_filter_negb {A : Type} (f : A -> bool) (l : list A) :
  List.filter f (List.filter (fun x => negb (f x)) l) = [].
Proof.
  induction l as [|x l IH]; cbn; [reflexivity|].
  destruct (f x) eqn:E; cbn; [|rewrite E]; congruence.
Qed.

Lemma found_in_ext (S1 S2 : gset string) (c : TogglTimeEntryPayload.t) :
  (forall n, n ∈ S1 <-> n ∈ S2) -> found_in S1 c = found_in S2 c.
Proof.
  intros HS. unfold found_in.
  destruct (normalizeTimestamp _); [|reflexivity].
  apply bool_decide_ext, HS.
Qed.

Lemma filter_ext_bool {A : Type} (f g : A -> bool) (l : list A) :
  (forall x, f x = g x) -> List.filter f l = List.filter g l.
Proof.
  intros Hfg. induction l as [|x l IH]; cbn; [reflexivity|].
  rewrite Hfg, IH. reflexivity.
Qed.

(** X4.  Filtering is idempotent: of the entries the filter kept, a second
    pass against the same existing entries keeps every one and skips
    none. *)
Theorem filterDuplicateEntries_idempotent
    (newEntries : list TogglTimeEntryPayload.t)
    (existingEntries : list ExistingEntry.t) (r : DeduplicationResult.t) :
  filterDuplicateEntries newEntries existingEntries = Ok r ->
  filterDuplicateEntries (DeduplicationResult.uniqueEntries r) existingEntries
  = Ok (DeduplicationResult.mk (DeduplicationResult.uniqueEntries r) [] 0).
Proof.
  intros E. destruct (filterDuplicateEntries_inv _ _ _ E) as [Pn Pe].
  destruct (filterDuplicateEntries_shape _ _ _ E) as (S & HS & ->). cbn.
  assert (Forall (fun c => parsable (TogglTimeEntryPayload.start c))
            (List.filter (fun c => negb (found_in S c)) newEntries)) as Pu.
  { rewrite Forall_forall in Pn |- *. intros c Hc.
    apply elem_of_filter_bool in Hc as [Hc _]. auto. }
  destruct (filterDuplicateEntries_Ok _ _ Pu Pe) as (S' & HS' & ->).
  assert (forall c, found_in S' c = found_in S c) as Hsame.
  { intros c. apply found_in_ext. intros n. now rewrite HS, HS'. }
  rewrite (filter_ext_bool (fun c => negb (found_in S' c))
             (fun c => negb (found_in S c))) by (intros c; now rewrite Hsame).
  rewrite (filter_ext_bool (found_in S') (found_in S)) by exact Hsame.
  rewrite filter_filter_same, filter_filter_negb. reflexivity.
Qed.

(** X5.  The result depends on the existing entries only through the set
    of their normal forms: their order, their repetitions and the time
    zones they are written in do not matter. *)
Theorem filterDuplicateEntries_existing_as_set
    (newEntries : list TogglTimeEntryPayload.t)
    (existing1 existing2 : list ExistingEntry.t) :
  Forall (fun e => parsable (ExistingEntry.start e)) existing1 ->
  Forall (fun e => parsable (ExistingEntry.start e)) existing2 ->
  (forall n,
     (exists e, e ∈ existing1
                /\ normalizeTimestamp (ExistingEntry.start e) = Ok n)
     <-> (exists e, e ∈ existing2
                    /\ normalizeTimestamp (ExistingEntry.start e) = Ok n)) ->
  filterDuplicateEntries newEntries existing1
  = filterDuplicateEntries newEntries existing2.
Proof.
  intros P1 P2 Hsame.
  unfold filterDuplicateEntries.
  destruct (mapR_Ok (fun entry => normalizeTimestamp (ExistingEntry.start entry))
              existing1) as (ns1 & E1 & F1).
  { eapply Forall_impl; [exact P1|]. intros e He.
    now apply normalizeTimestamp_parsable. }
  destruct (mapR_Ok (fun entry => normalizeTimestamp (ExistingEntry.start entry))
              existing2) as (ns2 & E2 & F2).
  { eapply Forall_impl; [exact P2|]. intros e He.
    now apply normalizeTimestamp_parsable. }
  rewrite E1, E2. cbn.
  assert (forall (es : list ExistingEntry.t) ns,
            Forall2 (fun x y => normalizeTimestamp (ExistingEntry.start x) = Ok y)
              es ns ->
            forall n, n ∈ ns <->
              exists e, e ∈ es
                        /\ normalizeTimestamp (ExistingEntry.start e) = Ok n)
    as Hmem.
  { intros es ns F n. induction F as [|e n' es' ns' Hen _ IH].
    - split; [intros Hn; inversion Hn|intros (e & He & _); inversion He].
    - rewrite elem_of_cons, IH. split.
      + intros [-> | (e' & He' & Hn')].
        * exists e. split; [left|exact Hen].
        * exists e'. split; [now right|exact Hn'].
      + intros (e' & He' & Hn'). apply elem_of_cons in He' as [-> | He'].
        * left. congruence.
        * right. eauto. }
  assert ((list_to_set ns1 : gset string) = list_to_set ns2) as ->.
  { apply set_eq. intros n. rewrite !elem_of_list_to_set.
    rewrite (Hmem _ _ F1), (Hmem _ _ F2). apply Hsame. }
  reflexivity.
Qed.

Lemma filter_sublist_filter {A : Type} (f g : A -> bool) (l : list A) :
  (forall x, f x = true -> g x = true) ->
  List.filter f l `sublist_of` List.filter g l.
Proof.
  intros Hfg. induction l as [|x l IH]; cbn; [constructor|].
  destruct (f x) eqn:Ef.
  - rewrite (Hfg x Ef). now constructor.
  - destruct (g x); [now constructor|exact IH].
Qed.

(** X6.  More existing entries never make more unique entries: with
    further entries in the sink, what is kept is part of what was kept
    before, and what was skipped before is still skipped. *)
Theorem filterDuplicateEntries_monotone
    (newEntries : list TogglTimeEntryPayload.t)
    (existingEntries more : list ExistingEntry.t)
    (r r' : DeduplicationResult.t) :
  filterDuplicateEntries newEntries existingEntries = Ok r ->
  filterDuplicateEntries newEntries (existingEntries ++ more) = Ok r' ->
  DeduplicationResult.uniqueEntries r'
    `sublist_of` DeduplicationResult.uniqueEntries r
  /\ DeduplicationResult.duplicates r
       `sublist_of` DeduplicationResult.duplicates r'
  /\ DeduplicationResult.skippedCount r <= DeduplicationResult.skippedCount r'.
Proof.
  intros E E'.
  destruct (filterDuplicateEntries_shape _ _ _ E) as (S & HS & ->).
  destruct (filterDuplicateEntries_shape _ _ _ E') as (S' & HS' & ->). cbn.
  assert (forall c, found_in S c = true -> found_in S' c = true) as Hsub.
  { intros c. unfold found_in.
    destruct (normalizeTimestamp _) as [n|]; [|discriminate].
    rewrite !bool_decide_eq_true, HS, HS'.
    intros (e & He & Hn). exists e. split; [|exact Hn].
    apply elem_of_app. now left. }
  assert (List.filter (found_in S) newEntries
          `sublist_of` List.filter (found_in S') newEntries) as Hd
    by (apply filter_sublist_filter; exact Hsub).
  repeat apply conj.
  - apply filter_sublist_filter. intros c Hc.
    apply negb_true_iff in Hc. apply negb_true_iff.
    destruct (found_in S c) eqn:Ef; [|reflexivity].
    rewrite (Hsub c Ef) in Hc. discriminate.
  - exact Hd.
  - apply sublist_length in Hd. lia.
Qed.

End FilterInversion.

(* ===================================================================== *)
(** ** Creation and enrichment, accounted for                             *)
(* ===================================================================== *)

Lemma failed_entries_sublist (entries : list TogglTimeEntryPayload.t)
    (outcomes : list (option Thrown)) :
  map FailedEntry.entry (failed_entries entries outcomes) `sublist_of` entries.
Proof.
  revert outcomes. induction entries as [|entry entries IH];
    intros [|[e|] outcomes]; cbn; try constructor; auto.
  apply sublist_nil_l.
Qed.

Lemma failed_entries_length (entries : list TogglTimeEntryPayload.t)
    (outcomes : list (option Thrown)) :
  length outcomes = length entries ->
  length (failed_entries entries outcomes) = length (failures outcomes).
Proof.
  intros Hlen.
  rewrite <- (length_map FailedEntry.error), (failed_entries_errors _ _ Hlen).
  apply length_map.
Qed.

Section Accounting.
Context {W : Type} (remote : Remote W).

(** X7.  The creation loop never throws and accounts for every entry:
    it sends one request per entry, the two counters are the lengths of
    the two lists, they add up to the number of entries, and the failed
    entries are entries submitted, in the order submitted. *)
Theorem createTimeEntries_accounts_for_every_entry
    (entries : list TogglTimeEntryPayload.t) (w : World W) :
  exists result w',
    createTimeEntries remote entries w = (Ok result, w')
    /\ length (requests w') = (length (requests w) + length entries)%nat
    /\ CreateEntriesResult.successCount result
       = Z.of_nat (length (CreateEntriesResult.success result))
    /\ CreateEntriesResult.failedCount result
       = Z.of_nat (length (CreateEntriesResult.failed result))
    /\ CreateEntriesResult.successCount result
       + CreateEntriesResult.failedCount result
       = Z.of_nat (length entries)
    /\ map FailedEntry.entry (CreateEntriesResult.failed result)
       `sublist_of` entries.
Proof.
  destruct (createTimeEntries_from_spec remote entries
              (CreateEntriesResult.mk [] [] 0 0) w)
    as (cr & w' & outcomes & E & Hlen & Hreq & Hf & Hfc & Hsc & Hs).
  cbn in Hf, Hfc, Hsc, Hs.
  exists cr, w'. unfold createTimeEntries. rewrite E.
  pose proof (failures_length outcomes) as Hle.
  pose proof (failed_entries_length entries outcomes Hlen) as Hfl.
  repeat apply conj.
  - reflexivity.
  - rewrite Hreq, length_app, length_zip_with. lia.
  - rewrite Hsc, Hs. lia.
  - rewrite Hfc, Hf, Hfl. reflexivity.
  - rewrite Hsc, Hfc. lia.
  - rewrite Hf. apply failed_entries_sublist.
Qed.

Lemma enrichWorklogsWithIssueDetails_map
    (worklogs : list TempoWorklog.t) (w : World W) :
  exists (issueDetailsMap : gmap string IssueDetails.t) w',
    enrichWorklogsWithIssueDetails remote worklogs w
    = (Ok (map (enrich_worklog issueDetailsMap) worklogs), w')
    /\ forall worklog url, worklog ∈ worklogs -> issue_self worklog = Some url ->
         is_Some (issueDetailsMap !! url).
Proof.
  destruct (collect_issue_urls_spec worklogs) as [Hnd Hurls].
  destruct (fetch_issue_details_spec remote (collect_issue_urls worklogs) ∅ w Hnd)
    as (m & w' & outcomes & E & _ & _ & _ & Hin & _).
  exists m, w'. unfold enrichWorklogsWithIssueDetails, mbind, M_bind.
  rewrite E. split; [reflexivity|].
  intros wl url Hwl Hs. apply Hin, Hurls. eauto.
Qed.


End Accounting.

(* ===================================================================== *)
(** ** The service, accounted for                                         *)
(* ===================================================================== *)

Section SyncAccounting.
Context `{Host} {W : Type} (remote : Remote W).
Context (transformConfig : TempoToTogglConfig.t).
Variables fromDate toDate : string.

Lemma transformTempoWorklogsToToggl_length (worklogs : list TempoWorklog.t)
    (config : TempoToTogglConfig.t) :
  length (transformTempoWorklogsToToggl worklogs config) = length worklogs.
Proof. apply length_map. Qed.

Lemma filterDuplicateEntries_lengths
    (newEntries : list TogglTimeEntryPayload.t)
    (existingEntries : list ExistingEntry.t) (r : DeduplicationResult.t) :
  filterDuplicateEntries newEntries existingEntries = Ok r ->
  (length (DeduplicationResult.uniqueEntries r)
   + length (DeduplicationResult.duplicates r) = length newEntries)%nat
  /\ DeduplicationResult.skippedCount r
     = Z.of_nat (length (DeduplicationResult.duplicates r)).
Proof.
  intros E. destruct (filterDuplicateEntries_shape _ _ _ E) as (S & _ & ->).
  cbn. split; [|reflexivity].
  rewrite <- length_app.
  apply Permutation_length, filter_split_perm.
Qed.

(** X9.  Whatever the remote side does, the counters of the result add
    up: the unique entries and the duplicates skipped are the worklogs
    fetched, the entries created and the entries that failed are the
    unique entries, and no counter is negative.  A result without errors
    means that every unique entry has been created. *)
Theorem syncTimeEntries_counters_add_up (w : World W) :
  exists r w',
    syncTimeEntries
      (SyncServiceConfig.mk (new_TempoClient remote) (new_TogglClient remote)
         transformConfig)
      fromDate toDate w = (Ok r, w')
    /\ SyncResult.uniqueEntries r + SyncResult.duplicatesSkipped r
       = SyncResult.tempoEntriesFetched r
    /\ SyncResult.successfullyCreated r + SyncResult.failedToCreate r
       = SyncResult.uniqueEntries r
    /\ 0 <= SyncResult.uniqueEntries r
    /\ 0 <= SyncResult.duplicatesSkipped r
    /\ 0 <= SyncResult.successfullyCreated r
    /\ 0 <= SyncResult.failedToCreate r
    /\ SyncResult.failedToCreate r <= Z.of_nat (length (SyncResult.errors r))
    /\ (SyncResult.errors r = [] ->
        SyncResult.successfullyCreated r = SyncResult.uniqueEntries r).
Proof.
  unfold syncTimeEntries, try_catch, mbind, M_bind, liftR.
  cbn [SyncServiceConfig.tempoClient SyncServiceConfig.togglClient
       SyncServiceConfig.transformConfig new_TogglClient new_TempoClient
       TogglClient.fetchTimeEntries TogglClient.createTimeEntries
       TempoClient.fetchWorklogs TempoClient.enrichWorklogsWithIssueDetails].
  destruct (fetchWorklogs remote fromDate toDate w) as [[wl|e] w1].
  2:{ eexists _, _. split; [reflexivity|]. cbn.
      repeat apply conj; lia. }
  destruct (enrichWorklogsWithIssueDetails_map remote wl w1)
    as (m & w2 & -> & _).
  destruct (fetchTimeEntries remote fromDate toDate w2) as [[te|e] w3].
  2:{ eexists _, _. split; [reflexivity|]. cbn.
      repeat apply conj; lia. }
  destruct (filterDuplicateEntries _ _) as [dd|e] eqn:E4.
  2:{ eexists _, _. split; [reflexivity|]. cbn.
      repeat apply conj; lia. }
  apply filterDuplicateEntries_lengths in E4 as [Hsum Hskip].
  rewrite transformTempoWorklogsToToggl_length, length_map in Hsum.
  destruct (createTimeEntries_from_spec remote
              (DeduplicationResult.uniqueEntries dd)
              (CreateEntriesResult.mk [] [] 0 0) w3)
    as (cr & w4 & outcomes & E5 & Hlen & _ & Hf & Hfc & Hsc & _).
  cbn in Hf, Hfc, Hsc.
  unfold createTimeEntries. rewrite E5. cbn [mret M_ret].
  eexists _, w4. split; [reflexivity|].
  cbn [SyncResult.errors SyncResult.failedToCreate
       SyncResult.successfullyCreated SyncResult.uniqueEntries
       SyncResult.duplicatesSkipped SyncResult.tempoEntriesFetched].
  pose proof (failures_length outcomes) as Hle.
  pose proof (failed_entries_length _ _ Hlen) as Hfl.
  rewrite <- Hf in Hfl.
  assert (forall failed : list FailedEntry.t,
            length (if 0 <? Z.of_nat (length failed)
                    then [] ++ map (fun f => "Failed to create entry: "
                                             +:+ FailedEntry.error f) failed
                    else [])
            = length failed) as Herr
    by (intros failed;
        destruct (Z.ltb_spec 0 (Z.of_nat (length failed))) as [Hpos|Hpos];
        [now rewrite app_nil_l, length_map
        |destruct failed; [reflexivity|cbn in Hpos; lia]]).
  specialize (Herr (CreateEntriesResult.failed cr)).
  rewrite Hfc, Hsc, Hskip.
  repeat apply conj; try lia.
  intros Hnil. rewrite Hnil in Herr. cbn in Herr. lia.
Qed.

End SyncAccounting.

Section NothingNew.
Context `{Host} {W : Type} (remote : Remote W).
Context (tempo : TempoClient.t (World W)).
Context (transformConfig : TempoToTogglConfig.t).
Variables fromDate toDate : string.


End NothingNew.

(* ===================================================================== *)
(** ** The two revisions of the transformation                            *)
(* ===================================================================== *)

(** X11.  For a worklog without an issue key and a configuration without
    a task, as the entry point builds it, the revision with keys and
    tasks sends what the earlier revision sent. *)
Theorem transform_agrees_with_earlier
    (worklog : TempoWorklog.t) (config : TempoToTogglConfig.t) :
  issue_key worklog = None ->
  TempoToTogglConfig.task_id config = None ->
  TogglTimeEntryPayload.toJSON (transformTempoWorklogToToggl worklog config)
  = TogglTimeEntryPayload.toJSON
      (Earlier.transformTempoWorklogToToggl worklog config).
Proof.
  intros Hk Ht.
  unfold transformTempoWorklogToToggl, Earlier.transformTempoWorklogToToggl.
  rewrite Hk, Ht.
  destruct (TempoToTogglConfig.project_id config) as [p|];
    [destruct (number_truthy p)|]; reflexivity.
Qed.

(* ===================================================================== *)
(** ** Calendar dates on the terminal                                     *)
(* ===================================================================== *)

Section DateFormat.
Import JsDate IsoTimestamp JsLocal.

Lemma steady_fixed_zone (offset : Z) :
  Z.abs offset <= msPerDay -> steady (fixed_zone offset).
Proof.
  intros Ho. unfold steady, LocalTime, UTC. cbn. repeat apply conj.
  - auto.
  - intros. unfold msPerDay. lia.
  - intros day. replace (day * msPerDay - offset + offset)
      with (day * msPerDay) by lia.
    apply Z.div_mul. discriminate.
Qed.

Lemma is_digit_spec (c : ascii) :
  is_digit c = true <-> exists v, 0 <= v <= 9 /\ c = digit_char v.
Proof.
  unfold is_digit. split.
  - destruct (digit c) as [v|] eqn:E; [|discriminate]. intros _.
    unfold digit in E.
    destruct ((48 <=? Z.of_N (N_of_ascii c)) && (Z.of_N (N_of_ascii c) <=? 57))
      eqn:Eb; [|discriminate].
    injection E as <-.
    apply andb_true_iff in Eb as [Hlo%Z.leb_le Hhi%Z.leb_le].
    exists (Z.of_N (N_of_ascii c) - 48). split; [lia|].
    unfold digit_char.
    replace (Z.of_N (N_of_ascii c) - 48 + 48) with (Z.of_N (N_of_ascii c)) by lia.
    now rewrite N2Z.id, ascii_N_embedding.
  - intros (v & Hv & ->). now rewrite digit_digit_char.
Qed.

Lemma is_digit_mod (n : Z) : is_digit (digit_char (n mod 10)) = true.
Proof.
  apply is_digit_spec. exists (n mod 10). split; [|reflexivity].
  pose proof (Z.mod_pos_bound n 10). lia.
Qed.

Lemma digit_char_not_hyphen (v : Z) :
  0 <= v <= 9 -> Ascii.eqb (digit_char v) "-" = false.
Proof.
  intros Hv.
  assert (v = 0 \/ v = 1 \/ v = 2 \/ v = 3 \/ v = 4 \/ v = 5 \/ v = 6
          \/ v = 7 \/ v = 8 \/ v = 9) as Hc by lia.
  repeat (destruct Hc as [-> | Hc]; [reflexivity|]). subst v. reflexivity.
Qed.

Lemma pad_S_digit (k : nat) (n v : Z) :
  0 <= v <= 9 -> pad (S k) (10 * n + v) = pad k n ++ [digit_char v].
Proof.
  intros Hv. cbn [pad].
  replace ((10 * n + v) / 10) with n by (Z.div_mod_to_equations; lia).
  replace ((10 * n + v) mod 10) with v by (Z.div_mod_to_equations; lia).
  reflexivity.
Qed.

Lemma pad_length (k : nat) (n : Z) : length (pad k n) = k.
Proof.
  revert n. induction k as [|k IH]; intros n; cbn [pad]; [reflexivity|].
  rewrite length_app, IH. cbn. lia.
Qed.

Lemma pad_no_hyphen (k : nat) (n : Z) :
  Forall (fun c => Ascii.eqb c "-" = false) (pad k n).
Proof.
  revert n. induction k as [|k IH]; intros n; cbn [pad]; [constructor|].
  apply Forall_app. split; [apply IH|]. constructor; [|constructor].
  apply digit_char_not_hyphen. pose proof (Z.mod_pos_bound n 10). lia.
Qed.

(** A string in the format is the writing of three numbers. *)
Lemma isValidDateFormat_digits (date : string) :
  isValidDateFormat date = true ->
  exists y m d,
    0 <= y <= 9999 /\ 0 <= m <= 99 /\ 0 <= d <= 99
    /\ date = date_string y m d.
Proof.
  intros Hf. unfold isValidDateFormat in Hf.
  remember (list_ascii_of_string date) as l eqn:El.
  do 10 (destruct l as [|? l]; [discriminate|]).
  destruct l; [|discriminate].
  rewrite !andb_true_iff in Hf.
  destruct Hf as [[[[[[[[[H1 H2] H3] H4] H5] H6] H7] H8] H9] H10].
  apply is_digit_spec in H1 as (y1 & B1 & ->).
  apply is_digit_spec in H2 as (y2 & B2 & ->).
  apply is_digit_spec in H3 as (y3 & B3 & ->).
  apply is_digit_spec in H4 as (y4 & B4 & ->).
  apply is_digit_spec in H6 as (m1 & B6 & ->).
  apply is_digit_spec in H7 as (m2 & B7 & ->).
  apply is_digit_spec in H9 as (d1 & B9 & ->).
  apply is_digit_spec in H10 as (d2 & B10 & ->).
  apply Ascii.eqb_eq in H5, H8. subst.
  exists (10 * (10 * (10 * (10 * 0 + y1) + y2) + y3) + y4),
    (10 * (10 * 0 + m1) + m2), (10 * (10 * 0 + d1) + d2).
  repeat apply conj; try lia.
  rewrite <- (string_of_list_ascii_of_string date), <- El.
  unfold date_string, date_chars.
  rewrite !pad_S_digit by lia. reflexivity.
Qed.

Lemma date_chars_digits (y m d : Z) :
  exists y1 y2 y3 y4 m1 m2 d1 d2,
    date_chars y m d
    = [digit_char (y1 mod 10); digit_char (y2 mod 10); digit_char (y3 mod 10);
       digit_char (y4 mod 10); "-"%char;
       digit_char (m1 mod 10); digit_char (m2 mod 10); "-"%char;
       digit_char (d1 mod 10); digit_char (d2 mod 10)].
Proof. unfold date_chars. cbn [pad app]. repeat eexists. Qed.

Lemma isValidDateFormat_date_string (y m d : Z) :
  isValidDateFormat (date_string y m d) = true.
Proof.
  unfold isValidDateFormat, date_string.
  rewrite list_ascii_of_string_of_list_ascii.
  destruct (date_chars_digits y m d)
    as (y1 & y2 & y3 & y4 & m1 & m2 & d1 & d2 & ->).
  rewrite !is_digit_mod. reflexivity.
Qed.

(** X22.  The format test accepts the strings made of four digits, two
    digits and two digits between hyphens, and no other: what it accepts
    is the writing of three numbers, which the string determines. *)
Theorem isValidDateFormat_written (date : string) :
  isValidDateFormat date = true
  <-> exists y m d,
        0 <= y <= 9999 /\ 0 <= m <= 99 /\ 0 <= d <= 99
        /\ date = date_string y m d.
Proof.
  split.
  - apply isValidDateFormat_digits.
  - intros (y & m & d & _ & _ & _ & ->).
    unfold isValidDateFormat, date_string, date_chars.
    rewrite list_ascii_of_string_of_list_ascii. cbn [pad app].
    rewrite !is_digit_mod. reflexivity.
Qed.

Lemma list_ascii_of_string_app (a b : string) :
  list_ascii_of_string (a +:+ b)
  = list_ascii_of_string a ++ list_ascii_of_string b.
Proof.
  induction a as [|c a IH]; [reflexivity|].
  rewrite append_String. cbn. now rewrite IH.
Qed.

Lemma parse_date_chars (y m d : Z) (rest : list ascii) :
  0 <= y <= 9999 -> 0 <= m <= 99 -> 0 <= d <= 99 ->
  parse_date (date_chars y m d ++ rest) = Some (y, m, d, rest).
Proof.
  intros Hy Hm Hd. unfold parse_date, date_chars.
  rewrite <- app_assoc. cbn [app]. rewrite <- app_assoc. cbn [app].
  rewrite parse_year_pad by lia. cbn [mbind option_bind].
  rewrite digits_pad by (simpl; lia). cbn [mbind option_bind].
  rewrite digits_pad by (simpl; lia). reflexivity.
Qed.

Lemma split_no_separator (l : list ascii) :
  Forall (fun c => Ascii.eqb c "-" = false) l ->
  split "-" (string_of_list_ascii l) = [string_of_list_ascii l].
Proof.
  induction 1 as [|c l Hc _ IH]; [reflexivity|].
  cbn [string_of_list_ascii split]. now rewrite Hc, IH.
Qed.

Lemma split_at_separator (l rest : list ascii) :
  Forall (fun c => Ascii.eqb c "-" = false) l ->
  split "-" (string_of_list_ascii (l ++ "-"%char :: rest))
  = string_of_list_ascii l :: split "-" (string_of_list_ascii rest).
Proof.
  induction 1 as [|c l Hc _ IH]; [reflexivity|].
  cbn [string_of_list_ascii split app]. now rewrite Hc, IH.
Qed.

Lemma split_date_string (y m d : Z) :
  split "-" (date_string y m d)
  = [string_of_list_ascii (pad 4 y); string_of_list_ascii (pad 2 m);
     string_of_list_ascii (pad 2 d)].
Proof.
  unfold date_string, date_chars.
  rewrite split_at_separator by apply pad_no_hyphen.
  rewrite split_at_separator by apply pad_no_hyphen.
  rewrite split_no_separator by apply pad_no_hyphen.
  reflexivity.
Qed.

Lemma Number_of_digits_pad (k : nat) (n : Z) :
  0 <= n < 10 ^ Z.of_nat k ->
  Number_of_digits (string_of_list_ascii (pad k n)) = Some n.
Proof.
  intros Hn. unfold Number_of_digits.
  rewrite list_ascii_of_string_of_list_ascii, pad_length.
  rewrite <- (app_nil_r (pad k n)), digits_pad by exact Hn.
  reflexivity.
Qed.

End DateFormat.

Section DateChecks.
Import JsDate IsoTimestamp JsLocal.
Context `{Zone} (other : string -> option Z).

Lemma midnight_chars (y m d : Z) :
  list_ascii_of_string (date_string y m d +:+ "T00:00:00")
  = date_chars y m d ++ list_ascii_of_string "T00:00:00".
Proof.
  rewrite list_ascii_of_string_app. unfold date_string.
  now rewrite list_ascii_of_string_of_list_ascii.
Qed.

(** What [new Date] makes of a date followed by [T00:00:00]. *)
Lemma new_Date_midnight (y m d : Z) :
  0 <= y <= 9999 -> 0 <= m <= 99 -> 0 <= d <= 99 ->
  new_Date other (date_string y m d +:+ "T00:00:00")
  = if (1 <=? m) && (m <=? 12) && (1 <=? d) && (d <=? 31)
    then TimeClip (UTC (MakeDay y m d * msPerDay))
    else other (date_string y m d +:+ "T00:00:00").
Proof.
  intros Hy Hm Hd. unfold new_Date, JsDate.parse, host_parse, zoned.
  rewrite midnight_chars. unfold parseISO, parseISO_local.
  rewrite parse_date_chars by assumption. cbn [mbind option_bind].
  destruct ((1 <=? m) && (m <=? 12) && (1 <=? d) && (d <=? 31));
    cbn [check mbind option_bind]; [|reflexivity].
  change (list_ascii_of_string "T00:00:00")
    with ("T"%char :: list_ascii_of_string "00:00:00").
  cbn [mbind option_bind].
  assert (parse_time (list_ascii_of_string "00:00:00") = None) as ->
    by (vm_compute; reflexivity).
  assert (parse_local_time (list_ascii_of_string "00:00:00") = Some 0) as ->
    by (vm_compute; reflexivity).
  cbn [mbind option_bind]. unfold MakeDate. now rewrite Z.add_0_r.
Qed.

Lemma midnight_in_range (y m d : Z) :
  steady _ ->
  0 <= y <= 9999 -> 1 <= m <= 12 -> 1 <= d <= 31 ->
  TimeClip (UTC (MakeDay y m d * msPerDay))
  = Some (UTC (MakeDay y m d * msPerDay)).
Proof.
  intros (Hb & _ & _) Hy Hm Hd.
  pose proof (MakeDay_bound y m d Hy Hm Hd) as HD.
  unfold TimeClip, UTC.
  pose proof (Hb (MakeDay y m d * msPerDay) false) as Ho.
  unfold msPerDay in *.
  replace (Z.abs _ <=? _) with true; [reflexivity|].
  symmetry. apply Z.leb_le. lia.
Qed.

Lemma local_date_midnight (day : Z) :
  steady _ -> local_date (UTC (day * msPerDay)) = civil_of_day day.
Proof. intros (_ & _ & Hm). unfold local_date. now rewrite Hm. Qed.

Lemma local_date_calendar (t : Z) :
  exists y m d, local_date t = (y, m, d)
                /\ 1 <= m <= 12 /\ 1 <= d <= 31.
Proof.
  unfold local_date.
  destruct (civil_of_day_spec (LocalTime t / msPerDay))
    as (y & m & d & E & _ & Hm & Hd).
  exists y, m, d. pose proof (days_in_month_le y m). repeat split; auto; lia.
Qed.

(** The three comparisons of [isValidDate], on a string in the format. *)
Lemma isValidDate_date_string (y m d : Z) :
  0 <= y <= 9999 -> 0 <= m <= 99 -> 0 <= d <= 99 ->
  isValidDate other (date_string y m d)
  = match new_Date other (date_string y m d +:+ "T00:00:00") with
    | Some t =>
        let '(y', m', d') := local_date t in
        (y' =? y) && (m' - 1 =? m - 1) && (d' =? d)
    | None => false
    end.
Proof.
  intros Hy Hm Hd. unfold isValidDate.
  assert (isValidDateFormat (date_string y m d) = true) as ->
    by apply isValidDateFormat_date_string.
  cbn [negb]. rewrite split_date_string. cbn [map].
  rewrite !Number_of_digits_pad by (simpl; lia).
  destruct (new_Date other _) as [t|]; [|reflexivity].
  unfold getFullYear, getMonth, getDate. cbn [mbind option_bind].
  destruct (local_date t) as [[y' m'] d']. reflexivity.
Qed.

(** A valid date is a day of the calendar. *)
Lemma isValidDate_is_calendar_date (date : string) :
  steady _ ->
  isValidDate other date = true ->
  exists y m d, calendar_date y m d /\ date = date_string y m d.
Proof.
  intros Hz Hv.
  assert (isValidDateFormat date = true) as Hf.
  { unfold isValidDate in Hv.
    destruct (isValidDateFormat date); [reflexivity|discriminate]. }
  apply isValidDateFormat_digits in Hf as (y & m & d & Hy & Hm & Hd & ->).
  exists y, m, d. split; [|reflexivity].
  rewrite isValidDate_date_string in Hv by assumption.
  rewrite new_Date_midnight in Hv by assumption.
  destruct ((1 <=? m) && (m <=? 12) && (1 <=? d) && (d <=? 31)) eqn:Er.
  - rewrite !andb_true_iff, !Z.leb_le in Er.
    rewrite midnight_in_range in Hv by (auto; lia).
    rewrite (local_date_midnight _ Hz) in Hv.
    destruct (civil_of_day_spec (MakeDay y m d))
      as (y' & m' & d' & E & _ & Hm' & Hd').
    rewrite E in Hv.
    rewrite !andb_true_iff, !Z.eqb_eq in Hv.
    assert (y' = y /\ m' = m /\ d' = d) as (-> & -> & ->) by lia.
    unfold calendar_date. auto.
  - exfalso.
    destruct (other _) as [t|]; [|discriminate].
    destruct (local_date_calendar t) as (y' & m' & d' & E & Hm' & Hd').
    rewrite E in Hv.
    rewrite !andb_true_iff, !Z.eqb_eq in Hv.
    assert ((1 <=? m) && (m <=? 12) && (1 <=? d) && (d <=? 31) = true)
      as Ht by (rewrite !andb_true_iff, !Z.leb_le; lia).
    congruence.
Qed.

(** X12.  In a steady zone, the dates accepted are the days of the
    calendar: a string is a valid date exactly when it writes a year on
    four digits, a month from 01 to 12 and a day that the month has in
    that year.  What the host makes of other strings does not matter. *)
Theorem isValidDate_calendar (date : string) :
  steady _ ->
  isValidDate other date = true
  <-> exists y m d, calendar_date y m d /\ date = date_string y m d.
Proof.
  intros Hz. split; [now apply isValidDate_is_calendar_date|].
  intros (y & m & d & (Hy & Hm & Hd) & ->).
  pose proof (days_in_month_le y m) as Hle.
  rewrite isValidDate_date_string by lia.
  rewrite new_Date_midnight by lia.
  assert ((1 <=? m) && (m <=? 12) && (1 <=? d) && (d <=? 31) = true)
    as -> by (rewrite !andb_true_iff, !Z.leb_le; lia).
  rewrite midnight_in_range by (auto; lia).
  rewrite (local_date_midnight _ Hz).
  rewrite (civil_of_MakeDay y m d Hm Hd).
  rewrite !andb_true_iff, !Z.eqb_eq. lia.
Qed.

Lemma UTC_midnight_lt (day1 day2 : Z) :
  steady _ ->
  UTC (day1 * msPerDay) < UTC (day2 * msPerDay) <-> day1 < day2.
Proof.
  intros (_ & Hd & _). unfold UTC.
  pose proof (Hd (day2 * msPerDay) false (day1 * msPerDay) false) as H12.
  pose proof (Hd (day1 * msPerDay) false (day2 * msPerDay) false) as H21.
  unfold msPerDay in *. split.
  - intros Hlt. destruct (Z.lt_trichotomy day1 day2) as [?|[->|?]]; lia.
  - lia.
Qed.

(** The range test compares the day numbers of the two dates. *)
Lemma isValidDateRange_day_numbers (y1 m1 d1 y2 m2 d2 : Z) :
  steady _ ->
  calendar_date y1 m1 d1 -> calendar_date y2 m2 d2 ->
  isValidDateRange other (date_string y1 m1 d1) (date_string y2 m2 d2) = true
  <-> MakeDay y1 m1 d1 < MakeDay y2 m2 d2.
Proof.
  intros Hz (Hy1 & Hm1 & Hd1) (Hy2 & Hm2 & Hd2).
  pose proof (days_in_month_le y1 m1). pose proof (days_in_month_le y2 m2).
  unfold isValidDateRange.
  rewrite !new_Date_midnight by lia.
  assert ((1 <=? m1) && (m1 <=? 12) && (1 <=? d1) && (d1 <=? 31) = true)
    as -> by (rewrite !andb_true_iff, !Z.leb_le; lia).
  assert ((1 <=? m2) && (m2 <=? 12) && (1 <=? d2) && (d2 <=? 31) = true)
    as -> by (rewrite !andb_true_iff, !Z.leb_le; lia).
  rewrite !midnight_in_range by (auto; lia).
  cbn [less_than]. rewrite Z.ltb_lt. now apply UTC_midnight_lt.
Qed.

(** X13.  In a steady zone, of two calendar dates the range is valid
    exactly when the start is earlier in the calendar than the end. *)
Theorem isValidDateRange_earlier (y1 m1 d1 y2 m2 d2 : Z) :
  steady _ ->
  calendar_date y1 m1 d1 -> calendar_date y2 m2 d2 ->
  isValidDateRange other (date_string y1 m1 d1) (date_string y2 m2 d2) = true
  <-> earlier y1 m1 d1 y2 m2 d2.
Proof.
  intros Hz C1 C2.
  rewrite (isValidDateRange_day_numbers _ _ _ _ _ _ Hz C1 C2).
  destruct C1 as (_ & Hm1 & Hd1), C2 as (_ & Hm2 & Hd2).
  now apply MakeDay_lt_earlier.
Qed.

(** X14.  In a steady zone, a calendar date is in the future exactly when
    the day the clock shows in local time is earlier in the calendar. *)
Theorem isDateInFuture_later_day (y m d now : Z) :
  steady _ ->
  calendar_date y m d ->
  Z.abs now <= 8640000000000000 - 2 * msPerDay ->
  isDateInFuture other (date_string y m d) now = true
  <-> exists y0 m0 d0,
        local_date now = (y0, m0, d0) /\ earlier y0 m0 d0 y m d.
Proof.
  intros Hz (Hy & Hm & Hd) Hnow.
  pose proof (days_in_month_le y m).
  unfold isDateInFuture.
  rewrite new_Date_midnight by lia.
  assert ((1 <=? m) && (m <=? 12) && (1 <=? d) && (d <=? 31) = true)
    as -> by (rewrite !andb_true_iff, !Z.leb_le; lia).
  rewrite midnight_in_range by (auto; lia).
  unfold setHours_midnight. cbn [mbind option_bind].
  replace (MakeDate (LocalTime now / msPerDay) (MakeTime 0 0 0 0))
    with (LocalTime now / msPerDay * msPerDay)
    by (unfold MakeDate, MakeTime; lia).
  assert (TimeClip (UTC (LocalTime now / msPerDay * msPerDay))
          = Some (UTC (LocalTime now / msPerDay * msPerDay))) as ->.
  { destruct Hz as (Hb & Hdiff & _).
    unfold TimeClip, UTC, LocalTime.
    set (day := (now + LocalTZA now true) / msPerDay).
    pose proof (Hdiff (day * msPerDay) false now true) as D1.
    pose proof (Hdiff now true (day * msPerDay) false) as D2.
    assert (day * msPerDay <= now + LocalTZA now true < day * msPerDay + msPerDay)
      as Hday.
    { unfold day, msPerDay. Z.div_mod_to_equations. lia. }
    unfold msPerDay in *.
    replace (Z.abs _ <=? _) with true; [reflexivity|].
    symmetry. apply Z.leb_le. lia. }
  cbn [less_than]. rewrite Z.ltb_lt, (UTC_midnight_lt _ _ Hz).
  unfold local_date.
  destruct (civil_of_day_spec (LocalTime now / msPerDay))
    as (y0 & m0 & d0 & E & Hday & Hm0 & Hd0).
  rewrite E, <- Hday.
  rewrite (MakeDay_lt_earlier y0 m0 d0 y m d Hm0 Hd0 Hm Hd).
  split.
  - intros He. exists y0, m0, d0. auto.
  - intros (y0' & m0' & d0' & [= <- <- <-] & He). exact He.
Qed.

End DateChecks.

(* ===================================================================== *)
(** ** The prompts                                                        *)
(* ===================================================================== *)

Section Prompts.
Import JsDate IsoTimestamp JsLocal.
Context `{Zone} (other : string -> option Z).

Lemma promptForValidDate_loop_spec (rounds : nat) (message : string)
    (allowFuture : bool) (tm : Terminal) :
  (length (reads tm) < rounds)%nat ->
  exists r tm',
    promptForValidDate_loop other rounds message allowFuture tm = Some (r, tm')
    /\ match r with
       | Ok date =>
           exists before t answer,
             reads tm = before ++ (t, answer) :: reads tm'
             /\ Forall (fun a => acceptable other allowFuture a = false) before
             /\ acceptable other allowFuture (t, answer) = true
             /\ date = trim answer
             /\ clock tm' = t
       | Throw e =>
           e = end_of_input
           /\ Forall (fun a => acceptable other allowFuture a = false) (reads tm)
           /\ reads tm' = []
       end.
Proof.
  revert tm. induction rounds as [|rounds IH]; intros tm Hlen; [lia|].
  cbn [promptForValidDate_loop]. unfold promptForDate.
  destruct (reads tm) as [|[t answer] rest] eqn:Er.
  - exists (Throw end_of_input), tm. repeat split; auto.
  - set (tm1 := {| reads := rest; clock := t |}).
    assert (length (reads tm1) < rounds)%nat as Hlen1 by (cbn in *; lia).
    assert (acceptable other allowFuture (t, answer)
            = isValidDate other (trim answer)
              && (allowFuture
                  || negb (isDateInFuture other (trim answer) t))) as Ea
      by reflexivity.
    assert (isValidDateFormat (trim answer) = false ->
            isValidDate other (trim answer) = false) as Hfmt
      by (intros Ef; unfold isValidDate; now rewrite Ef).
    assert (acceptable other allowFuture (t, answer) = false ->
            exists r tm',
              promptForValidDate_loop other rounds message allowFuture tm1
              = Some (r, tm')
              /\ match r with
                 | Ok date =>
                     exists before t' answer',
                       (t, answer) :: rest = before ++ (t', answer') :: reads tm'
                       /\ Forall (fun a => acceptable other allowFuture a = false)
                            before
                       /\ acceptable other allowFuture (t', answer') = true
                       /\ date = trim answer'
                       /\ clock tm' = t'
                 | Throw e =>
                     e = end_of_input
                     /\ Forall (fun a => acceptable other allowFuture a = false)
                          ((t, answer) :: rest)
                     /\ reads tm' = []
                 end) as Hnext.
    { intros Hno. destruct (IH tm1 Hlen1) as (r & tm' & E & Hr).
      exists r, tm'. split; [exact E|]. destruct r as [date|e].
      - destruct Hr as (before & t' & answer' & Hreads & Hbefore & Hacc & Hd & Hc).
        exists ((t, answer) :: before), t', answer'. cbn in Hreads.
        rewrite Hreads. repeat split; auto.
      - destruct Hr as (-> & Hall & Hnil). repeat split; auto. }
    destruct (isValidDateFormat (trim answer)) eqn:Ef; cbn [negb].
    2:{ apply Hnext. rewrite Ea, (Hfmt eq_refl). reflexivity. }
    destruct (isValidDate other (trim answer)) eqn:Ev; cbn [negb].
    2:{ apply Hnext. rewrite Ea. reflexivity. }
    change (clock tm1) with t.
    destruct (negb allowFuture && isDateInFuture other (trim answer) t) eqn:Efu.
    + apply Hnext. rewrite Ea.
      apply andb_true_iff in Efu as [Hal Hfu].
      apply negb_true_iff in Hal. now rewrite Hal, Hfu.
    + exists (Ok (trim answer)), tm1. split; [reflexivity|].
      exists [], t, answer. repeat split; auto.
      rewrite Ea. cbn [andb].
      destruct allowFuture; [reflexivity|]. cbn in Efu. now rewrite Efu.
Qed.

(** X15.  The prompt for a date always ends, whatever is typed: it
    returns the first answer that is acceptable, trimmed, after taking
    the answers before it, or fails at the end of the input when no
    answer is acceptable. *)
Theorem promptForValidDate_first_acceptable (message : string)
    (allowFuture : bool) (tm : Terminal) :
  exists r tm',
    promptForValidDate other message allowFuture tm = Some (r, tm')
    /\ match r with
       | Ok date =>
           exists before t answer,
             reads tm = before ++ (t, answer) :: reads tm'
             /\ Forall (fun a => acceptable other allowFuture a = false) before
             /\ acceptable other allowFuture (t, answer) = true
             /\ date = trim answer
             /\ clock tm' = t
       | Throw e =>
           e = end_of_input
           /\ Forall (fun a => acceptable other allowFuture a = false) (reads tm)
           /\ reads tm' = []
       end.
Proof.
  unfold promptForValidDate. apply promptForValidDate_loop_spec. lia.
Qed.

(** What the prompt for a date leaves behind, as far as the loop around
    it needs to know. *)
Lemma promptForValidDate_progress (message : string) (tm : Terminal) :
  exists r tm',
    promptForValidDate other message false tm = Some (r, tm')
    /\ match r with
       | Ok date =>
           isValidDate other date = true
           /\ (length (reads tm') < length (reads tm))%nat
       | Throw e => e = end_of_input /\ reads tm' = []
       end.
Proof.
  destruct (promptForValidDate_loop_spec (S (length (reads tm))) message false tm)
    as (r & tm' & E & Hr); [lia|].
  exists r, tm'. split; [exact E|]. destruct r as [date|e].
  - destruct Hr as (before & t & answer & Hreads & _ & Hacc & -> & _).
    split.
    + unfold acceptable in Hacc. now apply andb_true_iff in Hacc as [Hv _].
    + rewrite Hreads, length_app. cbn. lia.
  - destruct Hr as (-> & _ & Hnil). auto.
Qed.

Lemma promptForDateRange_loop_spec (rounds : nat) (startDate : string)
    (tm : Terminal) :
  (length (reads tm) < rounds)%nat ->
  exists r tm',
    promptForDateRange_loop other rounds startDate tm = Some (r, tm')
    /\ match r with
       | Ok range =>
           DateRange.startDate range = startDate
           /\ isValidDate other (DateRange.endDate range) = true
           /\ startDate <> DateRange.endDate range
           /\ isValidDateRange other startDate (DateRange.endDate range) = true
       | Throw e => e = end_of_input /\ reads tm' = []
       end.
Proof.
  revert tm. induction rounds as [|rounds IH]; intros tm Hlen; [lia|].
  cbn [promptForDateRange_loop].
  destruct (promptForValidDate_progress "📅 Enter end date (YYYY-MM-DD): " tm)
    as (r & tm1 & -> & Hr).
  destruct r as [endDate|e].
  - destruct Hr as [Hv Hless].
    assert (length (reads tm1) < rounds)%nat as Hlen1 by lia.
    destruct (String.eqb startDate endDate) eqn:Eq; [exact (IH tm1 Hlen1)|].
    destruct (isValidDateRange other startDate endDate) eqn:Erange;
      cbn [negb]; [|exact (IH tm1 Hlen1)].
    eexists _, tm1. split; [reflexivity|]. cbn.
    apply String.eqb_neq in Eq. auto.
  - exists (Throw e), tm1. auto.
Qed.

Lemma promptForDateRange_spec (tm : Terminal) :
  exists r tm',
    promptForDateRange other tm = Some (r, tm')
    /\ match r with
       | Ok range =>
           isValidDate other (DateRange.startDate range) = true
           /\ isValidDate other (DateRange.endDate range) = true
           /\ DateRange.startDate range <> DateRange.endDate range
           /\ isValidDateRange other (DateRange.startDate range)
                (DateRange.endDate range) = true
       | Throw e => e = end_of_input /\ reads tm' = []
       end.
Proof.
  unfold promptForDateRange.
  destruct (promptForValidDate_progress "📅 Enter start date (YYYY-MM-DD): " tm)
    as (r & tm1 & -> & Hr).
  destruct r as [startDate|e].
  - destruct Hr as [Hv _].
    destruct (promptForDateRange_loop_spec (S (length (reads tm1))) startDate tm1)
      as (r & tm2 & E & Hr); [lia|].
    exists r, tm2. split; [exact E|]. destruct r as [range|e]; [|exact Hr].
    destruct Hr as (Hs & Hve & Hne & Hrange). rewrite Hs. auto.
  - exists (Throw e), tm1. auto.
Qed.

(** X16.  The prompt for a range always ends.  In a steady zone the
    range it returns is made of two calendar dates, the start earlier in
    the calendar than the end; it fails only at the end of the input. *)
Theorem promptForDateRange_calendar_range (tm : Terminal) :
  steady _ ->
  exists r tm',
    promptForDateRange other tm = Some (r, tm')
    /\ match r with
       | Ok range =>
           exists y1 m1 d1 y2 m2 d2,
             calendar_date y1 m1 d1 /\ calendar_date y2 m2 d2
             /\ DateRange.startDate range = date_string y1 m1 d1
             /\ DateRange.endDate range = date_string y2 m2 d2
             /\ earlier y1 m1 d1 y2 m2 d2
       | Throw e => e = end_of_input /\ reads tm' = []
       end.
Proof.
  intros Hz. destruct (promptForDateRange_spec tm) as (r & tm' & E & Hr).
  exists r, tm'. split; [exact E|]. destruct r as [range|e]; [|exact Hr].
  destruct Hr as (Hs & He & _ & Hrange).
  apply (isValidDate_is_calendar_date other _ Hz) in Hs as (y1 & m1 & d1 & C1 & E1).
  apply (isValidDate_is_calendar_date other _ Hz) in He as (y2 & m2 & d2 & C2 & E2).
  exists y1, m1, d1, y2, m2, d2.
  split; [exact C1|]. split; [exact C2|]. split; [exact E1|].
  split; [exact E2|].
  rewrite E1, E2 in Hrange.
  apply (isValidDateRange_day_numbers other _ _ _ _ _ _ Hz C1 C2) in Hrange.
  destruct C1 as (_ & Hm1 & Hd1), C2 as (_ & Hm2 & Hd2).
  now apply MakeDay_lt_earlier.
Qed.

End Prompts.

(* ===================================================================== *)
(** ** The configuration                                                  *)
(* ===================================================================== *)

Section Configuration.
Import JsDate.

Lemma required_is_set (env : gmap string string) (name : string) :
  required (env !! name) name
  = if is_set env name then Ok (default "" (env !! name))
    else Throw (missing_variable name).
Proof.
  unfold required, is_set. destruct (env !! name) as [v|]; [|reflexivity].
  destruct (string_truthy v); reflexivity.
Qed.

(** X17.  The configuration loads exactly when the six required variables
    are set and not empty; otherwise the error names the first one, in the
    order checked, that is missing or empty.  The project is optional. *)
Theorem loadConfig_first_missing (env : gmap string string) :
  match List.find (fun name => negb (is_set env name)) required_variables with
  | Some name => loadConfig env = Throw (missing_variable name)
  | None =>
      exists config,
        loadConfig env = Ok config
        /\ env !! "TOGGL_TOKEN" = Some (AppConfig.togglToken config)
        /\ env !! "TEMPO_TOKEN" = Some (AppConfig.tempoToken config)
        /\ env !! "JIRA_EMAIL" = Some (AppConfig.jiraEmail config)
        /\ env !! "JIRA_API_TOKEN" = Some (AppConfig.jiraApiToken config)
        /\ (exists v, env !! "TOGGL_WORKSPACE_ID" = Some v
                      /\ AppConfig.togglWorkspaceId config = parseInt10 v)
        /\ (exists v, env !! "TOGGL_TASK_ID" = Some v
                      /\ AppConfig.togglTaskId config = parseInt10 v)
        /\ AppConfig.togglProjectId config
           = (if is_set env "TOGGL_PROJECT_ID"
              then parseInt10 <$> env !! "TOGGL_PROJECT_ID" else None)
  end.
Proof.
  unfold loadConfig, required_variables. cbn [List.find].
  rewrite !required_is_set.
  destruct (is_set env "TOGGL_TOKEN") eqn:E1; cbn [negb mbind]; [|reflexivity].
  destruct (is_set env "TEMPO_TOKEN") eqn:E2; cbn [negb mbind]; [|reflexivity].
  destruct (is_set env "TOGGL_WORKSPACE_ID") eqn:E3; cbn [negb mbind];
    [|reflexivity].
  destruct (is_set env "JIRA_EMAIL") eqn:E4; cbn [negb mbind]; [|reflexivity].
  destruct (is_set env "JIRA_API_TOKEN") eqn:E5; cbn [negb mbind];
    [|reflexivity].
  destruct (is_set env "TOGGL_TASK_ID") eqn:E6; cbn [negb mbind];
    [|reflexivity].
  unfold is_set in *.
  destruct (env !! "TOGGL_TOKEN") as [v1|]; [|discriminate].
  destruct (env !! "TEMPO_TOKEN") as [v2|]; [|discriminate].
  destruct (env !! "TOGGL_WORKSPACE_ID") as [v3|]; [|discriminate].
  destruct (env !! "JIRA_EMAIL") as [v4|]; [|discriminate].
  destruct (env !! "JIRA_API_TOKEN") as [v5|]; [|discriminate].
  destruct (env !! "TOGGL_TASK_ID") as [v6|]; [|discriminate].
  eexists. split; [reflexivity|]. cbn.
  repeat apply conj; eauto.
  destruct (env !! "TOGGL_PROJECT_ID") as [v7|]; [|reflexivity].
  destruct (string_truthy v7); reflexivity.
Qed.

Lemma loadConfig_inv (env : gmap string string) (config : AppConfig.t) :
  loadConfig env = Ok config ->
  (exists v, env !! "TOGGL_WORKSPACE_ID" = Some v
             /\ AppConfig.togglWorkspaceId config = parseInt10 v)
  /\ AppConfig.togglProjectId config
     = (if is_set env "TOGGL_PROJECT_ID"
        then parseInt10 <$> env !! "TOGGL_PROJECT_ID" else None).
Proof.
  unfold loadConfig. rewrite !required_is_set.
  destruct (is_set env "TOGGL_TOKEN"); cbn [mbind]; [|discriminate].
  destruct (is_set env "TEMPO_TOKEN"); cbn [mbind]; [|discriminate].
  destruct (is_set env "TOGGL_WORKSPACE_ID") eqn:E3; cbn [mbind];
    [|discriminate].
  destruct (is_set env "JIRA_EMAIL"); cbn [mbind]; [|discriminate].
  destruct (is_set env "JIRA_API_TOKEN"); cbn [mbind]; [|discriminate].
  destruct (is_set env "TOGGL_TASK_ID"); cbn [mbind]; [|discriminate].
  intros [= <-]. cbn. unfold is_set in *.
  destruct (env !! "TOGGL_WORKSPACE_ID") as [v3|]; [|discriminate].
  split; [eauto|].
  destruct (env !! "TOGGL_PROJECT_ID") as [v7|]; [|reflexivity].
  destruct (string_truthy v7); reflexivity.
Qed.

Lemma leading_digits_pad (k : nat) (n : Z) (rest : list ascii) :
  leading_digits (pad k n ++ rest) = pad k n ++ leading_digits rest.
Proof.
  revert n rest. induction k as [|k IH]; intros n rest; cbn [pad];
    [reflexivity|].
  rewrite <- !app_assoc, IH. cbn [app leading_digits].
  now rewrite is_digit_mod.
Qed.

Lemma decimal_value_pad_acc (k : nat) (n acc : Z) :
  0 <= n < 10 ^ Z.of_nat k ->
  fold_left (fun acc c => 10 * acc + default 0 (digit c)) (pad k n) acc
  = acc * 10 ^ Z.of_nat k + n.
Proof.
  revert n acc. induction k as [|k IH]; intros n acc Hn.
  - cbn in *. lia.
  - rewrite Nat2Z.inj_succ, Z.pow_succ_r in Hn |- * by lia.
    cbn [pad]. rewrite fold_left_app. cbn [fold_left].
    rewrite IH by (split; [apply Z.div_pos; lia
                          |apply Z.div_lt_upper_bound; lia]).
    rewrite digit_digit_char by (pose proof (Z.mod_pos_bound n 10); lia).
    cbn [default]. unfold id. pose proof (Z.div_mod n 10). lia.
Qed.

Lemma trimStart_digit (c : ascii) (s : string) :
  is_digit c = true -> trimStart (String c s) = String c s.
Proof.
  intros (v & Hv & ->)%is_digit_spec.
  assert (v = 0 \/ v = 1 \/ v = 2 \/ v = 3 \/ v = 4 \/ v = 5 \/ v = 6
          \/ v = 7 \/ v = 8 \/ v = 9) as Hc by lia.
  repeat (destruct Hc as [-> | Hc]; [reflexivity|]). subst v. reflexivity.
Qed.

(** The digits are read as the integer they write, which is then
    rounded to a Number. *)
Lemma parseInt10_digits (k : nat) (n : Z) (rest : list ascii) :
  0 <= n < 10 ^ Z.of_nat (S k) ->
  leading_digits rest = [] ->
  parseInt10 (string_of_list_ascii (pad (S k) n ++ rest))
  = Number_of_integer 1 n.
Proof.
  intros Hn Hrest. unfold parseInt10.
  assert (exists c tl, pad (S k) n ++ rest = c :: tl /\ is_digit c = true)
    as (c & tl & E & Hc).
  { destruct k as [|k].
    - eexists _, _. split; [reflexivity|]. apply is_digit_mod.
    - cbn [pad]. destruct (pad k (n / 10 / 10)) as [|c0 l0] eqn:Ep.
      + apply (f_equal (@length _)) in Ep. rewrite pad_length in Ep.
        destruct k; [|discriminate].
        eexists _, _. split; [reflexivity|]. apply is_digit_mod.
      + assert (is_digit c0 = true) as Hc0.
        { destruct k as [|k]; [discriminate|]. cbn [pad] in Ep.
          assert (Forall (fun c => is_digit c = true) (c0 :: l0)) as Hall.
          { rewrite <- Ep. apply Forall_app. split.
            - clear. generalize (n / 10 / 10 / 10). induction k as [|k IH];
                intros x; cbn [pad]; [constructor|].
              apply Forall_app. split; [apply IH|].
              constructor; [apply is_digit_mod|constructor].
            - constructor; [apply is_digit_mod|constructor]. }
          now inversion Hall. }
        eexists c0, _. split; [reflexivity|exact Hc0]. }
  rewrite E. cbn [string_of_list_ascii]. rewrite (trimStart_digit c _ Hc).
  cbn [list_ascii_of_string]. rewrite list_ascii_of_string_of_list_ascii.
  assert (match c :: tl with
          | "-"%char :: r => (-1, r)
          | "+"%char :: r => (1, r)
          | _ => (1, c :: tl)
          end = (1, c :: tl)) as ->.
  { apply is_digit_spec in Hc as (v & Hv & ->).
    assert (v = 0 \/ v = 1 \/ v = 2 \/ v = 3 \/ v = 4 \/ v = 5 \/ v = 6
            \/ v = 7 \/ v = 8 \/ v = 9) as Hd by lia.
    repeat (destruct Hd as [-> | Hd]; [reflexivity|]). subst v. reflexivity. }
  rewrite <- E, leading_digits_pad, Hrest, app_nil_r.
  destruct (pad (S k) n) as [|c1 l1] eqn:Ep.
  { apply (f_equal (@length _)) in Ep. rewrite pad_length in Ep. discriminate. }
  rewrite <- Ep. unfold decimal_value.
  rewrite decimal_value_pad_acc by exact Hn. f_equal; lia.
Qed.


(** X18.  [parseInt] reads back a number below two to the fifty-third
    written in decimal digits, with leading zeros or not, whatever follows
    the digits. *)
Theorem parseInt10_decimal (k : nat) (n : Z) (rest : list ascii) :
  0 <= n < 10 ^ Z.of_nat (S k) ->
  n < 2 ^ 53 ->
  leading_digits rest = [] ->
  parseInt10 (string_of_list_ascii (pad (S k) n ++ rest)) = Num n.
Proof.
  intros Hn Hsmall Hrest. rewrite (parseInt10_digits k n rest Hn Hrest).
  unfold Number_of_integer, nearest_double.
  destruct (Z.ltb_spec n (2 ^ 53)) as [_|Hbig]; [|lia].
  f_equal. lia.
Qed.

End Configuration.

(* ===================================================================== *)
(** ** From the environment to the payload                                *)
(* ===================================================================== *)

(** X19.  What reaches a payload from the environment: the workspace is
    the number read from [TOGGL_WORKSPACE_ID]; the project is sent when
    [TOGGL_PROJECT_ID] reads as a number other than zero and is left out
    otherwise; the task loaded from [TOGGL_TASK_ID] is not passed on. *)
Theorem payload_from_environment (env : gmap string string)
    (config : AppConfig.t) (worklog : TempoWorklog.t) :
  loadConfig env = Ok config ->
  (exists v, env !! "TOGGL_WORKSPACE_ID" = Some v
             /\ TogglTimeEntryPayload.workspace_id
                  (transformTempoWorklogToToggl worklog
                     (transformConfig_of config))
                = parseInt10 v)
  /\ TogglTimeEntryPayload.project_id
       (transformTempoWorklogToToggl worklog (transformConfig_of config))
     = match parseInt10 <$> env !! "TOGGL_PROJECT_ID" with
       | Some (Num n) => if n =? 0 then Absent else Own (Some (Num n))
       | Some (Infinity negative) => Own (Some (Infinity negative))
       | _ => Absent
       end
  /\ TogglTimeEntryPayload.task_id
       (transformTempoWorklogToToggl worklog (transformConfig_of config))
     = Own None
  /\ TogglTimeEntryPayload.created_with
       (transformTempoWorklogToToggl worklog (transformConfig_of config))
     = "tempo-to-toggl-sync".
Proof.
  intros E. pose proof (loadConfig_inv env config E) as (Hw & Hp).
  unfold transformTempoWorklogToToggl, transformConfig_of.
  cbn [TempoToTogglConfig.workspace_id TempoToTogglConfig.project_id
       TempoToTogglConfig.task_id TempoToTogglConfig.created_with].
  rewrite Hp.
  destruct (env !! "TOGGL_PROJECT_ID") as [v|] eqn:Ev; cbn [fmap option_fmap option_map].
  - unfold is_set. rewrite Ev.
    destruct (string_truthy v) eqn:Et.
    + cbn [fmap option_fmap option_map].
      destruct (parseInt10 v) as [n| |negative] eqn:En; cbn [number_truthy].
      * destruct (Z.eqb_spec n 0) as [->|Hn]; cbn; auto.
      * cbn. auto.
      * cbn. auto.
    + assert (v = "") as -> by (destruct v; [reflexivity|discriminate]).
      cbn. auto.
  - unfold is_set. rewrite Ev. cbn. auto.
Qed.

(* ===================================================================== *)
(** ** The entry point                                                    *)
(* ===================================================================== *)

Section SyncReturns.
Context `{Host} {S : Type} (config : SyncServiceConfig.t S).

Lemma syncTimeEntries_returns (fromDate toDate : string) (s : S) :
  exists r s', syncTimeEntries config fromDate toDate s = (Ok r, s').
Proof.
  unfold syncTimeEntries, try_catch, mbind, M_bind, liftR.
  destruct (TempoClient.fetchWorklogs _ fromDate toDate s)
    as [[wl|e] s1]; [|eauto].
  destruct (TempoClient.enrichWorklogsWithIssueDetails _ wl s1)
    as [[ewl|e] s2]; [|eauto].
  destruct (TogglClient.fetchTimeEntries _ fromDate toDate s2)
    as [[te|e] s3]; [|eauto].
  destruct (filterDuplicateEntries _ _) as [dd|e]; [|eauto].
  destruct (TogglClient.createTimeEntries _ _ s3) as [[cr|e] s4]; eauto.
Qed.

End SyncReturns.

Section MainOutcomes.
Context `{JsLocal.Zone} (other : string -> option Z).
Context {W : Type} (remote : Remote W).

(** X20.  The program always ends, in one of two ways.  It exits with
    status 1 when the input ends before a range is given or when the
    configuration does not load, and it has then sent no request.
    Otherwise it runs the service on the range given and ends with its
    result, whatever the remote services do. *)
Theorem main_outcomes (env : gmap string string) (tm : Terminal)
    (w : World W) :
  exists ending tm' w',
    main other remote env tm w = Some (ending, tm', w')
    /\ match ending with
       | Exit1 e =>
           w' = w
           /\ (e = end_of_input /\ reads tm' = []
               \/ exists range,
                    promptForDateRange other tm = Some (Ok range, tm')
                    /\ loadConfig env = Throw e)
       | Completed result =>
           exists range config,
             promptForDateRange other tm = Some (Ok range, tm')
             /\ loadConfig env = Ok config
             /\ @syncTimeEntries (JsLocal.zoned other) _
                  (SyncServiceConfig.mk (new_TempoClient remote)
                     (new_TogglClient remote) (transformConfig_of config))
                  (DateRange.startDate range) (DateRange.endDate range) w
                = (Ok result, w')
       end.
Proof.
  unfold main.
  destruct (promptForDateRange_spec other tm) as (r & tm' & E & Hr).
  rewrite E. destruct r as [range|e].
  - destruct (loadConfig env) as [config|e] eqn:Ec.
    + destruct (@syncTimeEntries_returns (JsLocal.zoned other) _
                  (SyncServiceConfig.mk (new_TempoClient remote)
                     (new_TogglClient remote) (transformConfig_of config))
                  (DateRange.startDate range) (DateRange.endDate range) w)
        as (result & w' & Es).
      rewrite Es. exists (Completed result), tm', w'.
      split; [reflexivity|]. exists range, config. auto.
    + exists (Exit1 e), tm', w. split; [reflexivity|].
      split; [reflexivity|]. right. exists range. auto.
  - destruct Hr as [-> Hnil].
    exists (Exit1 end_of_input), tm', w. split; [reflexivity|].
    split; [reflexivity|]. now left.
Qed.

End MainOutcomes.

(* ===================================================================== *)
(** ** The order of the requests                                          *)
(* ===================================================================== *)

Lemma lookups_are_lookups (urls : list string) (outcomes : list (option Thrown)) :
  Forall (fun c : Call * option Thrown => is_lookup c.1 = true)
    (zip_with (fun url o => (FetchJiraIssue url, o)) urls outcomes).
Proof.
  revert outcomes. induction urls as [|url urls IH]; intros [|o outcomes];
    cbn; constructor; auto.
Qed.

Lemma creations_are_creations (entries : list TogglTimeEntryPayload.t)
    (outcomes : list (option Thrown)) :
  Forall (fun c : Call * option Thrown => is_creation c.1 = true)
    (zip_with (fun entry o => (CreateTimeEntry entry, o)) entries outcomes).
Proof.
  revert outcomes. induction entries as [|entry entries IH]; intros [|o outcomes];
    cbn; constructor; auto.
Qed.

Section RequestOrder.
Context `{Host} {W : Type} (remote : Remote W).
Context (transformConfig : TempoToTogglConfig.t).
Variables fromDate toDate : string.

(** X21.  The requests of a run come in one order: the fetch from the
    source, then the lookups of the enrichment, then the fetch from the
    sink, then the creations.  After a failed fetch from the source
    nothing more is sent, and nothing is created unless both fetches have
    succeeded. *)
Theorem syncTimeEntries_request_order (w : World W) :
  exists r w' o1 lookups tail,
    syncTimeEntries
      (SyncServiceConfig.mk (new_TempoClient remote) (new_TogglClient remote)
         transformConfig)
      fromDate toDate w = (Ok r, w')
    /\ requests w'
       = requests w ++ (FetchWorklogs fromDate toDate, o1) :: lookups ++ tail
    /\ Forall (fun c => is_lookup c.1 = true) lookups
    /\ (o1 <> None -> lookups = [] /\ tail = [])
    /\ (tail = []
        \/ exists o creations,
             tail = (FetchTimeEntries fromDate toDate, o) :: creations
             /\ Forall (fun c => is_creation c.1 = true) creations
             /\ (creations <> [] -> o1 = None /\ o = None)).
Proof.
  unfold syncTimeEntries, try_catch, mbind, M_bind, liftR.
  cbn [SyncServiceConfig.tempoClient SyncServiceConfig.togglClient
       SyncServiceConfig.transformConfig new_TogglClient new_TempoClient
       TogglClient.fetchTimeEntries TogglClient.createTimeEntries
       TempoClient.fetchWorklogs TempoClient.enrichWorklogsWithIssueDetails].
  unfold fetchWorklogs at 1. unfold perform at 1.
  destruct (respond remote (FetchWorklogs fromDate toDate) (remote_state w))
    as [[wl|e1] st1]; cbn [failure].
  2:{ eexists _, _, (Some e1), [], []. split; [reflexivity|]. cbn.
      repeat apply conj; auto. }
  set (w1 := Build_World st1 (requests w ++ [(FetchWorklogs fromDate toDate, None)])).
  destruct (collect_issue_urls_spec wl) as [Hnd _].
  destruct (fetch_issue_details_spec remote (collect_issue_urls wl) ∅ w1 Hnd)
    as (m & w2 & louts & E2 & _ & Hreq2 & _).
  unfold enrichWorklogsWithIssueDetails, mbind, M_bind. rewrite E2.
  cbn [mret M_ret].
  set (lookups := zip_with (fun url o => (FetchJiraIssue url, o))
                    (collect_issue_urls wl) louts) in *.
  assert (requests w2
          = requests w ++ (FetchWorklogs fromDate toDate, None) :: lookups) as Hw2.
  { rewrite Hreq2. unfold w1. cbn [requests]. now rewrite <- app_assoc. }
  unfold fetchTimeEntries at 1. unfold perform at 1.
  destruct (respond remote (FetchTimeEntries fromDate toDate) (remote_state w2))
    as [[te|e3] st3]; cbn [failure].
  2:{ eexists _, _, None, lookups, [(FetchTimeEntries fromDate toDate, Some e3)].
      split; [reflexivity|]. cbn [requests]. rewrite Hw2, <- app_assoc. cbn [app].
      split; [reflexivity|]. split; [apply lookups_are_lookups|].
      split; [congruence|].
      right. exists (Some e3), []. split; [reflexivity|].
      split; [constructor|congruence]. }
  set (w3 := Build_World st3 (requests w2 ++ [(FetchTimeEntries fromDate toDate, None)])).
  destruct (filterDuplicateEntries _ _) as [dd|e4].
  2:{ eexists _, _, None, lookups, [(FetchTimeEntries fromDate toDate, None)].
      split; [reflexivity|]. unfold w3. cbn [requests].
      rewrite Hw2, <- app_assoc. cbn [app].
      split; [reflexivity|]. split; [apply lookups_are_lookups|].
      split; [congruence|].
      right. exists None, []. split; [reflexivity|].
      split; [constructor|congruence]. }
  destruct (createTimeEntries_from_spec remote
              (DeduplicationResult.uniqueEntries dd)
              (CreateEntriesResult.mk [] [] 0 0) w3)
    as (cr & w4 & outcomes & E5 & _ & Hreq5 & _).
  unfold createTimeEntries. rewrite E5. cbn [mret M_ret].
  eexists _, w4, None, lookups,
    ((FetchTimeEntries fromDate toDate, None)
     :: zip_with (fun entry o => (CreateTimeEntry entry, o))
          (DeduplicationResult.uniqueEntries dd) outcomes).
  split; [reflexivity|].
  rewrite Hreq5. unfold w3. cbn [requests].
  rewrite Hw2, <- !app_assoc. cbn [app].
  split; [reflexivity|]. split; [apply lookups_are_lookups|].
  split; [congruence|].
  right. eexists None, _. split; [reflexivity|].
  split; [apply creations_are_creations|auto].
Qed.

End RequestOrder.

(* ===================================================================== *)
(** * The properties at work                                              *)
(* ===================================================================== *)

Section Runs.
Import Scenario.
#[local] Existing Instance strict_host.

(** ** The tests of the repository *)

Example normalizeTimestamp_timezone_formats :
  normalizeTimestamp "2025-10-01T09:00:00Z" = Ok "2025-10-01T09:00:00.000Z"
  /\ normalizeTimestamp "2025-10-01T09:00:00+00:00" = Ok "2025-10-01T09:00:00.000Z"
  /\ normalizeTimestamp "2025-10-01T11:00:00+02:00" = Ok "2025-10-01T09:00:00.000Z".
Proof. repeat split; reflexivity. Qed.

Example filterDuplicateEntries_filters_out_duplicates :
  filterDuplicateEntries [entry1; entry2; entry3]
    [ExistingEntry.mk "2025-10-01T09:00:00+00:00"]
  = Ok (DeduplicationResult.mk [entry2; entry3] [entry1] 1).
Proof. vm_compute. reflexivity. Qed.

Example transform_basic :
  transformTempoWorklogToToggl
    (worklog 123 (Some (Issue.mk "https://jira.example.com/issue/PROJ-123"
                          (Num 456) None None))
       "09:00:00" (Some "Working on feature") 3600) config
  = TogglTimeEntryPayload.mk (Num 12345) (Own (Some (Num 67890)))
      (Own (Some (Num 7))) true "2025-10-01T09:00:00Z" Absent (Num 3600)
      "https://jira.example.com/issue/PROJ-123 | Working on feature"
      "test-suite" Absent.
Proof. reflexivity. Qed.

(** ** C1 *)

Lemma filterDuplicateEntries_partition_run :
  Forall (fun c => parsable (TogglTimeEntryPayload.start c)) [entry1; entry2]
  /\ Forall (fun e => parsable (ExistingEntry.start e))
       [ExistingEntry.mk "2025-10-01T09:00:00+00:00"]
  /\ exists r,
       filterDuplicateEntries [entry1; entry2]
         [ExistingEntry.mk "2025-10-01T09:00:00+00:00"] = Ok r
       /\ DeduplicationResult.uniqueEntries r ++ DeduplicationResult.duplicates r
          ≡ₚ [entry1; entry2]
       /\ DeduplicationResult.skippedCount r
          = Z.of_nat (length (DeduplicationResult.duplicates r)).
Proof.
  assert (Forall (fun c => parsable (TogglTimeEntryPayload.start c))
            [entry1; entry2])
    as Hc by (repeat constructor; vm_compute; eexists; reflexivity).
  assert (Forall (fun e => parsable (ExistingEntry.start e))
            [ExistingEntry.mk "2025-10-01T09:00:00+00:00"])
    as He by (repeat constructor; vm_compute; eexists; reflexivity).
  split; [exact Hc|]. split; [exact He|].
  destruct (filterDuplicateEntries_partition _ _ Hc He)
    as (r & E & _ & _ & Hperm & _ & _ & Hcount & _).
  exists r. auto.
Defined.

(** ** C2 *)

Lemma normalizeTimestamp_same_instant_run :
  IsoTimestamp.render nine_utc = "2025-10-01T09:00:00Z"
  /\ IsoTimestamp.render nine_utc_from_west = "2025-10-01T03:30:00.000-05:30"
  /\ IsoTimestamp.valid nine_utc = true
  /\ IsoTimestamp.valid nine_utc_from_west = true
  /\ IsoTimestamp.instant nine_utc = IsoTimestamp.instant nine_utc_from_west
  /\ normalizeTimestamp (IsoTimestamp.render nine_utc)
     = normalizeTimestamp (IsoTimestamp.render nine_utc_from_west).
Proof.
  repeat apply conj;
    [reflexivity|reflexivity|reflexivity|reflexivity|reflexivity|].
  apply (normalizeTimestamp_same_instant nine_utc nine_utc_from_west);
    reflexivity.
Defined.

(** ** C3 *)

Lemma transform_description_run :
  TogglTimeEntryPayload.description (transformTempoWorklogToToggl resolved config)
  = "WEB-1: fix bug"
  /\ TogglTimeEntryPayload.description
       (transformTempoWorklogToToggl unresolved config)
     = "https://x/issue/9 | call"
  /\ TogglTimeEntryPayload.description (transformTempoWorklogToToggl wl4 config)
     = "".
Proof.
  repeat apply conj.
  - destruct (transform_description resolved config) as (Hkey & _).
    destruct (Hkey _ "WEB-1" eq_refl eq_refl) as [E _]; [discriminate|].
    rewrite E. reflexivity.
  - destruct (transform_description unresolved config) as (_ & Huri & _).
    destruct (Huri _ eq_refl) as [E _]; [now right|discriminate|].
    rewrite E. reflexivity.
  - destruct (transform_description wl4 config) as (_ & _ & Hnone & _).
    destruct Hnone as [E _]; [now left|].
    rewrite E. reflexivity.
Defined.

(** The earlier revision does not look at the key. *)
Example Earlier_description_with_key :
  TogglTimeEntryPayload.description
    (Earlier.transformTempoWorklogToToggl resolved config)
  = "https://jira.example.com/issue/456 | fix bug".
Proof. reflexivity. Qed.

(** ** C4 *)

Lemma syncTimeEntries_never_raises_run :
  stage_failure (service source_down) "2025-10-01" "2025-10-02" start_world
    (http_error "Failed to fetch Tempo worklogs")
    (Build_World 1 [(FetchWorklogs "2025-10-01" "2025-10-02",
                     Some (http_error "Failed to fetch Tempo worklogs"))])
  /\ syncTimeEntries (service source_down) "2025-10-01" "2025-10-02" start_world
     = (Ok (SyncResult.mk 0 0 0 0 0 0
              ["Failed to fetch Tempo worklogs: 500 Internal Server Error - "]),
        Build_World 1 [(FetchWorklogs "2025-10-01" "2025-10-02",
                        Some (http_error "Failed to fetch Tempo worklogs"))]).
Proof.
  assert (stage_failure (service source_down) "2025-10-01" "2025-10-02" start_world
            (http_error "Failed to fetch Tempo worklogs")
            (Build_World 1 [(FetchWorklogs "2025-10-01" "2025-10-02",
                             Some (http_error "Failed to fetch Tempo worklogs"))]))
    as Hf by (apply source_fetch_fails; reflexivity).
  split; [exact Hf|].
  destruct (syncTimeEntries_never_raises (service source_down)
              "2025-10-01" "2025-10-02" start_world) as (_ & _ & Hmsg).
  exact (Hmsg _ _ _ Hf).
Defined.

(** ** C5 *)

Example syncTimeEntries_busy_day :
  syncTimeEntries (service busy_day) "2025-10-01" "2025-10-02" start_world
  = (Ok (SyncResult.mk 4 1 3 1 2 1
           ["Failed to create entry: Failed to create time entry: 500 Internal Server Error - "]),
     Build_World 7
       [(FetchWorklogs "2025-10-01" "2025-10-02", None);
        (FetchJiraIssue issue_url, None);
        (FetchJiraIssue lost_issue_url,
         Some (http_error "Failed to fetch Jira issue"));
        (FetchTimeEntries "2025-10-01" "2025-10-02", None);
        (CreateTimeEntry
           (transformTempoWorklogToToggl
              (with_details wl2 (Issue.mk issue_url (Num 456) None None)
                 (IssueDetails.mk "WEB-1" "Fix the bug")) config), None);
        (CreateTimeEntry
           (transformTempoWorklogToToggl
              (with_details wl3 (Issue.mk lost_issue_url (Num 9) None None)
                 (IssueDetails.mk "" "")) config),
         Some (http_error "Failed to create time entry"));
        (CreateTimeEntry (transformTempoWorklogToToggl wl4 config), None)]).
Proof. vm_compute. reflexivity. Qed.


(** ** C6 *)

(** With the configuration of [main.ts], which has no task identifier,
    neither field is read or sent; with a configuration that has both,
    both are. *)
Lemma transform_optional_fields_run :
  read (TogglTimeEntryPayload.project_id
          (transformTempoWorklogToToggl wl1 config_without_task)) = None
  /\ read (TogglTimeEntryPayload.task_id
             (transformTempoWorklogToToggl wl1 config_without_task)) = None
  /\ ("project_id" ∉ wire_names (transformTempoWorklogToToggl wl1 config_without_task))
  /\ ("task_id" ∉ wire_names (transformTempoWorklogToToggl wl1 config_without_task))
  /\ ("task_id"
        ∉ wire_names (Earlier.transformTempoWorklogToToggl wl1 config_without_task))
  /\ read (TogglTimeEntryPayload.project_id
             (transformTempoWorklogToToggl wl1 config)) = Some (Num 67890)
  /\ read (TogglTimeEntryPayload.task_id
             (transformTempoWorklogToToggl wl1 config)) = Some (Num 7).
Proof.
  destruct (transform_optional_fields wl1 config_without_task) as (Hboth & _).
  destruct (Hboth _ (or_introl eq_refl)) as (_ & _ & _ & _ & Hp & Ht).
  destruct (Hboth _ (or_intror eq_refl)) as (_ & _ & _ & _ & _ & Ht').
  destruct (transform_optional_fields wl1 config) as (_ & Htask & Hproject).
  destruct (Hp eq_refl) as [Hpr Hpw].
  destruct (Ht eq_refl) as [Htr Htw].
  destruct (Ht' eq_refl) as [_ Htw'].
  repeat apply conj.
  - exact Hpr.
  - exact Htr.
  - exact Hpw.
  - exact Htw.
  - exact Htw'.
  - exact (proj1 (Hproject (Num 67890) eq_refl eq_refl)).
  - exact (proj1 (Htask (Num 7) eq_refl)).
Defined.

(** What the payload of the later revision looks like on the wire when a
    configured number is not a number. *)
Example toJSON_of_NaN :
  TogglTimeEntryPayload.toJSON
    (transformTempoWorklogToToggl wl4
       (TempoToTogglConfig.mk (Num 12345) (Some NaN) (Some NaN) None))
  = [("workspace_id", JNumber (Num 12345)); ("task_id", JNull);
     ("billable", JBool true); ("start", JString "2025-10-01T12:00:00Z");
     ("duration", JNumber (Num 3600)); ("description", JString "");
     ("created_with", JString "tempo-to-toggl-sync")].
Proof. reflexivity. Qed.

(** ** C7 *)

(** Nothing in the source, two entries in the sink: the counter of the
    sink entries is not zero. *)
Lemma syncTimeEntries_empty_source_counts_sink :
  respond (scripted quiet_day) (FetchWorklogs "2025-10-01" "2025-10-02")
    (remote_state start_world)
  = (Ok ([] : list TempoWorklog.t), 1)
  /\ fst (syncTimeEntries (service quiet_day) "2025-10-01" "2025-10-02" start_world)
     = Ok (SyncResult.mk 0 2 0 0 0 0 [])
  /\ SyncResult.mk 0 2 0 0 0 0 [] <> SyncResult.mk 0 0 0 0 0 0 [].
Proof.
  repeat apply conj;
    [vm_compute; reflexivity|vm_compute; reflexivity|discriminate].
Qed.

Lemma syncTimeEntries_empty_source_run :
  syncTimeEntries (service quiet_day) "2025-10-01" "2025-10-02" start_world
  = (Ok (SyncResult.mk 0 2 0 0 0 0 []),
     Build_World 2 [(FetchWorklogs "2025-10-01" "2025-10-02", None);
                    (FetchTimeEntries "2025-10-01" "2025-10-02", None)]).
Proof.
  apply (syncTimeEntries_empty_source (scripted quiet_day) config
           "2025-10-01" "2025-10-02" start_world 1 2
           [existing 900 "2025-10-01T09:00:00+00:00";
            existing 901 "2025-10-01T10:00:00Z"]).
  - reflexivity.
  - reflexivity.
  - repeat constructor; vm_compute; eexists; reflexivity.
Defined.

(** ** C8 *)

(** Strings that are no ISO-8601 timestamp and are normalised all the
    same: a date in the format of [toUTCString], on a host that reads it,
    and the thirtieth of February, which runs into March. *)
Lemma normalizeTimestamp_reads_other_strings :
  JsDate.parseISO (list_ascii_of_string "Wed, 01 Oct 2025 09:00:00 GMT") = None
  /\ @normalizeTimestamp lenient_host "Wed, 01 Oct 2025 09:00:00 GMT"
     = Ok "2025-10-01T09:00:00.000Z"
  /\ normalizeTimestamp "2025-02-30T00:00:00Z" = Ok "2025-03-02T00:00:00.000Z".
Proof. repeat split; vm_compute; reflexivity. Qed.

Lemma normalizeTimestamp_unparsable_run :
  JsDate.parse host_parse "not a date" = None
  /\ normalizeTimestamp "not a date"
     = Throw (ErrorObj "RangeError" "Invalid time value")
  /\ filterDuplicateEntries [payload "not a date" "Entry 1"] []
     = Throw (ErrorObj "RangeError" "Invalid time value").
Proof.
  assert (JsDate.parse host_parse "not a date" = None) as Hnone
    by (vm_compute; reflexivity).
  destruct (normalizeTimestamp_unparsable "not a date" Hnone) as [Hn Hf].
  repeat apply conj.
  - exact Hnone.
  - exact Hn.
  - apply Hf. right. eexists. split; [left|reflexivity].
Defined.

(** ** C9 *)

Example enrichWorklogsWithIssueDetails_busy_day :
  enrichWorklogsWithIssueDetails (scripted busy_day) [wl1; wl2; wl3; wl4]
    start_world
  = (Ok [with_details wl1 (Issue.mk issue_url (Num 456) None None)
           (IssueDetails.mk "WEB-1" "Fix the bug");
         with_details wl2 (Issue.mk issue_url (Num 456) None None)
           (IssueDetails.mk "WEB-1" "Fix the bug");
         with_details wl3 (Issue.mk lost_issue_url (Num 9) None None)
           (IssueDetails.mk "" "");
         wl4],
     Build_World 2
       [(FetchJiraIssue issue_url, None);
        (FetchJiraIssue lost_issue_url,
         Some (http_error "Failed to fetch Jira issue"))]).
Proof. vm_compute. reflexivity. Qed.


(** ** C10 *)

Lemma filterDuplicateEntries_within_batch_run :
  normalizeTimestamp (TogglTimeEntryPayload.start entry1)
  = normalizeTimestamp (TogglTimeEntryPayload.start entry1_again)
  /\ exists r u1 u2 u3,
       filterDuplicateEntries [entry1; entry1_again]
         [ExistingEntry.mk "2025-10-01T10:00:00Z"] = Ok r
       /\ DeduplicationResult.uniqueEntries r
          = u1 ++ entry1 :: u2 ++ entry1_again :: u3.
Proof.
  split; [reflexivity|].
  destruct (filterDuplicateEntries_within_batch [] [] [] entry1 entry1_again
              [ExistingEntry.mk "2025-10-01T10:00:00Z"]
              "2025-10-01T09:00:00.000Z")
    as (r & u1 & u2 & u3 & E & Hu & _).
  - repeat constructor; vm_compute; eexists; reflexivity.
  - repeat constructor; vm_compute; eexists; reflexivity.
  - reflexivity.
  - reflexivity.
  - intros e He. apply list_elem_of_singleton in He. subst e.
    vm_compute. discriminate.
  - exists r, u1, u2, u3. split; [exact E|exact Hu].
Defined.

End Runs.

(* ===================================================================== *)
(** * The further properties at work                                      *)
(* ===================================================================== *)

Section FurtherRuns.
Import Scenario Session.
#[local] Existing Instance strict_host.
#[local] Existing Instance Session.zone.

(** ** The terminal and the configuration, run *)

Example isValidDate_session :
  isValidDate other "2024-02-29" = true
  /\ isValidDate other "2025-02-29" = false
  /\ isValidDate other "2025-02-30" = false
  /\ isValidDate other "2025-13-01" = false
  /\ isValidDate other "2025-1-01" = false.
Proof. vm_compute. auto. Qed.

Example isDateInFuture_session :
  isDateInFuture other "2025-10-05" now = false
  /\ isDateInFuture other "2025-10-06" now = true.
Proof. vm_compute. auto. Qed.

Example promptForDateRange_session :
  promptForDateRange other terminal
  = Some (Ok (DateRange.mk "2025-10-01" "2025-10-03"),
          {| reads := []; clock := now |}).
Proof. vm_compute. reflexivity. Qed.

Example loadConfig_session :
  loadConfig env
  = Ok (AppConfig.mk "toggl-token" "tempo-token" (Num 12345)
          (Some (Num 67890)) (Num 7) "someone@example.com" "jira-token")
  /\ loadConfig (delete "JIRA_EMAIL" env)
     = Throw (ErrorObj "Error"
                "Missing required environment variable: JIRA_EMAIL")
  /\ loadConfig (<["TEMPO_TOKEN" := ""]> (delete "JIRA_EMAIL" env))
     = Throw (ErrorObj "Error"
                "Missing required environment variable: TEMPO_TOKEN").
Proof. vm_compute. auto. Qed.

Example main_session :
  main other (scripted busy_day) env terminal start_world
  = Some (Completed
            (SyncResult.mk 4 1 3 1 2 1
               ["Failed to create entry: Failed to create time entry: 500 Internal Server Error - "]),
          {| reads := []; clock := now |},
          snd (syncTimeEntries
                 (SyncServiceConfig.mk (new_TempoClient (scripted busy_day))
                    (new_TogglClient (scripted busy_day))
                    (TempoToTogglConfig.mk (Num 12345) (Some (Num 67890)) None
                       (Some "tempo-to-toggl-sync")))
                 "2025-10-01" "2025-10-03" start_world))
  /\ main other (scripted busy_day) (delete "TOGGL_TOKEN" env) terminal
       start_world
     = Some (Exit1 (ErrorObj "Error"
                      "Missing required environment variable: TOGGL_TOKEN"),
             {| reads := []; clock := now |}, start_world)
  /\ main other (scripted busy_day) env {| reads := []; clock := now |}
       start_world
     = Some (Exit1 (ErrorObj "Error" "Failed to read input"),
             {| reads := []; clock := now |}, start_world).
Proof. vm_compute. auto. Qed.

(** ** Normal forms *)

Lemma normalizeTimestamp_idempotent_run :
  host_in_range strict_host
  /\ normalizeTimestamp "2025-10-01T11:00:00+02:00"
     = Ok "2025-10-01T09:00:00.000Z"
  /\ normalizeTimestamp "2025-10-01T09:00:00.000Z"
     = Ok "2025-10-01T09:00:00.000Z".
Proof.
  assert (host_in_range strict_host) as Hh by (intros s t; discriminate).
  assert (normalizeTimestamp "2025-10-01T11:00:00+02:00"
          = Ok "2025-10-01T09:00:00.000Z") as Hn by (vm_compute; reflexivity).
  split; [exact Hh|]. split; [exact Hn|].
  exact (normalizeTimestamp_idempotent _ _ Hh Hn).
Defined.

Lemma normalizeTimestamp_tells_instants_apart_run :
  IsoTimestamp.valid nine_utc = true
  /\ IsoTimestamp.valid nine_utc_from_west = true
  /\ normalizeTimestamp (IsoTimestamp.render nine_utc)
     = normalizeTimestamp (IsoTimestamp.render nine_utc_from_west)
  /\ IsoTimestamp.instant nine_utc = IsoTimestamp.instant nine_utc_from_west.
Proof.
  assert (normalizeTimestamp (IsoTimestamp.render nine_utc)
          = normalizeTimestamp (IsoTimestamp.render nine_utc_from_west)) as Hn
    by (vm_compute; reflexivity).
  split; [reflexivity|]. split; [reflexivity|]. split; [exact Hn|].
  exact (normalizeTimestamp_tells_instants_apart nine_utc nine_utc_from_west
           eq_refl eq_refl Hn).
Defined.

Lemma filterDuplicateEntries_same_instant_run :
  Forall (fun c => exists ts, written (TogglTimeEntryPayload.start c) ts)
    [entry1_again; entry2]
  /\ Forall (fun e => exists ts, written (ExistingEntry.start e) ts)
       [ExistingEntry.mk "2025-10-01T09:00:00Z"]
  /\ exists r,
       filterDuplicateEntries [entry1_again; entry2]
         [ExistingEntry.mk "2025-10-01T09:00:00Z"] = Ok r
       /\ forall c ts,
            c ∈ [entry1_again; entry2] ->
            written (TogglTimeEntryPayload.start c) ts ->
            (c ∈ DeduplicationResult.duplicates r <->
             exists e ts', e ∈ [ExistingEntry.mk "2025-10-01T09:00:00Z"]
                           /\ written (ExistingEntry.start e) ts'
                           /\ IsoTimestamp.instant ts = IsoTimestamp.instant ts')
            /\ (c ∈ DeduplicationResult.uniqueEntries r <->
                forall e ts', e ∈ [ExistingEntry.mk "2025-10-01T09:00:00Z"] ->
                              written (ExistingEntry.start e) ts' ->
                              IsoTimestamp.instant ts <> IsoTimestamp.instant ts').
Proof.
  assert (Forall (fun c => exists ts, written (TogglTimeEntryPayload.start c) ts)
            [entry1_again; entry2]) as Hc.
  { constructor.
    - exists (IsoTimestamp.mk 2025 10 1 11 0 0 None (IsoTimestamp.East 2 0)).
      split; reflexivity.
    - constructor; [|constructor].
      exists (IsoTimestamp.mk 2025 10 1 10 0 0 None IsoTimestamp.Zulu).
      split; reflexivity. }
  assert (Forall (fun e => exists ts, written (ExistingEntry.start e) ts)
            [ExistingEntry.mk "2025-10-01T09:00:00Z"]) as He.
  { constructor; [|constructor]. exists nine_utc. split; reflexivity. }
  split; [exact Hc|]. split; [exact He|].
  exact (filterDuplicateEntries_same_instant _ _ Hc He).
Defined.

(** ** The filter *)

Lemma filterDuplicateEntries_idempotent_run :
  filterDuplicateEntries [entry1_again; entry2; entry3]
    [ExistingEntry.mk "2025-10-01T09:00:00Z"]
  = Ok (DeduplicationResult.mk [entry2; entry3] [entry1_again] 1)
  /\ filterDuplicateEntries [entry2; entry3]
       [ExistingEntry.mk "2025-10-01T09:00:00Z"]
     = Ok (DeduplicationResult.mk [entry2; entry3] [] 0).
Proof.
  assert (filterDuplicateEntries [entry1_again; entry2; entry3]
            [ExistingEntry.mk "2025-10-01T09:00:00Z"]
          = Ok (DeduplicationResult.mk [entry2; entry3] [entry1_again] 1)) as E
    by (vm_compute; reflexivity).
  split; [exact E|].
  exact (filterDuplicateEntries_idempotent _ _ _ E).
Defined.

Lemma filterDuplicateEntries_existing_as_set_run :
  filterDuplicateEntries [entry1; entry2; entry3]
    [ExistingEntry.mk "2025-10-01T09:00:00Z";
     ExistingEntry.mk "2025-10-01T10:00:00Z"]
  = filterDuplicateEntries [entry1; entry2; entry3]
      [ExistingEntry.mk "2025-10-01T12:00:00+02:00";
       ExistingEntry.mk "2025-10-01T09:00:00+00:00";
       ExistingEntry.mk "2025-10-01T11:00:00+02:00"].
Proof.
  apply filterDuplicateEntries_existing_as_set.
  - repeat constructor; vm_compute; eexists; reflexivity.
  - repeat constructor; vm_compute; eexists; reflexivity.
  - intros n. split; intros (e & He & Hn).
    + apply elem_of_cons in He as [-> | He];
        [|apply elem_of_cons in He as [-> | He]; [|inversion He]];
        vm_compute in Hn; injection Hn as <-.
      * exists (ExistingEntry.mk "2025-10-01T09:00:00+00:00").
        split; [right; left|vm_compute; reflexivity].
      * exists (ExistingEntry.mk "2025-10-01T12:00:00+02:00").
        split; [left|vm_compute; reflexivity].
    + apply elem_of_cons in He as [-> | He];
        [|apply elem_of_cons in He as [-> | He];
          [|apply elem_of_cons in He as [-> | He]; [|inversion He]]];
        vm_compute in Hn; injection Hn as <-.
      * exists (ExistingEntry.mk "2025-10-01T10:00:00Z").
        split; [right; left|vm_compute; reflexivity].
      * exists (ExistingEntry.mk "2025-10-01T09:00:00Z").
        split; [left|vm_compute; reflexivity].
      * exists (ExistingEntry.mk "2025-10-01T09:00:00Z").
        split; [left|vm_compute; reflexivity].
Defined.

Lemma filterDuplicateEntries_monotone_run :
  filterDuplicateEntries [entry1; entry2; entry3]
    [ExistingEntry.mk "2025-10-01T09:00:00Z"]
  = Ok (DeduplicationResult.mk [entry2; entry3] [entry1] 1)
  /\ filterDuplicateEntries [entry1; entry2; entry3]
       ([ExistingEntry.mk "2025-10-01T09:00:00Z"]
        ++ [ExistingEntry.mk "2025-10-01T11:00:00Z"])
     = Ok (DeduplicationResult.mk [entry2] [entry1; entry3] 2)
  /\ [entry2] `sublist_of` [entry2; entry3]
  /\ [entry1] `sublist_of` [entry1; entry3]
  /\ 1 <= 2.
Proof.
  assert (filterDuplicateEntries [entry1; entry2; entry3]
            [ExistingEntry.mk "2025-10-01T09:00:00Z"]
          = Ok (DeduplicationResult.mk [entry2; entry3] [entry1] 1)) as E
    by (vm_compute; reflexivity).
  assert (filterDuplicateEntries [entry1; entry2; entry3]
            ([ExistingEntry.mk "2025-10-01T09:00:00Z"]
             ++ [ExistingEntry.mk "2025-10-01T11:00:00Z"])
          = Ok (DeduplicationResult.mk [entry2] [entry1; entry3] 2)) as E'
    by (vm_compute; reflexivity).
  split; [exact E|]. split; [exact E'|].
  exact (filterDuplicateEntries_monotone _ _ _ _ _ E E').
Defined.

(** ** The service *)


Lemma transform_agrees_with_earlier_run :
  issue_key wl3 = None
  /\ TempoToTogglConfig.task_id config_without_task = None
  /\ TogglTimeEntryPayload.toJSON
       (transformTempoWorklogToToggl wl3 config_without_task)
     = TogglTimeEntryPayload.toJSON
         (Earlier.transformTempoWorklogToToggl wl3 config_without_task).
Proof.
  split; [reflexivity|]. split; [reflexivity|].
  exact (transform_agrees_with_earlier wl3 config_without_task eq_refl eq_refl).
Defined.

(** ** The dates *)

Lemma steady_session : steady Session.zone.
Proof. apply steady_fixed_zone. vm_compute. discriminate. Qed.

Lemma isValidDate_calendar_run :
  steady Session.zone
  /\ (isValidDate other "2024-02-29" = true
      <-> exists y m d, calendar_date y m d /\ "2024-02-29" = date_string y m d).
Proof.
  split; [exact steady_session|].
  exact (isValidDate_calendar other "2024-02-29" steady_session).
Defined.

Lemma isValidDateRange_earlier_run :
  steady Session.zone
  /\ calendar_date 2025 10 1
  /\ calendar_date 2025 10 3
  /\ (isValidDateRange other (date_string 2025 10 1) (date_string 2025 10 3)
      = true
      <-> earlier 2025 10 1 2025 10 3).
Proof.
  assert (calendar_date 2025 10 1) as C1
    by (repeat split; vm_compute; discriminate).
  assert (calendar_date 2025 10 3) as C2
    by (repeat split; vm_compute; discriminate).
  split; [exact steady_session|]. split; [exact C1|]. split; [exact C2|].
  exact (isValidDateRange_earlier other _ _ _ _ _ _ steady_session C1 C2).
Defined.

Lemma isDateInFuture_later_day_run :
  steady Session.zone
  /\ calendar_date 2025 10 6
  /\ Z.abs now <= 8640000000000000 - 2 * JsDate.msPerDay
  /\ (isDateInFuture other (date_string 2025 10 6) now = true
      <-> exists y0 m0 d0,
            JsLocal.local_date now = (y0, m0, d0)
            /\ earlier y0 m0 d0 2025 10 6).
Proof.
  assert (calendar_date 2025 10 6) as C
    by (repeat split; vm_compute; discriminate).
  assert (Z.abs now <= 8640000000000000 - 2 * JsDate.msPerDay) as Hn
    by (vm_compute; discriminate).
  split; [exact steady_session|]. split; [exact C|]. split; [exact Hn|].
  exact (isDateInFuture_later_day other _ _ _ _ steady_session C Hn).
Defined.

Lemma promptForDateRange_calendar_range_run :
  steady Session.zone
  /\ exists r tm',
       promptForDateRange other terminal = Some (r, tm')
       /\ match r with
          | Ok range =>
              exists y1 m1 d1 y2 m2 d2,
                calendar_date y1 m1 d1 /\ calendar_date y2 m2 d2
                /\ DateRange.startDate range = date_string y1 m1 d1
                /\ DateRange.endDate range = date_string y2 m2 d2
                /\ earlier y1 m1 d1 y2 m2 d2
          | Throw e => e = end_of_input /\ reads tm' = []
          end.
Proof.
  split; [exact steady_session|].
  exact (promptForDateRange_calendar_range other terminal steady_session).
Defined.

(** ** The configuration *)

Lemma parseInt10_decimal_run :
  0 <= 42 < 10 ^ Z.of_nat 4
  /\ 42 < 2 ^ 53
  /\ leading_digits (list_ascii_of_string "px") = []
  /\ parseInt10
       (string_of_list_ascii (JsDate.pad 4 42 ++ list_ascii_of_string "px"))
     = Num 42.
Proof.
  assert (0 <= 42 < 10 ^ Z.of_nat 4) as Hn
    by (vm_compute; split; [discriminate|reflexivity]).
  assert (42 < 2 ^ 53) as Hsmall by (vm_compute; reflexivity).
  split; [exact Hn|]. split; [exact Hsmall|]. split; [reflexivity|].
  exact (parseInt10_decimal 3 42 (list_ascii_of_string "px") Hn Hsmall eq_refl).
Defined.

(** From two to the fifty-third on, [parseInt] gives the nearest Number,
    a tie going to the even one, and beyond the largest Number an
    infinity. *)
Example parseInt10_rounds :
  parseInt10 "9007199254740992" = Num 9007199254740992
  /\ parseInt10 "9007199254740993" = Num 9007199254740992
  /\ parseInt10 "9007199254740995" = Num 9007199254740996
  /\ parseInt10 "-9007199254740993" = Num (-9007199254740992)
  /\ parseInt10 "123456789012345678901234567890"
     = Num 123456789012345677877719597056
  /\ parseInt10 "  +0042px" = Num 42
  /\ parseInt10 "px" = NaN
  /\ parseInt10 "" = NaN.
Proof. vm_compute. repeat split. Qed.

Example parseInt10_overflows :
  parseInt10 (string_of_list_ascii ("1"%char :: repeat "0"%char 308))
  = Num 100000000000000001097906362944045541740492309677311846336810682903157585404911491537163328978494688899061249669721172515611590283743140088328307009198146046031271664502933027185697489699588559043338384466165001178426897626212945177628091195786707458122783970171784415105291802893207873272974885715430223118336
  /\ parseInt10 (string_of_list_ascii ("1"%char :: repeat "0"%char 309))
     = Infinity false
  /\ parseInt10 (string_of_list_ascii ("-"%char :: "1"%char :: repeat "0"%char 309))
     = Infinity true.
Proof. vm_compute. repeat split. Qed.

Lemma payload_from_environment_run :
  exists config,
    loadConfig env = Ok config
    /\ TogglTimeEntryPayload.project_id
         (transformTempoWorklogToToggl wl1 (transformConfig_of config))
       = match parseInt10 <$> env !! "TOGGL_PROJECT_ID" with
         | Some (Num n) => if n =? 0 then Absent else Own (Some (Num n))
         | Some (Infinity negative) => Own (Some (Infinity negative))
         | _ => Absent
         end
    /\ TogglTimeEntryPayload.task_id
         (transformTempoWorklogToToggl wl1 (transformConfig_of config))
       = Own None.
Proof.
  destruct (loadConfig env) as [config|e] eqn:E;
    [|vm_compute in E; discriminate].
  exists config. split; [reflexivity|].
  destruct (payload_from_environment env config wl1 E) as (_ & Hp & Ht & _).
  split; [exact Hp|exact Ht].
Defined.

End FurtherRuns.
